(** * migrate_to_yaml: the Markdown extractors of .autoflow/migrate_to_yaml.py

    The script reads three Markdown documents (SPRINTS.md, TASK.md,
    COMPLETED_TASKS.md), extracts records from them with regular
    expressions and dumps the records as YAML.  This development embeds
    the three extractors and the orchestrator [main] and states the
    properties of the specification over that embedding.

    Conventions.
    - A Python [str] is a list of code points ([list N]).
    - [re] is embedded as a backtracking matcher over a syntax tree; the
      trees are obtained from the pattern texts of the script by
      [re_compile], so each pattern below is spelled as in the source.
    - [\w], [\d] and [int] consult the interpreter's Unicode tables,
      which are not part of the script: they are the fields of the class
      [UnicodeData].  Everything proved for an arbitrary instance holds
      for the interpreter's tables; closed examples run on [ascii_data].
    - White space ([str.isspace], behind [\s] and [strip]) is the
      interpreter's set, written out.
    - The file system, the clock and standard output are the [World] in
      which the script runs; a computation of the script is a function
      from worlds to a result, which may be an exception, and a world.
      What [yaml.dump] writes for a value is PyYAML's business: the class
      [PyYAML]. *)

From Stdlib Require Import NArith Ascii String.
From stdpp Require Import gmap strings list fin_maps.

Local Open Scope N_scope.
Local Open Scope nat_scope.
Local Open Scope list_scope.

(** ** Text *)

Abbreviation str := (list N).

(** The code points of a UTF-8 byte sequence. *)
Fixpoint utf8_decode (bs : list N) : str :=
  match bs with
  | [] => []
  | b :: bs1 =>
      if (b <? 128)%N then b :: utf8_decode bs1
      else match bs1 with
           | [] => [b]
           | b1 :: bs2 =>
               if (b <? 224)%N
               then ((b - 192) * 64 + (b1 - 128))%N :: utf8_decode bs2
               else match bs2 with
                    | [] => [b; b1]
                    | b2 :: bs3 =>
                        ((b - 224) * 4096 + (b1 - 128) * 64 + (b2 - 128))%N
                          :: utf8_decode bs3
                    end
           end
  end.

Fixpoint bytes_of (s : string) : list N :=
  match s with
  | EmptyString => []
  | String c s' => N_of_ascii c :: bytes_of s'
  end.

(** [u "abc"] is the text of a literal of this file (code points up to
    U+FFFF, which covers the literals of the script). *)
Definition u (s : string) : str := utf8_decode (bytes_of s).

Definition NL : N := 10%N.

(** [py "a\nb"] reads the literal the way Python reads a non-raw literal:
    backslash-n is a line feed, backslash-t a tab, backslash-backslash a
    backslash. *)
Fixpoint py_escapes (s : str) : str :=
  match s with
  | 92%N :: 110%N :: s' => NL :: py_escapes s'
  | 92%N :: 116%N :: s' => 9%N :: py_escapes s'
  | 92%N :: 92%N :: s' => 92%N :: py_escapes s'
  | c :: s' => c :: py_escapes s'
  | [] => []
  end.

Definition py (s : string) : str := py_escapes (u s).

(** [str.isspace] for one code point (the same set is used by [\s] and by
    [str.strip]). *)
Definition isspace (c : N) : bool :=
  bool_decide (c ∈ [9; 10; 11; 12; 13; 28; 29; 30; 31; 32; 133; 160; 5760;
                    8192; 8193; 8194; 8195; 8196; 8197; 8198; 8199; 8200;
                    8201; 8202; 8232; 8233; 8239; 8287; 12288]%N).

(** The tables of the interpreter that the script does not carry. *)
Class UnicodeData := {
  (** [Py_UNICODE_ISALNUM], behind [\w] *)
  uni_isalnum : N → bool;
  (** [Py_UNICODE_TODECIMAL], behind [\d] and [int] *)
  uni_decimal : N → option N;
  (** no alphanumeric character is white space *)
  uni_isalnum_not_space : ∀ c, uni_isalnum c = true → isspace c = false
}.

Definition ascii_isalnum (c : N) : bool :=
  ((48 <=? c) && (c <=? 57) || (65 <=? c) && (c <=? 90) || (97 <=? c) && (c <=? 122))%N.

Definition ascii_decimal (c : N) : option N :=
  if ((48 <=? c) && (c <=? 57))%N then Some (c - 48)%N else None.

(** The tables restricted to ASCII, on which the closed examples run. *)
Definition ascii_data : UnicodeData.
Proof.
  refine {| uni_isalnum := ascii_isalnum; uni_decimal := ascii_decimal |}.
  intros c Hc. destruct (isspace c) eqn:Hs; [|done].
  apply bool_decide_eq_true in Hs.
  repeat (apply elem_of_cons in Hs as [->|Hs]; [done|]).
  by apply elem_of_nil in Hs.
Defined.

(** [s.strip()] *)
Fixpoint lstrip (s : str) : str :=
  match s with
  | c :: s' => if isspace c then lstrip s' else s
  | [] => []
  end.

Definition rstrip (s : str) : str := reverse (lstrip (reverse s)).

Definition strip (s : str) : str := rstrip (lstrip s).

(** [s.startswith(p)] *)
Fixpoint startswith (p s : str) : bool :=
  match p, s with
  | [], _ => true
  | a :: p', b :: s' => (a =? b)%N && startswith p' s'
  | _ :: _, [] => false
  end.

(** [s.find(p)]: the least index at which [p] occurs in [s]. *)
Fixpoint find (p s : str) : option nat :=
  if startswith p s then Some 0
  else match s with
       | [] => None
       | _ :: s' => S <$> find p s'
       end.

(** [p in s] *)
Definition contains (p s : str) : bool := bool_decide (is_Some (find p s)).

(** [s.split(c)] for a one-character separator. *)
Fixpoint split_on (c : N) (s : str) : list str :=
  match s with
  | [] => [[]]
  | a :: s' =>
      if (a =? c)%N then [] :: split_on c s'
      else match split_on c s' with
           | l :: ls => (a :: l) :: ls
           | [] => [[a]]
           end
  end.

(** [s.split(sep, 1)]: [[s]] when [sep] does not occur. *)
Definition split_once (sep s : str) : list str :=
  match find sep s with
  | Some i => [take i s; drop (i + length sep) s]
  | None => [s]
  end.

(** [s[a:b]] for [0 <= a], [0 <= b]. *)
Definition slice (a b : nat) (s : str) : str := take (b - a) (drop a s).

(** ** Regular expressions: the part of [re] that the script uses *)

(** One-character matchers. *)
Inductive cset :=
| CLit (c : N)                    (* a literal character *)
| CAny                            (* [.] *)
| CSpace                          (* [\s] *)
| CDigit                          (* [\d] *)
| CWord                           (* [\w] *)
| CRange (ranges : list (N * N)). (* [[a-f0-9]] *)

Inductive regex :=
| Eps
| Chr (cs : cset)
| Cat (r1 r2 : regex)
| Rep (greedy : bool) (min : nat) (r : regex) (* [r*], [r+], [r*?], [r+?] *)
| Group (i : nat) (r : regex)                 (* [(r)], the i-th group *)
| Ahead (r : regex).                          (* [(?=r)] *)

(** [re.DOTALL] lets [.] match a line feed; [re.MULTILINE] changes the
    anchors only, and no pattern of the script has one. *)
Inductive flag := DOTALL | MULTILINE.

Global Instance flag_eq_dec : EqDecision flag.
Proof. solve_decision. Defined.

(** *** Patterns from their text ([re.compile]) *)

Definition cat (r1 r2 : regex) : regex :=
  match r2 with
  | Eps => r1
  | _ => Cat r1 r2
  end.

(** The items of a bracket class up to the closing bracket. *)
Fixpoint parse_class (s : str) (acc : list (N * N)) : option (cset * str) :=
  match s with
  | 93%N :: s' => Some (CRange (reverse acc), s')
  | a :: 45%N :: b :: s' =>
      if (b =? 93)%N then Some (CRange (reverse ((45, 45) :: (a, a) :: acc)%N), s')
      else parse_class s' ((a, b) :: acc)
  | a :: s' => parse_class s' ((a, a) :: acc)
  | [] => None
  end.

(** An escape: the character after the backslash. *)
Definition parse_escape (c : N) : cset :=
  if (c =? 100)%N then CDigit
  else if (c =? 115)%N then CSpace
  else if (c =? 119)%N then CWord
  else if (c =? 110)%N then CLit NL
  else CLit c.

(** A quantifier after an atom, if there is one. The forms [?], [{m,n}]
    are not used by the script and are refused. *)
Definition parse_quant (a : regex) (s : str) : option (regex * str) :=
  match s with
  | 42%N :: 63%N :: s' => Some (Rep false 0 a, s')
  | 43%N :: 63%N :: s' => Some (Rep false 1 a, s')
  | 42%N :: s' => Some (Rep true 0 a, s')
  | 43%N :: s' => Some (Rep true 1 a, s')
  | 63%N :: _ => None
  | 123%N :: _ => None
  | _ => Some (a, s)
  end.

(** A sequence of quantified atoms, up to a closing parenthesis or the end
    of the text; [n] is the number of the next capturing group. Alternation
    and anchors are not used by the script and are refused. *)
Fixpoint parse_seq (fuel n : nat) (s : str) : option (regex * nat * str) :=
  match fuel with
  | O => None
  | S fuel =>
      let continue (a : regex) (n1 : nat) (s1 : str) :=
        '(a', s2) ← parse_quant a s1;
        '(r, n2, s3) ← parse_seq fuel n1 s2;
        Some (cat a' r, n2, s3) in
      let group (mk : regex → regex) (n0 : nat) (s0 : str) :=
        '(r, n1, s1) ← parse_seq fuel n0 s0;
        match s1 with
        | 41%N :: s2 => continue (mk r) n1 s2
        | _ => None
        end in
      match s with
      | [] => Some (Eps, n, [])
      | 41%N :: _ => Some (Eps, n, s)
      | 40%N :: 63%N :: 58%N :: s0 => group (λ r, r) n s0
      | 40%N :: 63%N :: 61%N :: s0 => group Ahead n s0
      | 40%N :: 63%N :: _ => None
      | 40%N :: s0 => group (Group n) (S n) s0
      | 91%N :: s0 => '(cs, s1) ← parse_class s0 []; continue (Chr cs) n s1
      | 92%N :: c :: s0 => continue (Chr (parse_escape c)) n s0
      | 46%N :: s0 => continue (Chr CAny) n s0
      | 124%N :: _ | 94%N :: _ | 36%N :: _ | 42%N :: _ | 43%N :: _
      | 63%N :: _ | 123%N :: _ | 92%N :: [] => None
      | c :: s0 => continue (Chr (CLit c)) n s0
      end
  end.

Definition re_parse (p : string) : option regex :=
  match parse_seq (S (String.length p)) 1 (u p) with
  | Some (r, _, []) => Some r
  | _ => None
  end.

(** [re.compile]; every pattern of the script is in the accepted syntax. *)
Definition re_compile (p : string) : regex := default Eps (re_parse p).

(** *** Matching *)

Section Matching.
Context `{UnicodeData}.

Definition in_ranges (rs : list (N * N)) (c : N) : bool :=
  existsb (λ r, (r.1 <=? c) && (c <=? r.2))%N rs.

Definition cset_ok (fl : list flag) (cs : cset) (c : N) : bool :=
  match cs with
  | CLit a => (a =? c)%N
  | CAny => bool_decide (DOTALL ∈ fl) || negb (c =? NL)%N
  | CSpace => isspace c
  | CDigit => bool_decide (is_Some (uni_decimal c))
  | CWord => uni_isalnum c || (c =? 95)%N
  | CRange rs => in_ranges rs c
  end.

(** What remains to be matched: a continuation on the rest of the text
    and the groups seen so far. *)
Definition cont : Type := str → gmap nat str → option (str * gmap nat str).

(** The loop of a repetition with body [body]: a greedy repetition tries
    one more iteration before it tries to stop, a lazy one the other way
    round. An iteration that consumes nothing is not taken (no pattern
    of the script has one), so [S (length s)] rounds are enough. *)
Fixpoint rep_loop (body : str → gmap nat str → cont → option (str * gmap nat str))
    (greedy : bool) (k : cont) (fuel min : nat) (s : str) (g : gmap nat str)
    : option (str * gmap nat str) :=
  match fuel with
  | O => None
  | S fuel =>
      let again (_ : unit) :=
        body s g (λ s' g', if decide (length s' < length s)
                           then rep_loop body greedy k fuel (pred min) s' g'
                           else None) in
      let stop (_ : unit) :=
        match min with O => k s g | S _ => None end in
      if greedy
      then match again () with Some x => Some x | None => stop () end
      else match stop () with Some x => Some x | None => again () end
  end.

(** The backtracking matcher, in continuation-passing style: [k] is what
    remains to be matched after [r]. *)
Fixpoint sre_match (fl : list flag) (r : regex) (s : str) (g : gmap nat str)
    (k : cont) : option (str * gmap nat str) :=
  match r with
  | Eps => k s g
  | Chr cs =>
      match s with
      | c :: s' => if cset_ok fl cs c then k s' g else None
      | [] => None
      end
  | Cat r1 r2 => sre_match fl r1 s g (λ s' g', sre_match fl r2 s' g' k)
  | Group i r1 =>
      sre_match fl r1 s g
        (λ s' g', k s' (<[i := take (length s - length s') s]> g'))
  | Ahead r1 =>
      match sre_match fl r1 s g (λ s' g', Some (s', g')) with
      | Some (_, g') => k s g'
      | None => None
      end
  | Rep greedy min r1 =>
      rep_loop (sre_match fl r1) greedy k (S (length s)) min s g
  end.

(** A match object: [start()], [end()] and the groups ([group(0)] is the
    whole match). *)
Record Match := { m_start : nat; m_end : nat; m_groups : gmap nat str }.

(** [m.group(i)]; every group of the script's patterns takes part in
    every match, so the [None] of a group that did not is not modelled. *)
Definition group (m : Match) (i : nat) : str := default [] (m_groups m !! i).

(** A match of [r] that starts exactly at the head of [s], which is at
    index [pos] of the whole text. *)
Definition match_at (fl : list flag) (r : regex) (pos : nat) (s : str)
    : option Match :=
  match sre_match fl r s ∅ (λ s' g, Some (s', g)) with
  | Some (s', g) =>
      let n := length s - length s' in
      Some {| m_start := pos; m_end := pos + n;
              m_groups := <[0 := take n s]> g |}
  | None => None
  end.

(** The leftmost match in [s], the text from index [pos] on. *)
Fixpoint search_from (fl : list flag) (r : regex) (pos : nat) (s : str)
    : option Match :=
  match match_at fl r pos s with
  | Some m => Some m
  | None =>
      match s with
      | [] => None
      | _ :: s' => search_from fl r (S pos) s'
      end
  end.

(** [re.search(r, s, flags)] *)
Definition re_search (r : regex) (s : str) (fl : list flag) : option Match :=
  search_from fl r 0 s.

(** [re.finditer(r, s, flags)]: the successive leftmost matches that do
    not overlap. After an empty match the scan moves on by one
    character (no pattern of the script matches the empty text). *)
Fixpoint finditer_from (fuel : nat) (fl : list flag) (r : regex)
    (pos : nat) (s : str) : list Match :=
  match fuel with
  | O => []
  | S fuel =>
      match search_from fl r pos s with
      | None => []
      | Some m =>
          let s' := drop (m_end m - pos) s in
          m :: (if decide (m_start m < m_end m)
                then finditer_from fuel fl r (m_end m) s'
                else match s' with
                     | [] => []
                     | _ :: s'' => finditer_from fuel fl r (S (m_end m)) s''
                     end)
      end
  end.

Definition re_finditer (r : regex) (s : str) (fl : list flag) : list Match :=
  finditer_from (S (length s)) fl r 0 s.

End Matching.

(** ** Exceptions *)

Inductive exn :=
| ValueError (literal : str)          (* [int] of a text that is no number *)
| FileNotFoundError (path : string)   (* [read_text] of a missing file *)
| PermissionError (path : string).    (* [open(path, 'w')] refused *)

Inductive result (A : Type) :=
| Ok (a : A)
| Raise (e : exn).
Arguments Ok {A} a.
Arguments Raise {A} e.

Global Instance result_ret : MRet result := λ A a, Ok a.
Global Instance result_bind : MBind result := λ A B f r,
  match r with
  | Ok a => f a
  | Raise e => Raise e
  end.

(** [for x in l: ys.append(f(x))], stopping at the first exception. *)
Fixpoint for_each {A B} (f : A → result B) (l : list A) : result (list B) :=
  match l with
  | [] => Ok []
  | x :: l' => y ← f x; ys ← for_each f l'; Ok (y :: ys)
  end.

(** [int(s)] for the texts the script passes, which are [\d+] groups: the
    decimal value of a non-empty run of decimal digits. The sign, the
    underscores and the surrounding blanks that [int] also accepts never
    occur in such a group and are left out. *)
Definition int `{UnicodeData} (s : str) : result Z :=
  match s with
  | [] => Raise (ValueError s)
  | _ =>
      match foldl (λ acc c, n ← acc; d ← uni_decimal c; Some (10 * n + d)%N)
                  (Some 0%N) s with
      | Some n => Ok (Z.of_N n)
      | None => Raise (ValueError s)
      end
  end.

(** ** The environment: files, clock, standard output *)

(** A clock reading, as far as the script looks at it. *)
Record datetime := {
  strftime_Ymd : str;   (* [strftime('%Y-%m-%d')] *)
  isoformat : str       (* [isoformat()] *)
}.

(** What [print] wrote. *)
Inductive printed :=
| Text (s : str)          (* [print(s)] *)
| ErrorText (e : exn).    (* [print(f"... Error: {e}\n")] of an [except] branch *)

Record World := {
  files : gmap string str;    (* the text files, by path *)
  readonly : gset string;     (* paths that cannot be opened for writing *)
  clock : nat → datetime;     (* the successive readings of the clock *)
  ticks : nat;                (* how many readings were taken *)
  stdout : list printed
}.

(** Computations of the script: they may raise and they change the world. *)
Definition M (A : Type) : Type := World → result A * World.

Global Instance M_ret : MRet M := λ A a w, (Ok a, w).
Global Instance M_bind : MBind M := λ A B f c w,
  match c w with
  | (Ok a, w') => f a w'
  | (Raise e, w') => (Raise e, w')
  end.

Definition lift {A} (r : result A) : M A := λ w, (r, w).

(** [Path(path).read_text()] *)
Definition read_text (path : string) : M str := λ w,
  match files w !! path with
  | Some text => (Ok text, w)
  | None => (Raise (FileNotFoundError path), w)
  end.

(** [datetime.now()] *)
Definition datetime_now : M datetime := λ w,
  (Ok (clock w (ticks w)),
   {| files := files w; readonly := readonly w; clock := clock w;
      ticks := S (ticks w); stdout := stdout w |}).

(** [with open(path, 'w') as f: f.write(text)] *)
Definition write_text (path : string) (text : str) : M unit := λ w,
  if decide (path ∈ readonly w) then (Raise (PermissionError path), w)
  else (Ok (),
        {| files := <[path := text]> (files w); readonly := readonly w;
           clock := clock w; ticks := ticks w; stdout := stdout w |}).

Definition print (p : printed) : M unit := λ w,
  (Ok (),
   {| files := files w; readonly := readonly w; clock := clock w;
      ticks := ticks w; stdout := stdout w ++ [p] |}).

(** [try: body except Exception as e: handler(e)] *)
Definition try_except {A} (body : M A) (handler : exn → M A) : M A := λ w,
  match body w with
  | (Ok a, w') => (Ok a, w')
  | (Raise e, w') => handler e w'
  end.

(** ** The records *)

Module Progress.
Record t := { completed : Z; total : Z }.
End Progress.

(** A task summary inside a sprint. *)
Module SprintTask.
Record t := { id : str; status : str; title : str }.
End SprintTask.

Module Sprint.
Record t := {
  id : Z;
  goal : str;
  status : str;
  duration : str;
  progress : Progress.t;
  deliverables : list str;
  tasks : list SprintTask.t;
  completed : option str    (* the key is absent when [None] *)
}.
End Sprint.

Module Project.
Record t := {
  name : str;
  total_sprints : Z;
  current_sprint : Z;
  last_updated : str
}.
End Project.

Module SprintsData.
Record t := { project : Project.t; sprints : list Sprint.t }.
End SprintsData.

(** ** parse_sprints_md *)

Module SprintsMd.
Section SprintsMd.
Context `{UnicodeData}.

Definition project_pattern : regex :=
  Eval vm_compute in re_compile "\*\*Project\*\*:\s*(.+)".

Definition total_sprints_pattern : regex :=
  Eval vm_compute in re_compile "\*\*Total Sprints\*\*:\s*(\d+)".

Definition sprint_pattern : regex :=
  Eval vm_compute in re_compile
    "## Sprint (\d+):\s*(.+?)\n\n\*\*Duration\*\*:\s*(.+?)\n\*\*Status\*\*:\s*(\w+)\n\*\*Progress\*\*:\s*(\d+)/(\d+)".

Definition next_sprint_pattern : regex :=
  Eval vm_compute in re_compile "## Sprint \d+:".

Definition deliverables_pattern : regex :=
  Eval vm_compute in re_compile "### Deliverables\n\n((?:\d+\..*\n)+)".

Definition sprint_task_pattern : regex :=
  Eval vm_compute in re_compile "`(task-\d+)`\s*\[(\w+)\]\s*-\s*(.+)".

(** [sprints_md[match.start():sprint_section_end]] (lines 34-37) *)
Definition sprint_content (sprints_md : str) (m : Match) : str :=
  let sprint_section_start := m_start m in
  let next_sprint := re_search next_sprint_pattern (drop (m_end m) sprints_md) [] in
  let sprint_section_end :=
    match next_sprint with
    | Some n => m_end m + m_start n
    | None => length sprints_md
    end in
  slice sprint_section_start sprint_section_end sprints_md.

(** Lines 40-44. *)
Definition sprint_deliverables (sprint_content : str) : list str :=
  match re_search deliverables_pattern sprint_content [] with
  | Some deliverables_match =>
      let deliverables_text := group deliverables_match 1 in
      (λ line, strip (drop 3 (strip line)))
        <$> filter (λ line, strip line ≠ []) (split_on NL deliverables_text)
  | None => []
  end.

(** Lines 47-58. *)
Definition sprint_tasks (sprint_content : str) : list SprintTask.t :=
  (λ task_match,
     {| SprintTask.id := group task_match 1;
        SprintTask.status := group task_match 2;
        SprintTask.title := strip (group task_match 3) |})
    <$> re_finditer sprint_task_pattern sprint_content [].

(** The body of the loop over the sprint headers (lines 26-77). *)
Definition sprint_data (sprints_md : str) (m : Match) : result Sprint.t :=
  sprint_id ← int (group m 1);
  let goal := strip (group m 2) in
  let duration := strip (group m 3) in
  let status := strip (group m 4) in
  completed_tasks ← int (group m 5);
  total_tasks ← int (group m 6);
  let sprint_content := sprint_content sprints_md m in
  let deliverables := sprint_deliverables sprint_content in
  let tasks := sprint_tasks sprint_content in
  Ok {| Sprint.id := sprint_id;
        Sprint.goal := goal;
        Sprint.status := status;
        Sprint.duration := duration;
        Sprint.progress := {| Progress.completed := completed_tasks;
                              Progress.total := total_tasks |};
        Sprint.deliverables := deliverables;
        Sprint.tasks := tasks;
        Sprint.completed :=
          if decide (status = u "COMPLETE") then Some (u "2025-10-04")
          else None |}.

(** [next((s['id'] for s in sprints if s['status'] == 'ACTIVE'), 1)] *)
Definition current_sprint_of (sprints : list Sprint.t) : Z :=
  match filter (λ s, Sprint.status s = u "ACTIVE") sprints with
  | s :: _ => Sprint.id s
  | [] => 1%Z
  end.

Definition parse_sprints_md : M SprintsData.t :=
  sprints_md ← read_text ".autoflow/SPRINTS.md";
  let project_match := re_search project_pattern sprints_md [] in
  let total_sprints_match := re_search total_sprints_pattern sprints_md [] in
  let project_name :=
    match project_match with
    | Some m => group m 1
    | None => u "CraftyPrep - Laser Engraving Image Prep Tool"
    end in
  total_sprints ← lift (match total_sprints_match with
                        | Some m => int (group m 1)
                        | None => Ok 7%Z
                        end);
  sprints ← lift (for_each (sprint_data sprints_md)
                    (re_finditer sprint_pattern sprints_md []));
  let current_sprint := current_sprint_of sprints in
  now ← datetime_now;
  mret {| SprintsData.project :=
            {| Project.name := project_name;
               Project.total_sprints := total_sprints;
               Project.current_sprint := current_sprint;
               Project.last_updated := strftime_Ymd now |};
          SprintsData.sprints := sprints |}.

End SprintsMd.
End SprintsMd.

Module Criterion.
Record t := { criterion : str; completed : bool }.
End Criterion.

Module DocLink.
Record t := { title : str; path : str }.
End DocLink.

Module Task.
Record t := {
  id : str;
  title : str;
  priority : str;
  status : str;
  estimated : str;
  description : str;
  acceptance_criteria : list Criterion.t;
  blockers : option str;    (* the key is present, its value [None] *)
  documentation : list DocLink.t
}.
End Task.

Module ActiveSprint.
Record t := {
  id : Z;
  goal : str;
  duration : str;
  status : str;
  progress : Progress.t;
  last_updated : str
}.
End ActiveSprint.

Module TaskData.
Record t := { sprint : ActiveSprint.t; tasks : list Task.t }.
End TaskData.

(** ** parse_task_md *)

Module TaskMd.
Section TaskMd.
Context `{UnicodeData}.

Definition sprint_pattern : regex :=
  Eval vm_compute in re_compile "\*\*Current Sprint\*\*:\s*Sprint (\d+)\s*-\s*(.+)".

Definition goal_pattern : regex :=
  Eval vm_compute in re_compile "\*\*Sprint Goal\*\*:\s*(.+)".

Definition duration_pattern : regex :=
  Eval vm_compute in re_compile "\*\*Duration\*\*:\s*(.+)".

Definition status_pattern : regex :=
  Eval vm_compute in re_compile "\*\*Status\*\*:\s*(\w+)".

Definition progress_pattern : regex :=
  Eval vm_compute in re_compile "\*\*Progress\*\*:\s*(\d+)/(\d+)".

Definition task_pattern : regex :=
  Eval vm_compute in re_compile
    "### (Task \d+\.\d+):\s*(.+?)\n\n\*\*ID\*\*:\s*(task-\d+)\n\*\*Priority\*\*:\s*(\w+)\n\*\*Status\*\*:\s*(\w+)\n\*\*Estimated Effort\*\*:\s*(.+)".

Definition next_task_pattern : regex :=
  Eval vm_compute in re_compile "### Task \d+\.\d+:".

Definition desc_pattern : regex :=
  Eval vm_compute in re_compile "\*\*Description\*\*:\n(.+?)(?=\n\n\*\*)".

Definition criteria_pattern : regex :=
  Eval vm_compute in re_compile "\*\*Acceptance Criteria\*\*:\n((?:- \[.\] .+\n)+)".

Definition blockers_pattern : regex :=
  Eval vm_compute in re_compile "\*\*Blockers\*\*:\s*(.+)".

Definition docs_pattern : regex :=
  Eval vm_compute in re_compile "- \[(.+?)\]\((.+?)\)".

(** [task_md[match.start():task_end]] (lines 124-127) *)
Definition task_section (task_md : str) (m : Match) : str :=
  let task_start := m_start m in
  let next_task := re_search next_task_pattern (drop (m_end m) task_md) [] in
  let task_end :=
    match next_task with
    | Some n => m_end m + m_start n
    | None => length task_md
    end in
  slice task_start task_end task_md.

(** Lines 130-131. *)
Definition task_description (task_section : str) : str :=
  match re_search desc_pattern task_section [DOTALL] with
  | Some desc_match => strip (group desc_match 1)
  | None => []
  end.

(** The body of the loop over the checklist lines (lines 138-144). *)
Definition criterion_of_line (line : str) : Criterion.t :=
  let checked := contains (u "x") (take 6 line) in
  let criterion :=
    if contains (u "] ") line
    then strip (split_once (u "] ") line !!! 1)
    else line in
  {| Criterion.criterion := criterion; Criterion.completed := checked |}.

(** Lines 134-144. *)
Definition task_criteria (task_section : str) : list Criterion.t :=
  match re_search criteria_pattern task_section [] with
  | Some criteria_section =>
      criterion_of_line
        <$> filter (λ line, startswith (u "- [") (strip line) = true)
              (split_on NL (group criteria_section 1))
  | None => []
  end.

(** Lines 147-148 and 167. *)
Definition task_blockers (task_section : str) : option str :=
  let blockers_match := re_search blockers_pattern task_section [] in
  let blockers :=
    match blockers_match with
    | Some m => strip (group m 1)
    | None => u "None"
    end in
  if decide (blockers ≠ u "None") then Some blockers else None.

(** Lines 151-157. *)
Definition task_docs (task_section : str) : list DocLink.t :=
  (λ doc_match,
     {| DocLink.title := group doc_match 1;
        DocLink.path := group doc_match 2 |})
    <$> re_finditer docs_pattern task_section [].

(** The body of the loop over the task headers (lines 116-171). *)
Definition task_data (task_md : str) (m : Match) : Task.t :=
  let task_title := strip (group m 2) in
  let task_id := group m 3 in
  let priority := strip (group m 4) in
  let status_str := strip (group m 5) in
  let estimated := strip (group m 6) in
  let task_section := task_section task_md m in
  {| Task.id := task_id;
     Task.title := task_title;
     Task.priority := priority;
     Task.status := status_str;
     Task.estimated := estimated;
     Task.description := task_description task_section;
     Task.acceptance_criteria := task_criteria task_section;
     Task.blockers := task_blockers task_section;
     Task.documentation := task_docs task_section |}.

Definition parse_task_md : M TaskData.t :=
  task_md ← read_text ".autoflow/TASK.md";
  let sprint_match := re_search sprint_pattern task_md [] in
  let goal_match := re_search goal_pattern task_md [] in
  let duration_match := re_search duration_pattern task_md [] in
  let status_match := re_search status_pattern task_md [] in
  let progress_match := re_search progress_pattern task_md [] in
  sprint_id ← lift (match sprint_match with
                    | Some m => int (group m 1)
                    | None => Ok 3%Z
                    end);
  let goal := match goal_match with Some m => strip (group m 1) | None => [] end in
  let duration :=
    match duration_match with Some m => strip (group m 1) | None => u "TBD" end in
  let status :=
    match status_match with Some m => strip (group m 1) | None => u "ACTIVE" end in
  completed ← lift (match progress_match with
                    | Some m => int (group m 1)
                    | None => Ok 0%Z
                    end);
  total ← lift (match progress_match with
                | Some m => int (group m 2)
                | None => Ok 0%Z
                end);
  let tasks := task_data task_md <$> re_finditer task_pattern task_md [MULTILINE] in
  now ← datetime_now;
  mret {| TaskData.sprint :=
            {| ActiveSprint.id := sprint_id;
               ActiveSprint.goal := goal;
               ActiveSprint.duration := duration;
               ActiveSprint.status := status;
               ActiveSprint.progress := {| Progress.completed := completed;
                                           Progress.total := total |};
               ActiveSprint.last_updated := isoformat now ++ u "Z" |};
          TaskData.tasks := tasks |}.

End TaskMd.
End TaskMd.

Module CompletedTask.
Record t := {
  id : str;
  title : str;
  status : str;
  completed : str;
  estimated : str;
  actual : str;
  sprint : str;
  description : str;
  deliverables : list str;
  commit : option str;                (* the key is present, its value [None] *)
  quality_metrics : gmap string str   (* a dict with up to two keys *)
}.
End CompletedTask.

Module CompletedProject.
Record t := { name : str; last_updated : str }.
End CompletedProject.

Module CompletedData.
Record t := { project : CompletedProject.t; tasks : list CompletedTask.t }.
End CompletedData.

(** ** parse_completed_tasks_md *)

Module CompletedTasksMd.
Section CompletedTasksMd.
Context `{UnicodeData}.

Definition task_pattern : regex :=
  Eval vm_compute in re_compile
    "### Task \d+\.\d+:\s*(.+?)\n\n\*\*ID\*\*:\s*(task-\d+)\n\*\*Status\*\*:\s*(\w+)\n\*\*Completed\*\*:\s*(.+?)\n\*\*Estimated\*\*:\s*(.+?)\n\*\*Actual\*\*:\s*(.+?)\n\*\*Sprint\*\*:\s*(.+)".

Definition next_task_pattern : regex :=
  Eval vm_compute in re_compile "### Task \d+\.\d+:".

Definition desc_pattern : regex :=
  Eval vm_compute in re_compile "\*\*Description\*\*:\n(.+?)(?=\n\n\*\*)".

Definition deliv_pattern : regex :=
  Eval vm_compute in re_compile "\*\*Key Deliverables\*\*:\n((?:- ‚úÖ .+\n)+)".

Definition commit_pattern : regex :=
  Eval vm_compute in re_compile "\*\*Commit\*\*:\s*([a-f0-9]+)".

Definition tests_pattern : regex :=
  Eval vm_compute in re_compile "Tests passing:\s*(.+)".

Definition coverage_pattern : regex :=
  Eval vm_compute in re_compile "Code coverage:\s*(.+)".

(** [completed_md[match.start():task_end]] (lines 207-210) *)
Definition task_section (completed_md : str) (m : Match) : str :=
  let task_start := m_start m in
  let next_task := re_search next_task_pattern (drop (m_end m) completed_md) [] in
  let task_end :=
    match next_task with
    | Some n => m_end m + m_start n
    | None => length completed_md
    end in
  slice task_start task_end completed_md.

(** Lines 213-214. *)
Definition task_description (task_section : str) : str :=
  match re_search desc_pattern task_section [DOTALL] with
  | Some desc_match => strip (group desc_match 1)
  | None => []
  end.

(** Lines 217-220. *)
Definition task_deliverables (task_section : str) : list str :=
  match re_search deliv_pattern task_section [] with
  | Some deliv_match =>
      (λ line, strip (drop 4 (strip line)))
        <$> filter (λ line, strip line ≠ []) (split_on NL (group deliv_match 1))
  | None => []
  end.

(** Lines 223-224. *)
Definition task_commit (task_section : str) : option str :=
  match re_search commit_pattern task_section [] with
  | Some commit_match => Some (group commit_match 1)
  | None => None
  end.

(** Lines 227-234. *)
Definition task_quality_metrics (task_section : str) : gmap string str :=
  let tests_match := re_search tests_pattern task_section [] in
  let coverage_match := re_search coverage_pattern task_section [] in
  let quality_metrics : gmap string str := ∅ in
  let quality_metrics :=
    match tests_match with
    | Some m => <["tests_passing" := strip (group m 1)]> quality_metrics
    | None => quality_metrics
    end in
  let quality_metrics :=
    match coverage_match with
    | Some m => <["code_coverage" := strip (group m 1)]> quality_metrics
    | None => quality_metrics
    end in
  quality_metrics.

(** The body of the loop over the task headers (lines 198-250). *)
Definition task_data (completed_md : str) (m : Match) : CompletedTask.t :=
  let title := strip (group m 1) in
  let task_id := group m 2 in
  let status := strip (group m 3) in
  let completed_date := strip (group m 4) in
  let estimated := strip (group m 5) in
  let actual := strip (group m 6) in
  let sprint := strip (group m 7) in
  let task_section := task_section completed_md m in
  {| CompletedTask.id := task_id;
     CompletedTask.title := title;
     CompletedTask.status := status;
     CompletedTask.completed := completed_date;
     CompletedTask.estimated := estimated;
     CompletedTask.actual := actual;
     CompletedTask.sprint := sprint;
     CompletedTask.description := task_description task_section;
     CompletedTask.deliverables := task_deliverables task_section;
     CompletedTask.commit := task_commit task_section;
     CompletedTask.quality_metrics := task_quality_metrics task_section |}.

Definition parse_completed_tasks_md : M CompletedData.t :=
  completed_md ← read_text ".autoflow/COMPLETED_TASKS.md";
  let tasks :=
    task_data completed_md <$> re_finditer task_pattern completed_md [MULTILINE] in
  now ← datetime_now;
  mret {| CompletedData.project :=
            {| CompletedProject.name :=
                 u "CraftyPrep - Laser Engraving Image Prep Tool";
               CompletedProject.last_updated := isoformat now ++ u "Z" |};
          CompletedData.tasks := tasks |}.

End CompletedTasksMd.
End CompletedTasksMd.

(** ** Serialization and the orchestrator *)

(** The values handed to [yaml.dump]: the nested dicts and lists that the
    extractors build, the keys of a dict in insertion order. *)
#[local] Set Warnings "-register-all".
Inductive pyval :=
| PNone
| PInt (n : Z)
| PStr (s : str)
| PBool (b : bool)
| PList (l : list pyval)
| PDict (items : list (string * pyval)).

(** [yaml.dump(data, f, default_flow_style=False, sort_keys=False,
    allow_unicode=True)] is PyYAML's, not the script's: the text it writes
    for a value is a parameter. *)
Class PyYAML := { yaml_dump : pyval → str }.

Module ToPy.

Definition progress (p : Progress.t) : pyval :=
  PDict [("completed", PInt (Progress.completed p));
         ("total", PInt (Progress.total p))].

Definition sprint_task (t : SprintTask.t) : pyval :=
  PDict [("id", PStr (SprintTask.id t));
         ("status", PStr (SprintTask.status t));
         ("title", PStr (SprintTask.title t))].

Definition sprint (s : Sprint.t) : pyval :=
  PDict ([("id", PInt (Sprint.id s));
          ("goal", PStr (Sprint.goal s));
          ("status", PStr (Sprint.status s));
          ("duration", PStr (Sprint.duration s));
          ("progress", progress (Sprint.progress s));
          ("deliverables", PList (PStr <$> Sprint.deliverables s));
          ("tasks", PList (sprint_task <$> Sprint.tasks s))]
         ++ match Sprint.completed s with
            | Some d => [("completed", PStr d)]
            | None => []
            end).

Definition sprints_data (d : SprintsData.t) : pyval :=
  let p := SprintsData.project d in
  PDict [("project",
          PDict [("name", PStr (Project.name p));
                 ("total_sprints", PInt (Project.total_sprints p));
                 ("current_sprint", PInt (Project.current_sprint p));
                 ("last_updated", PStr (Project.last_updated p))]);
         ("sprints", PList (sprint <$> SprintsData.sprints d))].

Definition criterion (c : Criterion.t) : pyval :=
  PDict [("criterion", PStr (Criterion.criterion c));
         ("completed", PBool (Criterion.completed c))].

Definition doc_link (l : DocLink.t) : pyval :=
  PDict [("title", PStr (DocLink.title l)); ("path", PStr (DocLink.path l))].

Definition optional (o : option str) : pyval :=
  match o with
  | Some s => PStr s
  | None => PNone
  end.

Definition task (t : Task.t) : pyval :=
  PDict [("id", PStr (Task.id t));
         ("title", PStr (Task.title t));
         ("priority", PStr (Task.priority t));
         ("status", PStr (Task.status t));
         ("estimated", PStr (Task.estimated t));
         ("description", PStr (Task.description t));
         ("acceptance_criteria", PList (criterion <$> Task.acceptance_criteria t));
         ("blockers", optional (Task.blockers t));
         ("documentation", PList (doc_link <$> Task.documentation t))].

Definition task_data (d : TaskData.t) : pyval :=
  let s := TaskData.sprint d in
  PDict [("sprint",
          PDict [("id", PInt (ActiveSprint.id s));
                 ("goal", PStr (ActiveSprint.goal s));
                 ("duration", PStr (ActiveSprint.duration s));
                 ("status", PStr (ActiveSprint.status s));
                 ("progress", progress (ActiveSprint.progress s));
                 ("last_updated", PStr (ActiveSprint.last_updated s))]);
         ("tasks", PList (task <$> TaskData.tasks d))].

(** The metrics dict: [tests_passing] is inserted before [code_coverage]. *)
Definition quality_metrics (q : gmap string str) : pyval :=
  PDict (omap (λ k, (λ v, (k, PStr v)) <$> q !! k)
           ["tests_passing"; "code_coverage"]).

Definition completed_task (t : CompletedTask.t) : pyval :=
  PDict [("id", PStr (CompletedTask.id t));
         ("title", PStr (CompletedTask.title t));
         ("status", PStr (CompletedTask.status t));
         ("completed", PStr (CompletedTask.completed t));
         ("estimated", PStr (CompletedTask.estimated t));
         ("actual", PStr (CompletedTask.actual t));
         ("sprint", PStr (CompletedTask.sprint t));
         ("description", PStr (CompletedTask.description t));
         ("deliverables", PList (PStr <$> CompletedTask.deliverables t));
         ("commit", optional (CompletedTask.commit t));
         ("quality_metrics", quality_metrics (CompletedTask.quality_metrics t))].

Definition completed_data (d : CompletedData.t) : pyval :=
  let p := CompletedData.project d in
  PDict [("project",
          PDict [("name", PStr (CompletedProject.name p));
                 ("last_updated", PStr (CompletedProject.last_updated p))]);
         ("tasks", PList (completed_task <$> CompletedData.tasks d))].

End ToPy.

Module Orchestrator.
Section Orchestrator.
Context `{UnicodeData} `{PyYAML}.

(** [with open(path, 'w') as f: yaml.dump(data, f, ...)] *)
Definition dump_to (path : string) (data : pyval) : M unit :=
  write_text path (yaml_dump data).

(** What the three [try] blocks do before they report success. *)
Definition migrate_sprints : M unit :=
  sprints_data ← SprintsMd.parse_sprints_md;
  dump_to ".autoflow/SPRINTS.yml" (ToPy.sprints_data sprints_data).

Definition migrate_task : M unit :=
  task_data ← TaskMd.parse_task_md;
  dump_to ".autoflow/TASK.yml" (ToPy.task_data task_data).

Definition migrate_completed : M unit :=
  completed_data ← CompletedTasksMd.parse_completed_tasks_md;
  dump_to ".autoflow/COMPLETED_TASKS.yml" (ToPy.completed_data completed_data).

Definition main : M unit :=
  print (Text (py "üîÑ Migrating auto-flow files from Markdown to YAML...\n"));;
  print (Text (py "1. Migrating SPRINTS.md to SPRINTS.yml..."));;
  try_except
    (migrate_sprints;;
     print (Text (py "   ‚úÖ SPRINTS.yml created successfully\n")))
    (λ e, print (ErrorText e));;
  print (Text (py "2. Migrating TASK.md to TASK.yml..."));;
  try_except
    (migrate_task;;
     print (Text (py "   ‚úÖ TASK.yml created successfully\n")))
    (λ e, print (ErrorText e));;
  print (Text (py "3. Migrating COMPLETED_TASKS.md to COMPLETED_TASKS.yml..."));;
  try_except
    (migrate_completed;;
     print (Text (py "   ‚úÖ COMPLETED_TASKS.yml created successfully\n")))
    (λ e, print (ErrorText e));;
  print (Text (py "‚ú® Migration complete!"));;
  print (Text (py "\nNext steps:"));;
  print (Text (py "  1. Review the generated YAML files"));;
  print (Text (py "  2. Backup the Markdown files"));;
  print (Text (py "  3. Test with auto-flow commands")).

End Orchestrator.
End Orchestrator.

(** * Specification *)

(** ** What a match is, declaratively *)

Section Semantics.
Context `{UnicodeData} (fl : list flag).

(** [matches r w rest g g']: the text [w], followed by [rest], is an
    instance of [r]; the groups go from [g] to [g']. Only a lookahead
    looks at [rest]. *)
Inductive matches : regex → str → str → gmap nat str → gmap nat str → Prop :=
| matches_eps rest g : matches Eps [] rest g g
| matches_chr cs c rest g :
    cset_ok fl cs c = true → matches (Chr cs) [c] rest g g
| matches_cat r1 r2 w1 w2 rest g g1 g2 :
    matches r1 w1 (w2 ++ rest) g g1 → matches r2 w2 rest g1 g2 →
    matches (Cat r1 r2) (w1 ++ w2) rest g g2
| matches_group i r w rest g g' :
    matches r w rest g g' → matches (Group i r) w rest g (<[i := w]> g')
| matches_ahead r w rest g g' :
    matches r w rest g g' → matches (Ahead r) [] (w ++ rest) g g'
| matches_rep_stop greedy r rest g : matches (Rep greedy 0 r) [] rest g g
| matches_rep_more greedy min r w1 w2 rest g g1 g2 :
    w1 ≠ [] →
    matches r w1 (w2 ++ rest) g g1 →
    matches (Rep greedy (pred min) r) w2 rest g1 g2 →
    matches (Rep greedy min r) (w1 ++ w2) rest g g2.

(** [found r doc m]: [m] is a match of [r] in [doc], with [start()],
    [end()] and the groups as they should be. *)
Definition found (r : regex) (doc : str) (m : Match) : Prop :=
  ∃ pre w rest g,
    doc = pre ++ w ++ rest ∧ matches r w rest ∅ g ∧
    m_start m = length pre ∧ m_end m = length pre + length w ∧
    m_groups m = <[0 := w]> g.

(** [r] has an instance somewhere in [doc]. *)
Definition occurs (r : regex) (doc : str) : Prop :=
  ∃ pre w rest g, doc = pre ++ w ++ rest ∧ matches r w rest ∅ g.

End Semantics.

(** Groups change only under [Group]. *)
Fixpoint group_free (r : regex) : bool :=
  match r with
  | Eps | Chr _ => true
  | Cat r1 r2 => group_free r1 && group_free r2
  | Rep _ _ r1 | Ahead r1 => group_free r1
  | Group _ _ => false
  end.

(** ** The shapes of the texts that the patterns accept *)

Section Shapes.
Context `{UnicodeData}.

(** [\s*], [\d+], [\w+] and [.+] (without [DOTALL]) *)
Definition spaces (s : str) : Prop := Forall (λ c, isspace c = true) s.
Definition digits (s : str) : Prop :=
  s ≠ [] ∧ Forall (λ c, is_Some (uni_decimal c)) s.
Definition word (s : str) : Prop :=
  s ≠ [] ∧ Forall (λ c, uni_isalnum c || (c =? 95)%N = true) s.
Definition inline (s : str) : Prop := s ≠ [] ∧ NL ∉ s.

(** A sprint header with its six groups. *)
Definition sprint_header (w n goal dur st c t : str) : Prop :=
  ∃ ws1 ws2 ws3 ws4,
    w = u "## Sprint " ++ n ++ u ":" ++ ws1 ++ goal
          ++ py "\n\n**Duration**:" ++ ws2 ++ dur
          ++ py "\n**Status**:" ++ ws3 ++ st
          ++ py "\n**Progress**:" ++ ws4 ++ c ++ u "/" ++ t ∧
    spaces ws1 ∧ spaces ws2 ∧ spaces ws3 ∧ spaces ws4 ∧
    digits n ∧ inline goal ∧ inline dur ∧ word st ∧ digits c ∧ digits t.

End Shapes.

(** ** The shapes in a task section *)

(** A line of a checklist block: the marker [c] between the brackets,
    then the text of the criterion. *)
Definition checklist_line (line : str) (c : N) (text : str) : Prop :=
  line = u "- [" ++ [c] ++ u "] " ++ text ∧ c ≠ NL ∧ inline text.

(** A description boundary: somewhere after the description label, a
    blank line immediately followed by the two stars of a bold label. *)
Definition description_boundary (section : str) : Prop :=
  ∃ a b c, section = a ++ py "**Description**:\n" ++ b ++ py "\n\n**" ++ c.

(** The same, as a test that runs. *)
Fixpoint boundary_after_label (s : str) : bool :=
  startswith (py "**Description**:\n") s
    && contains (py "\n\n**") (drop (length (py "**Description**:\n")) s)
  || match s with
     | [] => false
     | _ :: s' => boundary_after_label s'
     end.


(** ** A run of [main], step by step *)

(** The documents that the extractors read. *)
Definition documents : list string :=
  [".autoflow/SPRINTS.md"; ".autoflow/TASK.md"; ".autoflow/COMPLETED_TASKS.md"].

(** Two worlds hold the same three documents. *)
Definition same_documents (wa wb : World) : Prop :=
  ∀ path, path ∈ documents → files wa !! path = files wb !! path.

(** Two worlds are at the same point of the same clock. *)
Definition same_clock (wa wb : World) : Prop :=
  clock wa = clock wb ∧ ticks wa = ticks wb.

(** The world after some more lines were printed. *)
Definition printing (lines : list printed) (w : World) : World :=
  {| files := files w; readonly := readonly w; clock := clock w;
     ticks := ticks w; stdout := stdout w ++ lines |}.

(** The line that a [try] block of [main] prints: the success line when
    the attempt returned, the error line when it raised. *)
Definition outcome (attempt : M unit) (success : str) (w : World) : printed :=
  match attempt w with
  | (Ok _, _) => Text success
  | (Raise e, _) => ErrorText e
  end.

Section Steps.
Context `{UnicodeData} `{PyYAML}.
Import Orchestrator.

(** The worlds in which the three pipelines start, and the one in which
    [main] ends. *)
Definition before_sprints (w : World) : World :=
  printing [Text (py "üîÑ Migrating auto-flow files from Markdown to YAML...\n"); Text (py "1. Migrating SPRINTS.md to SPRINTS.yml...")] w.

Definition before_task (w : World) : World :=
  let w1 := before_sprints w in
  printing [outcome migrate_sprints (py "   ‚úÖ SPRINTS.yml created successfully\n") w1; Text (py "2. Migrating TASK.md to TASK.yml...")]
    (migrate_sprints w1).2.

Definition before_completed (w : World) : World :=
  let w2 := before_task w in
  printing [outcome migrate_task (py "   ‚úÖ TASK.yml created successfully\n") w2; Text (py "3. Migrating COMPLETED_TASKS.md to COMPLETED_TASKS.yml...")]
    (migrate_task w2).2.

Definition after_main (w : World) : World :=
  let w3 := before_completed w in
  printing [outcome migrate_completed (py "   ‚úÖ COMPLETED_TASKS.yml created successfully\n") w3;
            Text (py "‚ú® Migration complete!"); Text (py "\nNext steps:"); Text (py "  1. Review the generated YAML files");
            Text (py "  2. Backup the Markdown files"); Text (py "  3. Test with auto-flow commands")]
    (migrate_completed w3).2.

(** What the three extractors return in the course of a run of [main]. *)
Definition extracted (w : World)
    : result SprintsData.t * result TaskData.t * result CompletedData.t :=
  ((SprintsMd.parse_sprints_md (before_sprints w)).1,
   (TaskMd.parse_task_md (before_task w)).1,
   (CompletedTasksMd.parse_completed_tasks_md (before_completed w)).1).

End Steps.

(** The records without their time stamps. *)
Definition sprints_untimed (d : SprintsData.t) : SprintsData.t :=
  let p := SprintsData.project d in
  {| SprintsData.project :=
       {| Project.name := Project.name p;
          Project.total_sprints := Project.total_sprints p;
          Project.current_sprint := Project.current_sprint p;
          Project.last_updated := [] |};
     SprintsData.sprints := SprintsData.sprints d |}.

Definition task_untimed (d : TaskData.t) : TaskData.t :=
  let s := TaskData.sprint d in
  {| TaskData.sprint :=
       {| ActiveSprint.id := ActiveSprint.id s;
          ActiveSprint.goal := ActiveSprint.goal s;
          ActiveSprint.duration := ActiveSprint.duration s;
          ActiveSprint.status := ActiveSprint.status s;
          ActiveSprint.progress := ActiveSprint.progress s;
          ActiveSprint.last_updated := [] |};
     TaskData.tasks := TaskData.tasks d |}.

Definition completed_untimed (d : CompletedData.t) : CompletedData.t :=
  {| CompletedData.project :=
       {| CompletedProject.name := CompletedProject.name (CompletedData.project d);
          CompletedProject.last_updated := [] |};
     CompletedData.tasks := CompletedData.tasks d |}.

Definition result_map {A B} (f : A → B) (r : result A) : result B :=
  match r with
  | Ok a => Ok (f a)
  | Raise e => Raise e
  end.

Definition untimed
    (rs : result SprintsData.t * result TaskData.t * result CompletedData.t)
    : result SprintsData.t * result TaskData.t * result CompletedData.t :=
  (result_map sprints_untimed rs.1.1, result_map task_untimed rs.1.2,
   result_map completed_untimed rs.2).

(** The world after one more reading of the clock. *)
Definition ticked (w : World) : World :=
  {| files := files w; readonly := readonly w; clock := clock w;
     ticks := S (ticks w); stdout := stdout w |}.

(** What a pipeline may change in the world: it leaves the three
    documents and the clock alone, it reads the clock once exactly when
    its document [doc] is there, and it prints nothing. *)
Definition pipeline_frame (doc : string) (w w' : World) : Prop :=
  (∀ path, path ∈ documents → files w' !! path = files w !! path) ∧
  clock w' = clock w ∧
  ticks w' = (if files w !! doc is Some _ then S (ticks w) else ticks w) ∧
  stdout w' = stdout w.

(** ** Labels and their values *)

(** A pattern that begins with the literal text [l]. *)
Definition lits (l : str) (r : regex) : regex :=
  foldr (λ c r, Cat (Chr (CLit c)) r) r l.

(** [w] is a maximal run of characters that satisfy [ok] before [rest]:
    the run stops at the end of the text or at a character that does
    not satisfy [ok]. *)
Definition run_of (ok : N → bool) (w rest : str) : Prop :=
  Forall (λ c, ok c = true) w ∧
  match rest with
  | [] => True
  | c :: _ => ok c = false
  end.

(** [value] is the run of [ok] characters that follows the first
    occurrence of [label] in [doc], white space skipped (line breaks
    too); it begins with a character that is no white space. *)
Definition first_run (ok : N → bool) (label doc value : str) : Prop :=
  ∃ i ws c v rest,
    find label doc = Some i ∧
    drop (i + length label) doc = ws ++ value ++ rest ∧
    spaces ws ∧
    value = c :: v ∧ isspace c = false ∧
    run_of ok value rest.




(** The hash after the first [label]: the characters [a] to [f] and [0]
    to [9] up to the first other character. *)
Definition first_hash : str → str → str → Prop :=
  first_run (λ c, ((97 <=? c) && (c <=? 102) || (48 <=? c) && (c <=? 57))%N).



(** The description of a task section: the text between the first
    description label and the first description boundary (a blank line
    followed by two stars) that starts after the first character of the
    text. *)
Definition first_description (section text : str) : Prop :=
  ∃ i c v rest,
    find (py "**Description**:\n") section = Some i ∧
    drop (i + length (py "**Description**:\n")) section
      = text ++ py "\n\n**" ++ rest ∧
    text = c :: v ∧
    find (py "\n\n**") (v ++ py "\n\n**" ++ rest) = Some (length v).

(** ** Spans *)

(** The text that ends a span: [## Sprint <digits>:] in the sprint plan,
    [### Task <digits>.<digits>:] in the two task documents. *)
Definition sprint_heading `{UnicodeData} (h : str) : Prop :=
  ∃ d, h = u "## Sprint " ++ d ++ u ":" ∧ digits d.

Definition task_heading `{UnicodeData} (h : str) : Prop :=
  ∃ d1 d2, h = u "### Task " ++ d1 ++ u "." ++ d2 ++ u ":" ∧ digits d1 ∧ digits d2.

(** [span] is the part of [doc] that begins at index [start] with the
    [len] characters of a header and runs up to the first heading that
    starts after them, or to the end of [doc] when there is none. *)
Definition span_to_next (heading : str → Prop) (doc : str) (start len : nat)
    (span : str) : Prop :=
  ∃ pre head tail rest,
    doc = pre ++ head ++ tail ++ rest ∧
    length pre = start ∧ length head = len ∧
    span = head ++ tail ∧
    (∀ a h c, tail ++ rest = a ++ h ++ c → heading h → length tail ≤ length a) ∧
    (rest = [] ∨ ∃ h c, rest = h ++ c ∧ heading h).

(** ** Headers, lines and links *)

(** A task header of the active-task document with its six groups. *)
Definition task_header `{UnicodeData} (w name title id prio st est : str) : Prop :=
  ∃ d1 d2 d ws1 ws2 ws3 ws4 ws5,
    name = u "Task " ++ d1 ++ u "." ++ d2 ∧
    id = u "task-" ++ d ∧
    w = u "### " ++ name ++ u ":" ++ ws1 ++ title
          ++ py "\n\n**ID**:" ++ ws2 ++ id
          ++ py "\n**Priority**:" ++ ws3 ++ prio
          ++ py "\n**Status**:" ++ ws4 ++ st
          ++ py "\n**Estimated Effort**:" ++ ws5 ++ est ∧
    spaces ws1 ∧ spaces ws2 ∧ spaces ws3 ∧ spaces ws4 ∧ spaces ws5 ∧
    digits d1 ∧ digits d2 ∧ digits d ∧
    inline title ∧ word prio ∧ word st ∧ inline est.

(** A task header of the completed-task log with its seven groups. *)
Definition completed_header `{UnicodeData}
    (w title id st date est act sprint : str) : Prop :=
  ∃ d1 d2 d ws1 ws2 ws3 ws4 ws5 ws6 ws7,
    id = u "task-" ++ d ∧
    w = u "### Task " ++ d1 ++ u "." ++ d2 ++ u ":" ++ ws1 ++ title
          ++ py "\n\n**ID**:" ++ ws2 ++ id
          ++ py "\n**Status**:" ++ ws3 ++ st
          ++ py "\n**Completed**:" ++ ws4 ++ date
          ++ py "\n**Estimated**:" ++ ws5 ++ est
          ++ py "\n**Actual**:" ++ ws6 ++ act
          ++ py "\n**Sprint**:" ++ ws7 ++ sprint ∧
    spaces ws1 ∧ spaces ws2 ∧ spaces ws3 ∧ spaces ws4 ∧ spaces ws5 ∧
    spaces ws6 ∧ spaces ws7 ∧
    digits d1 ∧ digits d2 ∧ digits d ∧
    inline title ∧ word st ∧ inline date ∧ inline est ∧ inline act ∧ inline sprint.

(** A tagged task line of a sprint with its three groups: the
    identifier between back quotes, the status between brackets, a dash,
    the title. *)
Definition task_line `{UnicodeData} (w id st title : str) : Prop :=
  ∃ d ws1 ws2 ws3,
    id = u "task-" ++ d ∧
    w = u "`" ++ id ++ u "`" ++ ws1 ++ u "[" ++ st ++ u "]" ++ ws2 ++ u "-"
          ++ ws3 ++ title ∧
    spaces ws1 ∧ spaces ws2 ∧ spaces ws3 ∧
    digits d ∧ word st ∧ inline title.

(** A link item of a task section: [- [title](path)], the title and the
    path on one line and not empty. *)
Definition link_item (item title path : str) : Prop :=
  item = u "- [" ++ title ++ u "](" ++ path ++ u ")" ∧ inline title ∧ inline path.

(** ** Lists of deliverables *)


(** A line of the deliverables of a completed task: a dash, a blank,
    the three characters of the marker as the pattern has them, a blank,
    then the text. *)
Definition marked_line (line text : str) : Prop :=
  line = u "- ‚úÖ " ++ text ∧ inline text.


(** ** The files of a run *)

(** The files that [main] writes. *)
Definition outputs : list string :=
  [".autoflow/SPRINTS.yml"; ".autoflow/TASK.yml"; ".autoflow/COMPLETED_TASKS.yml"].

(** The clock does not move: every reading is the same. *)
Definition frozen_clock (w : World) : Prop := ∀ i j, clock w i = clock w j.

(** ** Worlds for the examples *)

Definition sample_clock : nat → datetime :=
  λ _, {| strftime_Ymd := u "2025-10-05"; isoformat := u "2025-10-05T09:30:00" |}.

(** A world with the given files, all writable, and nothing printed. *)
Definition world_of (fs : list (string * str)) : World :=
  {| files := list_to_map fs; readonly := ∅; clock := sample_clock;
     ticks := 0; stdout := [] |}.

(** The scenario of the specification: one complete sprint. *)
Definition settings_panel_md : str :=
  py "## Sprint 2: Settings Panel\n\n**Duration**: 1 week\n**Status**: COMPLETE\n**Progress**: 5/5".



(** A sprint with deliverables numbered with one, two and three digits. *)
Definition numbered_deliverables_md : str :=
  py "## Sprint 1: Foundation\n\n**Duration**: 1 week\n**Status**: ACTIVE\n**Progress**: 0/3\n\n### Deliverables\n\n1. Upload\n12. Export\n100. Presets\n".

(** An active-task document: one task with a checklist, the blocker line
    [None] and a link, and one whose description runs to the end of its
    span without a boundary. *)
Definition active_task_md : str :=
  py "**Current Sprint**: Sprint 3 - Material Presets\n**Sprint Goal**: Presets\n**Progress**: 2/7\n\n### Task 3.1: Export\n\n**ID**: task-020\n**Priority**: HIGH\n**Status**: PLANNED\n**Estimated Effort**: 4 hours\n\n**Description**:\nExport the image.\n\n**Acceptance Criteria**:\n- [ ] Format chosen\n- [x] Export works\n\n**Blockers**: None\n\n- [Plan](.autoflow/tasks/task-020/PLAN.md)\n\n### Task 3.2: Undo\n\n**ID**: task-021\n**Priority**: LOW\n**Status**: PLANNED\n**Estimated Effort**: 1 hour\n\n**Description**:\nUndo the last change.\n**Blockers**: waiting for task-020\n".

(** A completed-task log: one task with both metric lines, one with
    neither and with a description without a boundary. *)
Definition completed_log_md : str :=
  py "### Task 1.1: Setup\n\n**ID**: task-001\n**Status**: COMPLETE\n**Completed**: 2025-10-04\n**Estimated**: 4 hours\n**Actual**: 3 hours\n**Sprint**: Sprint 1\n\n**Description**:\nProject scaffold.\n\n**Commit**: abc123\n\n- Tests passing: 12/12\n- Code coverage: 85%\n\n### Task 1.2: Upload\n\n**ID**: task-002\n**Status**: COMPLETE\n**Completed**: 2025-10-04\n**Estimated**: 2 hours\n**Actual**: 2 hours\n**Sprint**: Sprint 1\n\n**Description**:\nFile upload.\n".

(** The world of the examples for the two task documents. *)
Definition task_world : World :=
  world_of [(".autoflow/TASK.md", active_task_md);
            (".autoflow/COMPLETED_TASKS.md", completed_log_md)].

(** A stand-in for PyYAML in the examples, which do not depend on the
    text of a dump: the keys of a dict, one per line. *)
Definition kind_yaml : PyYAML :=
  {| yaml_dump := λ v,
       match v with
       | PNone => u "null"
       | PInt _ => u "int"
       | PStr s => s
       | PBool _ => u "bool"
       | PList l => u "list"
       | PDict items => concat ((λ kv, u kv.1 ++ [NL]) <$> items)
       end |}.

(** The three documents of the examples, and the world of a second run:
    the files that a first run left, the clock set back. *)
Definition first_run_world : World :=
  world_of [(".autoflow/SPRINTS.md", settings_panel_md);
            (".autoflow/TASK.md", active_task_md);
            (".autoflow/COMPLETED_TASKS.md", completed_log_md)].

Definition second_run_world : World :=
  {| files := files (after_main (H := ascii_data) (H0 := kind_yaml) first_run_world);
     readonly := ∅; clock := sample_clock; ticks := 0; stdout := [] |}.

(** A world in which the active-task document is missing and the
    completed-task output cannot be written. *)
Definition broken_world : World :=
  {| files := list_to_map [(".autoflow/SPRINTS.md", settings_panel_md);
                           (".autoflow/COMPLETED_TASKS.md", completed_log_md)];
     readonly := {[ ".autoflow/COMPLETED_TASKS.yml" ]};
     clock := sample_clock; ticks := 0; stdout := [] |}.

(** A sprint plan with a project header and three sprints; between the
    second and the third stands a heading whose header is not
    recognised, with a task line under it. *)
Definition sprint_plan_md : str :=
  py "# Sprint plan\n\n**Project**: CraftyPrep \n**Total Sprints**: 3\n\n## Sprint 1: Foundation\n\n**Duration**: 1 week\n**Status**: COMPLETE\n**Progress**: 2/2\n\n### Deliverables\n\n1. Upload\n12. Export\n100. Presets\n\n- `task-001` [DONE] - Project setup\n\n## Sprint 2: Processing\n\n**Duration**: 2 weeks\n**Status**: ACTIVE\n**Progress**: 1/3\n\n- `task-002` [ACTIVE] - Grayscale \n\n## Sprint 9:\n\n- `task-099` [PENDING] - Lost\n\n## Sprint 3: Presets\n\n**Duration**: 1 week\n**Status**: ACTIVE\n**Progress**: 0/4\n".

Definition sprint_plan_world : World :=
  world_of [(".autoflow/SPRINTS.md", sprint_plan_md)].

(** A completed-task log whose task has a block of deliverables and a
    commit line. *)
Definition delivered_log_md : str :=
  py "### Task 1.1: Setup\n\n**ID**: task-001\n**Status**: COMPLETE\n**Completed**: 2025-10-04\n**Estimated**: 4 hours\n**Actual**: 3 hours\n**Sprint**: Sprint 1\n\n**Key Deliverables**:\n- ‚úÖ Upload widget\n- ‚úÖ Tests\n\n**Commit**: a1b2c3d (squashed)\n\n- Tests passing: 12/12 \n".

Definition delivered_log_world : World :=
  world_of [(".autoflow/COMPLETED_TASKS.md", delivered_log_md)].

(** A world without files. *)
Definition empty_world : World := world_of [].

(** * Facts about the matcher and the text functions *)

Section MatcherFacts.
Context `{UnicodeData} (fl : list flag).

Lemma rep_loop_sound body greedy r k :
  (∀ s g k' res, body s g k' = Some res →
     ∃ w s' g', s = w ++ s' ∧ matches fl r w s' g g' ∧ k' s' g' = Some res) →
  ∀ fuel min s g res,
    rep_loop body greedy k fuel min s g = Some res →
    ∃ w s' g', s = w ++ s' ∧ matches fl (Rep greedy min r) w s' g g' ∧ k s' g' = Some res.
Proof.
  intros Hbody. induction fuel as [|fuel IH]; intros min s g res; [done|].
  simpl. intros Hrun.
  assert (Hagain : ∀ res,
    body s g (λ s' g', if decide (length s' < length s)
                       then rep_loop body greedy k fuel (pred min) s' g'
                       else None) = Some res →
    ∃ w s' g', s = w ++ s' ∧ matches fl (Rep greedy min r) w s' g g' ∧ k s' g' = Some res).
  { intros res' Hb. apply Hbody in Hb as (w1 & s1 & g1 & -> & Hm1 & Hk).
    case_decide as Hlen; [|done].
    apply IH in Hk as (w2 & s2 & g2 & -> & Hm2 & Hk).
    exists (w1 ++ w2), s2, g2. split; [by rewrite (assoc_L (++))|]. split; [|done].
    eapply matches_rep_more; [|done..].
    intros ->. simpl in Hlen. lia. }
  assert (Hstop : ∀ res, match min with O => k s g | S _ => None end = Some res →
    ∃ w s' g', s = w ++ s' ∧ matches fl (Rep greedy min r) w s' g g' ∧ k s' g' = Some res).
  { intros res' Hs. destruct min; [|done]. exists [], s, g. split; [done|]. split; [constructor|done]. }
  destruct greedy.
  - destruct (body _ _ _) eqn:Hb; [|by apply Hstop]. simplify_eq. by apply Hagain.
  - destruct (match min with O => _ | S _ => _ end) eqn:Hs.
    + simplify_eq. by apply Hstop.
    + by apply Hagain.
Qed.

Lemma sre_match_sound r : ∀ s g k res,
  sre_match fl r s g k = Some res →
  ∃ w s' g', s = w ++ s' ∧ matches fl r w s' g g' ∧ k s' g' = Some res.
Proof.
  induction r as [|cs|r1 IH1 r2 IH2|greedy min r IH|i r IH|r IH]; intros s g k res; cbn [sre_match].
  - intros Hk. exists [], s, g. split; [done|]. split; [constructor|done].
  - destruct s as [|c s]; [done|]. destruct (cset_ok fl cs c) eqn:Hc; [|done].
    intros Hk. exists [c], s, g. split; [done|]. split; [by constructor|done].
  - intros Hrun. apply IH1 in Hrun as (w1 & s1 & g1 & -> & Hm1 & Hrun).
    apply IH2 in Hrun as (w2 & s2 & g2 & -> & Hm2 & Hk).
    exists (w1 ++ w2), s2, g2. split; [by rewrite (assoc_L (++))|].
    split; [by econstructor|done].
  - by apply rep_loop_sound.
  - intros Hrun. apply IH in Hrun as (w & s' & g' & -> & Hm & Hk).
    rewrite length_app, Nat.add_sub, take_app_length in Hk.
    exists w, s', (<[i := w]> g'). split; [done|]. split; [by constructor|done].
  - destruct (sre_match fl r s g _) as [[s0 g0]|] eqn:Hin; [|done].
    apply IH in Hin as (w & s' & g' & -> & Hm & Hk). simplify_eq.
    intros Hk. exists [], (w ++ s0), g0. split; [done|]. split; [by constructor|done].
Qed.

(** Success is monotone in the continuation and in the fuel. *)
Lemma rep_loop_mono body greedy k1 k2 :
  (∀ s g k k', (∀ s' g', is_Some (k s' g') → is_Some (k' s' g')) →
     is_Some (body s g k) → is_Some (body s g k')) →
  (∀ s' g', is_Some (k1 s' g') → is_Some (k2 s' g')) →
  ∀ f1 f2 min s g, f1 ≤ f2 →
    is_Some (rep_loop body greedy k1 f1 min s g) →
    is_Some (rep_loop body greedy k2 f2 min s g).
Proof.
  intros Hbody Hk. induction f1 as [|f1 IH]; intros f2 min s g Hle; simpl.
  { by intros [? ?]. }
  destruct f2 as [|f2]; [lia|]. simpl.
  set (a1 := body s g (λ s' g', if decide _ then rep_loop body greedy k1 f1 _ s' g' else None)).
  set (a2 := body s g (λ s' g', if decide _ then rep_loop body greedy k2 f2 _ s' g' else None)).
  assert (Hagain : is_Some a1 → is_Some a2).
  { apply Hbody. intros s' g'. case_decide; [|done]. apply IH. lia. }
  assert (Hstop : is_Some (match min with O => k1 s g | S _ => None end) →
                  is_Some (match min with O => k2 s g | S _ => None end)).
  { destruct min; [apply Hk|done]. }
  destruct greedy.
  - destruct a1 eqn:E1.
    + destruct Hagain as [x ->]; done.
    + intros Hs%Hstop. by destruct a2.
  - destruct (match min with O => k1 s g | S _ => None end) eqn:E1.
    + destruct Hstop as [x ->]; done.
    + intros Ha%Hagain. by destruct (match min with O => k2 s g | S _ => None end).
Qed.

Lemma sre_match_mono r : ∀ s g k1 k2,
  (∀ s' g', is_Some (k1 s' g') → is_Some (k2 s' g')) →
  is_Some (sre_match fl r s g k1) → is_Some (sre_match fl r s g k2).
Proof.
  induction r as [|cs|r1 IH1 r2 IH2|greedy min r IH|i r IH|r IH];
    intros s g k1 k2 Hk; cbn [sre_match].
  - apply Hk.
  - destruct s as [|c s]; [done|]. destruct (cset_ok fl cs c); [apply Hk|done].
  - apply IH1. intros s' g'. by apply IH2.
  - apply rep_loop_mono; [|done|done]. intros s0 g0 k k'. apply IH.
  - apply IH. intros s' g'. apply Hk.
  - destruct (sre_match fl r s g _) as [[s0 g0]|]; [apply Hk|done].
Qed.

Lemma sre_match_complete r w rest g g' :
  matches fl r w rest g g' →
  ∀ k g0, (∀ g1, is_Some (k rest g1)) → is_Some (sre_match fl r (w ++ rest) g0 k).
Proof.
  induction 1 as [rest g|cs c rest g Hc|r1 r2 w1 w2 rest g g1 g2 _ IH1 _ IH2
                 |i r w rest g g' _ IH|r w rest g g' _ IH|greedy r rest g
                 |greedy min r w1 w2 rest g g1 g2 Hne _ IH1 _ IH2];
    intros k g0 Hk; cbn [sre_match].
  - apply Hk.
  - simpl. rewrite Hc. apply Hk.
  - rewrite <-(assoc_L (++)). apply IH1. intros g3. by apply IH2.
  - apply IH. intros g3. apply Hk.
  - simpl. destruct (IH (λ s' g', Some (s', g')) g0) as [[s1 g1] ->]; [done|]. apply Hk.
  - simpl. destruct greedy.
    + destruct (sre_match fl r rest g0 _); [done|apply Hk].
    + destruct (Hk g0) as [x ->]. done.
  - cbn [rep_loop].
    set (again := sre_match fl r _ g0 _).
    assert (Hagain : is_Some again).
    { subst again. rewrite <-(assoc_L (++)). apply IH1. intros g3.
      rewrite !length_app. rewrite decide_True by (destruct w1; [done|simpl; lia]).
      specialize (IH2 k g3 Hk). cbn [sre_match] in IH2.
      eapply rep_loop_mono; [| |
        |exact IH2]; [intros s0 g4 k1 k2; apply sre_match_mono|done|].
      rewrite length_app. destruct w1; [done|simpl; lia]. }
    destruct Hagain as [x Hx]. rewrite Hx.
    destruct greedy; [done|]. by destruct (match min with O => _ | S _ => _ end).
Qed.

Lemma match_at_sound r pos s m :
  match_at fl r pos s = Some m →
  ∃ w rest g, s = w ++ rest ∧ matches fl r w rest ∅ g ∧
    m_start m = pos ∧ m_end m = pos + length w ∧ m_groups m = <[0 := w]> g.
Proof.
  unfold match_at. destruct (sre_match _ _ _ _ _) as [[s' g]|] eqn:Hrun; [|done].
  apply sre_match_sound in Hrun as (w & rest & g' & -> & Hm & ?). simplify_eq.
  intros ?; simplify_eq. exists w, s', g. simpl.
  by rewrite length_app, Nat.add_sub, take_app_length.
Qed.

Lemma match_at_complete r pos w rest g :
  matches fl r w rest ∅ g → is_Some (match_at fl r pos (w ++ rest)).
Proof.
  intros Hm. unfold match_at.
  destruct (sre_match_complete r w rest ∅ g Hm (λ s' g, Some (s', g)) ∅) as [[s' g'] ->];
    done.
Qed.

Lemma search_from_sound r : ∀ s pos m,
  search_from fl r pos s = Some m →
  ∃ pre w rest g, s = pre ++ w ++ rest ∧ matches fl r w rest ∅ g ∧
    m_start m = pos + length pre ∧ m_end m = pos + length pre + length w ∧
    m_groups m = <[0 := w]> g.
Proof.
  induction s as [|c s IH]; intros pos m; simpl.
  - destruct (match_at fl r pos []) eqn:Hat; [|done]. intros ?; simplify_eq.
    apply match_at_sound in Hat as (w & rest & g & ? & ? & ? & ? & ?).
    exists [], w, rest, g. simpl. rewrite Nat.add_0_r. done.
  - destruct (match_at fl r pos (c :: s)) eqn:Hat.
    + intros ?; simplify_eq.
      apply match_at_sound in Hat as (w & rest & g & ? & ? & ? & ? & ?).
      exists [], w, rest, g. simpl. rewrite Nat.add_0_r. done.
    + intros (pre & w & rest & g & -> & ? & ? & ? & ?)%IH.
      exists (c :: pre), w, rest, g. simpl. rewrite <-!Nat.add_succ_comm. done.
Qed.

Lemma search_from_complete r pre w rest g pos :
  matches fl r w rest ∅ g → is_Some (search_from fl r pos (pre ++ w ++ rest)).
Proof.
  intros Hm. revert pos. induction pre as [|c pre IH]; intros pos.
  - simpl. destruct (match_at_complete r pos _ _ _ Hm) as [m Hat].
    destruct (w ++ rest); simpl; by rewrite Hat.
  - simpl. destruct (match_at fl r pos _); [done|]. apply IH.
Qed.

(** [re.search] finds a match exactly when the pattern has an instance
    in the text, and what it returns is one. *)
Lemma re_search_sound r doc m :
  re_search r doc fl = Some m → found fl r doc m.
Proof. intros (pre & w & rest & g & ?)%search_from_sound. by exists pre, w, rest, g. Qed.

Lemma re_search_is_Some r doc :
  is_Some (re_search r doc fl) ↔ occurs fl r doc.
Proof.
  split.
  - intros [m (pre & w & rest & g & ? & ? & _)%re_search_sound]. by exists pre, w, rest, g.
  - intros (pre & w & rest & g & -> & Hm). by eapply search_from_complete.
Qed.

Lemma re_search_None r doc :
  re_search r doc fl = None ↔ ¬ occurs fl r doc.
Proof. rewrite <-re_search_is_Some, eq_None_not_Some. done. Qed.

Lemma finditer_from_sound r : ∀ fuel skipped s m,
  m ∈ finditer_from fuel fl r (length skipped) s → found fl r (skipped ++ s) m.
Proof.
  induction fuel as [|fuel IH]; intros skipped s m; simpl; [by intros ?%elem_of_nil|].
  destruct (search_from fl r (length skipped) s) as [m0|] eqn:Hs;
    [|by intros ?%elem_of_nil].
  apply search_from_sound in Hs as (pre & w & rest & g & -> & Hm & Hst & Hen & Hg).
  intros [->|Hin]%elem_of_cons.
  { exists (skipped ++ pre), w, rest, g. rewrite length_app, <-(assoc_L (++)). done. }
  rewrite Hst, Hen in Hin.
  replace (length skipped + length pre + length w - length skipped)
    with (length (pre ++ w)) in Hin by (rewrite length_app; lia).
  rewrite (assoc_L (++) pre w rest), drop_app_length in Hin.
  replace (skipped ++ pre ++ w ++ rest) with ((skipped ++ pre ++ w) ++ rest)
    by (by rewrite <-!(assoc_L (++))).
  case_decide.
  - apply (IH (skipped ++ pre ++ w)). by rewrite !length_app, Nat.add_assoc.
  - destruct rest as [|c rest]; [by apply elem_of_nil in Hin|].
    replace ((skipped ++ pre ++ w) ++ c :: rest)
      with ((skipped ++ pre ++ w ++ [c]) ++ rest)
      by (by rewrite <-!(assoc_L (++))).
    apply (IH (skipped ++ pre ++ w ++ [c])).
    replace (length (skipped ++ pre ++ w ++ [c]))
      with (S (length skipped + length pre + length w))
      by (rewrite !length_app; simpl; lia).
    done.
Qed.

(** Every match that [re.finditer] yields is a match of the pattern in
    the text. *)
Lemma re_finditer_sound r doc m :
  m ∈ re_finditer r doc fl → found fl r doc m.
Proof. apply (finditer_from_sound r _ []). Qed.

Lemma re_finditer_nil r doc :
  re_finditer r doc fl = [] ↔ ¬ occurs fl r doc.
Proof.
  rewrite <-re_search_None. unfold re_finditer, re_search. simpl.
  by destruct (search_from fl r 0 doc).
Qed.

End MatcherFacts.

Section Coverage.
Context `{UnicodeData} (fl : list flag).

(** [re.search] returns the leftmost match: no instance of the pattern
    starts before it. *)
Lemma search_from_leftmost r : ∀ s pos m pre w rest g,
  search_from fl r pos s = Some m →
  s = pre ++ w ++ rest → matches fl r w rest ∅ g →
  m_start m ≤ pos + length pre.
Proof.
  induction s as [|c s IH]; intros pos m pre w rest g; simpl.
  - destruct (match_at fl r pos []) as [m0|] eqn:Hat; [|done].
    intros [= <-] _ _. apply match_at_sound in Hat as (?&?&?&?&?&->&?). lia.
  - destruct (match_at fl r pos (c :: s)) as [m0|] eqn:Hat.
    + intros [= <-] _ _. apply match_at_sound in Hat as (?&?&?&?&?&->&?). lia.
    + intros Hs Heq Hm. destruct pre as [|c' pre].
      * simpl in Heq. pose proof (match_at_complete fl r pos _ _ _ Hm) as [m1 Hm1].
        rewrite <-Heq, Hat in Hm1. done.
      * simpl in Heq. injection Heq as -> ->.
        pose proof (IH _ _ _ _ _ _ Hs eq_refl Hm). simpl. lia.
Qed.

(** [re.finditer] leaves no instance of the pattern aside: every
    instance starts inside a match that is yielded (which may be the
    instance itself), or where an empty match is yielded. *)
Lemma finditer_from_covers r : ∀ fuel s pos pre w rest g,
  length s < fuel →
  s = pre ++ w ++ rest → matches fl r w rest ∅ g →
  ∃ m, m ∈ finditer_from fuel fl r pos s ∧
       m_start m ≤ pos + length pre ∧
       (pos + length pre < m_end m ∨ pos + length pre = m_start m).
Proof.
  induction fuel as [|fuel IH]; intros s pos pre w rest g Hfuel Heq Hm; [lia|].
  simpl.
  destruct (search_from_complete fl r pre w rest g pos Hm) as [m Hs].
  rewrite <-Heq in Hs. rewrite Hs.
  pose proof (search_from_leftmost r _ _ _ _ _ _ _ Hs Heq Hm) as Hleft.
  destruct (search_from_sound fl r _ _ _ Hs) as (p & w0 & r0 & g0 & Hs0 & _ & Hst & Hen & _).
  destruct (decide (pos + length pre < m_end m ∨ pos + length pre = m_start m))
    as [Hcov|Hnot].
  { exists m. split; [by left|done]. }
  assert (Hge : length p + length w0 ≤ length pre ∧ length p < length pre) by lia.
  destruct Hge as [Hge Hgt].
  assert (Hr0 : r0 = drop (length p + length w0) s).
  { rewrite Hs0, (assoc_L (++)), <-length_app. by rewrite drop_app_length. }
  assert (Hdrop : m_end m - pos = length p + length w0) by lia.
  rewrite Hdrop, <-Hr0.
  assert (Htail : r0 = drop (length p + length w0) pre ++ w ++ rest).
  { rewrite Hr0, Heq. by rewrite drop_app_le. }
  pose proof (f_equal length Hs0) as Hlen. rewrite !length_app in Hlen.
  case_decide as Hne.
  - destruct (IH r0 (m_end m) (drop (length p + length w0) pre) w rest g)
      as (m' & Hin & Hle & Hcov'); [lia|done|done|].
    rewrite length_drop in Hle, Hcov'.
    exists m'. split; [by right|]. split; lia.
  - assert (length w0 = 0) as Hw0 by lia.
    destruct (drop (length p + length w0) pre) as [|c pre3] eqn:Hpre3.
    { apply (f_equal length) in Hpre3. rewrite length_drop in Hpre3. simpl in Hpre3. lia. }
    rewrite Htail. simpl.
    pose proof (f_equal length Htail) as Hlen3. simpl in Hlen3.
    destruct (IH (pre3 ++ w ++ rest) (S (m_end m)) pre3 w rest g)
      as (m' & Hin & Hle & Hcov'); [lia|done|done|].
    apply (f_equal length) in Hpre3. rewrite length_drop in Hpre3. simpl in Hpre3.
    exists m'. split; [by right|]. split; lia.
Qed.

Lemma re_finditer_covers r doc pre w rest g :
  doc = pre ++ w ++ rest → matches fl r w rest ∅ g →
  ∃ m, m ∈ re_finditer r doc fl ∧
       m_start m ≤ length pre ∧
       (length pre < m_end m ∨ length pre = m_start m).
Proof.
  intros Heq Hm.
  destruct (finditer_from_covers r (S (length doc)) doc 0 pre w rest g)
    as (m & ? & ? & ?); [lia|done|done|].
  by exists m.
Qed.

End Coverage.

Section Inversion.
Context `{UnicodeData} (fl : list flag).

Lemma matches_eps_inv w rest g g' :
  matches fl Eps w rest g g' → w = [] ∧ g' = g.
Proof. by inversion 1. Qed.

Lemma matches_chr_inv cs w rest g g' :
  matches fl (Chr cs) w rest g g' → ∃ c, w = [c] ∧ cset_ok fl cs c = true ∧ g' = g.
Proof. inversion 1; subst. by eexists. Qed.

Lemma matches_lit_inv a w rest g g' :
  matches fl (Chr (CLit a)) w rest g g' → w = [a] ∧ g' = g.
Proof.
  intros (c & -> & Hc & ->)%matches_chr_inv. simpl in Hc.
  apply N.eqb_eq in Hc as ->. done.
Qed.

Lemma matches_cat_inv r1 r2 w rest g g' :
  matches fl (Cat r1 r2) w rest g g' →
  ∃ w1 w2 g1, w = w1 ++ w2 ∧ matches fl r1 w1 (w2 ++ rest) g g1 ∧
              matches fl r2 w2 rest g1 g'.
Proof. inversion 1; subst. by eexists _, _, _. Qed.

Lemma matches_group_inv i r w rest g g' :
  matches fl (Group i r) w rest g g' →
  ∃ g0, matches fl r w rest g g0 ∧ g' = <[i := w]> g0.
Proof. inversion 1; subst. by eexists. Qed.


(** A repetition of a one-character matcher. *)
Lemma matches_rep_chr greedy min cs w rest g g' :
  matches fl (Rep greedy min (Chr cs)) w rest g g' →
  g' = g ∧ min ≤ length w ∧ Forall (λ c, cset_ok fl cs c = true) w.
Proof.
  remember (Rep greedy min (Chr cs)) as r eqn:Hr. intros Hm. revert min Hr.
  induction Hm as [| | | | | |gr min' r' w1 w2 rest g g1 g2 Hne Hm1 _ Hm2 IH];
    intros min Hr; simplify_eq.
  - split; [done|]. split; [simpl; lia|constructor].
  - apply matches_chr_inv in Hm1 as (c & -> & Hc & ->).
    destruct (IH _ eq_refl) as (-> & Hlen & Hall).
    split; [done|]. split; [simpl; lia|by constructor].
Qed.

(** A repetition in general: the text is cut into non-empty iterations. *)
Lemma matches_rep_inv greedy min r w rest g g' :
  matches fl (Rep greedy min r) w rest g g' →
  ∃ ws, w = concat ws ∧ min ≤ length ws ∧
        Forall (λ wi, ∃ resti gi gi', matches fl r wi resti gi gi') ws.
Proof.
  remember (Rep greedy min r) as r0 eqn:Hr. intros Hm. revert min Hr.
  induction Hm as [| | | | | |gr min' r' w1 w2 rest g g1 g2 Hne Hm1 _ Hm2 IH];
    intros min Hr; simplify_eq.
  - exists []. split; [done|]. split; [simpl; lia|constructor].
  - destruct (IH _ eq_refl) as (ws & -> & Hlen & Hall).
    exists (w1 :: ws). split; [done|]. split; [simpl; lia|].
    constructor; [by eexists _, _, _|done].
Qed.

Lemma matches_group_free r w rest g g' :
  matches fl r w rest g g' → group_free r = true → g' = g.
Proof.
  induction 1 as [| |r1 r2 w1 w2 rest g g1 g2 _ IH1 _ IH2| |r w rest g g' _ IH|
                 |greedy min r w1 w2 rest g g1 g2 _ _ IH1 _ IH2];
    simpl; intros Hf; try done.
  - apply andb_prop in Hf as [? ?]. rewrite IH2, IH1; done.
  - auto.
  - rewrite IH2, IH1; done.
Qed.
End Inversion.

Ltac inv_matches :=
  repeat match goal with
  | H : matches _ Eps _ _ _ _ |- _ => apply matches_eps_inv in H as [-> ->]
  | H : matches _ (Chr (CLit _)) _ _ _ _ |- _ => apply matches_lit_inv in H as [-> ->]
  | H : matches _ (Chr _) _ _ _ _ |- _ =>
      let c := fresh "c" in apply matches_chr_inv in H as (c & -> & H & ->)
  | H : matches _ (Cat _ _) _ _ _ _ |- _ =>
      let H1 := fresh "Hm" in
      apply matches_cat_inv in H as (? & ? & ? & -> & H1 & H)
  | H : matches _ (Group _ _) _ _ _ _ |- _ =>
      apply matches_group_inv in H as (? & H & ->)
  | H : matches _ (Rep _ _ (Chr _)) _ _ _ _ |- _ =>
      let Hlen := fresh "Hlen" in
      apply matches_rep_chr in H as (-> & Hlen & H)
  end.

Section ShapeFacts.
Context `{UnicodeData}.

Lemma rep_digits w :
  1 ≤ length w → Forall (λ c, cset_ok [] CDigit c = true) w → digits w.
Proof.
  intros Hlen Hall. split; [by destruct w; [simpl in Hlen; lia|]|].
  eapply Forall_impl; [done|]. simpl. intros c. by rewrite bool_decide_eq_true.
Qed.

Lemma rep_inline fl w :
  DOTALL ∉ fl → 1 ≤ length w → Forall (λ c, cset_ok fl CAny c = true) w → inline w.
Proof.
  intros Hfl Hlen Hall. split; [by destruct w; [simpl in Hlen; lia|]|].
  intros Hin. rewrite Forall_forall in Hall. apply Hall in Hin. simpl in Hin.
  rewrite bool_decide_eq_false_2 in Hin by done. done.
Qed.

Lemma rep_word fl w :
  1 ≤ length w → Forall (λ c, cset_ok fl CWord c = true) w → word w.
Proof. intros Hlen Hall. split; [by destruct w; [simpl in Hlen; lia|]|done]. Qed.

Lemma sprint_pattern_shape w rest g :
  matches [] SprintsMd.sprint_pattern w rest ∅ g →
  ∃ n goal dur st c t,
    sprint_header w n goal dur st c t ∧
    g = <[6 := t]> (<[5 := c]> (<[4 := st]> (<[3 := dur]> (<[2 := goal]> (<[1 := n]> ∅))))).
Proof.
  unfold SprintsMd.sprint_pattern. intros Hm. inv_matches.
  eexists _, _, _, _, _, _. split; [|done].
  eexists _, _, _, _. split.
  { reflexivity. }
  assert (DOTALL ∉ []) by apply not_elem_of_nil.
  split_and!; eauto using rep_digits, rep_inline, rep_word.
Qed.

End ShapeFacts.

Section TextFacts.
Context `{UnicodeData}.

Lemma int_digits s : digits s → ∃ z, int s = Ok z.
Proof.
  intros [Hne Hall]. unfold int. destruct s as [|c s]; [done|].
  assert (Hfold : ∀ l acc, Forall (λ c, is_Some (uni_decimal c)) l →
    is_Some (foldl (λ acc c, n ← acc; d ← uni_decimal c; Some (10 * n + d)%N)
               (Some acc) l)).
  { induction l as [|a l IH]; intros acc Hl; [done|].
    apply Forall_cons in Hl as [[d Hd] Hl]. simpl. rewrite Hd. simpl. by apply IH. }
  destruct (Hfold (c :: s) 0%N Hall) as [n ->]. by eexists.
Qed.

Lemma for_each_Forall2 {A B} (f : A → result B) (P : A → B → Prop) l :
  (∀ x, x ∈ l → ∃ y, f x = Ok y ∧ P x y) →
  ∃ ys, for_each f l = Ok ys ∧ Forall2 P l ys.
Proof.
  induction l as [|x l IH]; intros Hf; simpl.
  - by exists [].
  - destruct (Hf x) as (y & -> & ?); [by left|].
    destruct IH as (ys & -> & ?); [intros; apply Hf; by right|].
    exists (y :: ys). split; [done|by constructor].
Qed.

Lemma found_slice fl r doc m :
  found fl r doc m →
  ∃ w rest g, matches fl r w rest ∅ g ∧ slice (m_start m) (m_end m) doc = w ∧
              m_groups m = <[0 := w]> g.
Proof.
  intros (pre & w & rest & g & -> & Hm & -> & -> & Hg).
  exists w, rest, g. split; [done|]. split; [|done].
  unfold slice. rewrite drop_app_length.
  replace (length pre + length w - length pre) with (length w) by lia.
  by rewrite take_app_length.
Qed.
End TextFacts.

Section SprintsFacts.
Context `{UnicodeData}.
Import SprintsMd.

Lemma sprint_found doc m :
  found [] sprint_pattern doc m →
  sprint_header (slice (m_start m) (m_end m) doc)
    (group m 1) (group m 2) (group m 3) (group m 4) (group m 5) (group m 6).
Proof.
  intros (w & rest & g & Hm & -> & Hg)%found_slice.
  apply sprint_pattern_shape in Hm as (n & goal & dur & st & c & t & Hh & ->).
  unfold group. rewrite Hg. by simplify_map_eq.
Qed.

(** The body of the loop does not raise on a match of the header
    pattern, and the record it builds has these fields. *)
Lemma sprint_data_found doc m :
  found [] sprint_pattern doc m →
  ∃ i c t,
    int (group m 1) = Ok i ∧ int (group m 5) = Ok c ∧ int (group m 6) = Ok t ∧
    sprint_data doc m =
      Ok {| Sprint.id := i;
            Sprint.goal := strip (group m 2);
            Sprint.status := strip (group m 4);
            Sprint.duration := strip (group m 3);
            Sprint.progress := {| Progress.completed := c; Progress.total := t |};
            Sprint.deliverables := sprint_deliverables (sprint_content doc m);
            Sprint.tasks := sprint_tasks (sprint_content doc m);
            Sprint.completed :=
              if decide (strip (group m 4) = u "COMPLETE")
              then Some (u "2025-10-04") else None |}.
Proof.
  intros (ws1 & ws2 & ws3 & ws4 & _ & _ & _ & _ & _ & Hn & _ & _ & _ & Hc & Ht)%sprint_found.
  apply int_digits in Hn as [i Hi], Hc as [c Hc], Ht as [t Ht].
  exists i, c, t. unfold sprint_data. rewrite Hi, Hc, Ht. done.
Qed.

Lemma total_sprints_ok doc :
  ∃ n, match re_search total_sprints_pattern doc [] with
       | Some m => int (group m 1)
       | None => Ok 7%Z
       end = Ok n.
Proof.
  destruct (re_search _ _ _) as [m|] eqn:Hs; [|by eexists].
  apply re_search_sound, found_slice in Hs as (w & rest & g & Hm & _ & Hg).
  unfold total_sprints_pattern in Hm. inv_matches.
  apply int_digits. unfold group. rewrite Hg. simplify_map_eq.
  by apply rep_digits.
Qed.

(** What a run of the extractor on a readable document returns. *)
Lemma parse_sprints_md_run w sprints_md :
  files w !! ".autoflow/SPRINTS.md" = Some sprints_md →
  ∃ data,
    parse_sprints_md w =
      (Ok data,
       {| files := files w; readonly := readonly w; clock := clock w;
          ticks := S (ticks w); stdout := stdout w |}) ∧
    for_each (sprint_data sprints_md) (re_finditer sprint_pattern sprints_md [])
      = Ok (SprintsData.sprints data) ∧
    Project.last_updated (SprintsData.project data) = strftime_Ymd (clock w (ticks w)).
Proof.
  intros Hfile. unfold parse_sprints_md, read_text, lift, datetime_now.
  unfold mbind, M_bind, mret, M_ret. rewrite Hfile.
  destruct (total_sprints_ok sprints_md) as [n ->].
  destruct (for_each_Forall2 (sprint_data sprints_md) (λ _ _, True)
              (re_finditer sprint_pattern sprints_md [])) as (ss & Hss & _).
  { intros m Hm%re_finditer_sound. apply sprint_data_found in Hm as (?&?&?&?&?&?&?).
    by eexists. }
  rewrite Hss. by eexists.
Qed.

Lemma for_each_inv {A B} (f : A → result B) l ys :
  for_each f l = Ok ys → Forall2 (λ x y, f x = Ok y) l ys.
Proof.
  revert ys. induction l as [|x l IH]; intros ys; simpl.
  - intros ?; simplify_eq. constructor.
  - destruct (f x) as [y|] eqn:Hx; [|done]. simpl.
    destruct (for_each f l) as [ys'|]; [|done]. simpl. intros ?; simplify_eq.
    constructor; [done|by apply IH].
Qed.
End SprintsFacts.

Section StripFacts.
Context `{UnicodeData}.

Lemma lstrip_nonspace c s : isspace c = false → lstrip (c :: s) = c :: s.
Proof. intros Hc. simpl. by rewrite Hc. Qed.

(** [strip] leaves a text alone that neither starts nor ends with white
    space. *)
Lemma strip_nonspace s :
  Forall (λ c, isspace c = false) s → strip s = s.
Proof.
  intros Hall. unfold strip, rstrip.
  assert (Hl : ∀ l, Forall (λ c, isspace c = false) l → lstrip l = l).
  { intros [|c l] Hl; [done|]. apply Forall_cons in Hl as [Hc _]. by apply lstrip_nonspace. }
  rewrite (Hl s Hall), Hl by (by apply Forall_reverse). apply reverse_involutive.
Qed.

Lemma word_nonspace s : word s → Forall (λ c, isspace c = false) s.
Proof.
  intros [_ Hall]. eapply Forall_impl; [done|]. simpl. intros c Hc.
  apply orb_prop in Hc as [Hc|Hc]; [by apply uni_isalnum_not_space|].
  apply N.eqb_eq in Hc as ->. done.
Qed.

Lemma strip_word s : word s → strip s = s.
Proof. intros ?. by apply strip_nonspace, word_nonspace. Qed.
End StripFacts.

Section SprintRecords.
Context `{UnicodeData}.
Import SprintsMd.



End SprintRecords.

Section LineFacts.

Lemma split_on_line l rest :
  NL ∉ l → split_on NL (l ++ NL :: rest) = l :: split_on NL rest.
Proof.
  induction l as [|a l IH]; intros Hl; simpl; [done|].
  apply not_elem_of_cons in Hl as [Ha Hl].
  destruct (N.eqb_spec a NL) as [->|_]; [done|]. by rewrite IH.
Qed.

(** The lines of a block in which every line ends with a line feed: the
    last piece of the split is empty. *)
Lemma split_on_lines lines :
  Forall (λ l, NL ∉ l) lines →
  split_on NL (concat ((λ l, l ++ [NL]) <$> lines)) = lines ++ [[]].
Proof.
  induction 1 as [|l lines Hl _ IH]; csimpl; [done|].
  rewrite <-(assoc_L (++)). change ([NL] ++ ?s) with (NL :: s).
  by rewrite split_on_line, IH.
Qed.

Lemma lstrip_app_nonspace a x b :
  isspace x = false → ∃ a', lstrip (a ++ x :: b) = a' ++ x :: b.
Proof.
  intros Hx. induction a as [|c a [a' IH]]; simpl.
  - exists []. by rewrite Hx.
  - destruct (isspace c); [by exists a'|by exists (c :: a)].
Qed.

(** [rstrip] does not reach past a character that is no white space. *)
Lemma rstrip_app_nonspace p x t :
  isspace x = false → ∃ t', rstrip (p ++ x :: t) = p ++ x :: t'.
Proof.
  intros Hx. unfold rstrip. rewrite reverse_app, reverse_cons, <-(assoc_L (++)). simpl.
  destruct (lstrip_app_nonspace (reverse t) x (reverse p) Hx) as [a' ->].
  exists (reverse a').
  by rewrite reverse_app, reverse_cons, reverse_involutive, <-(assoc_L (++)).
Qed.

Lemma filter_all {A} (P : A → Prop) `{∀ x, Decision (P x)} (l : list A) :
  Forall P l → filter P l = l.
Proof.
  induction 1 as [|x l Hx _ IH]; [done|]. by rewrite filter_cons_True, IH.
Qed.

Lemma startswith_app p s : startswith p (p ++ s) = true.
Proof. induction p as [|a p IH]; simpl; [done|]. by rewrite N.eqb_refl. Qed.

Lemma find_unfold p s :
  find p s = if startswith p s then Some 0
             else match s with [] => None | _ :: s' => S <$> find p s' end.
Proof. by destruct s. Qed.

Lemma find_app a p c : is_Some (find p (a ++ p ++ c)).
Proof.
  induction a as [|x a [i IH]]; rewrite find_unfold.
  - simpl. rewrite startswith_app. by eexists.
  - destruct (startswith p _); [by eexists|]. simpl. rewrite IH. by eexists.
Qed.

Lemma contains_app a p c : contains p (a ++ p ++ c) = true.
Proof. apply bool_decide_eq_true, find_app. Qed.

End LineFacts.


Section TaskFacts.
Context `{UnicodeData}.

Lemma boundary_after_label_unfold s :
  boundary_after_label s =
    startswith (py "**Description**:\n") s
      && contains (py "\n\n**") (drop (length (py "**Description**:\n")) s)
    || match s with
       | [] => false
       | _ :: s' => boundary_after_label s'
       end.
Proof. by destruct s. Qed.

Lemma boundary_after_label_spec section :
  description_boundary section → boundary_after_label section = true.
Proof.
  intros (a & b & c & ->). induction a as [|x a IH];
    rewrite boundary_after_label_unfold.
  - cbn [app]. rewrite startswith_app, drop_app_length.
    by rewrite (contains_app b (py "\n\n**") c).
  - cbn [app]. rewrite IH. by rewrite orb_true_r.
Qed.




End TaskFacts.

Section ChecklistFacts.
Context `{UnicodeData}.
Import TaskMd.

Lemma any_not_NL fl c : DOTALL ∉ fl → cset_ok fl CAny c = true → c ≠ NL.
Proof.
  intros Hfl Hc ->. simpl in Hc. by rewrite bool_decide_eq_false_2 in Hc.
Qed.

Lemma checklist_iteration wi resti gi gi' :
  matches []
    (Cat (Chr (CLit 45)) (Cat (Chr (CLit 32)) (Cat (Chr (CLit 91)) (Cat (Chr CAny)
      (Cat (Chr (CLit 93)) (Cat (Chr (CLit 32))
        (Cat (Rep true 1 (Chr CAny)) (Chr (CLit 10)))))))))%N
    wi resti gi gi' →
  ∃ line c text, wi = line ++ [NL] ∧ checklist_line line c text.
Proof.
  intros Hm. inv_matches.
  match goal with
  | Hc : cset_ok [] CAny ?c = true, Hall : Forall _ ?x |- _ =>
      exists (u "- [" ++ [c] ++ u "] " ++ x), c, x;
      split; [repeat rewrite <-(assoc_L (++)); reflexivity|];
      split; [done|]; split;
      [by eapply any_not_NL; [apply not_elem_of_nil|]
      |by eapply rep_inline; [apply not_elem_of_nil|..]]
  end.
Qed.

Lemma lines_of_iterations (ws : list str) :
  Forall (λ wi, ∃ line c text, wi = line ++ [NL] ∧ checklist_line line c text) ws →
  ∃ lines, ws = (λ l, l ++ [NL]) <$> lines ∧
           Forall (λ line, ∃ c text, checklist_line line c text) lines.
Proof.
  induction 1 as [|wi ws (line & c & text & -> & Hline) _ (lines & -> & Hlines)].
  - by exists [].
  - exists (line :: lines). split; [done|]. constructor; [by eexists _, _|done].
Qed.

(** The block that the criteria pattern captures is a run of one or more
    checklist lines, each closed by a line feed. *)
Lemma criteria_pattern_lines section m :
  re_search criteria_pattern section [] = Some m →
  ∃ lines, group m 1 = concat ((λ l, l ++ [NL]) <$> lines) ∧ lines ≠ [] ∧
           Forall (λ line, ∃ c text, checklist_line line c text) lines.
Proof.
  intros (w & rest & g & Hm & _ & Hg)%re_search_sound%found_slice.
  unfold criteria_pattern in Hm. inv_matches.
  match goal with
  | Hrep : matches _ (Rep _ _ _) _ _ _ _ |- _ =>
      apply matches_rep_inv in Hrep as (ws & -> & Hlen & Hall)
  end.
  eapply Forall_impl in Hall;
    [|intros wi (resti & gi & gi' & Hwi); exact (checklist_iteration _ _ _ _ Hwi)].
  apply lines_of_iterations in Hall as (lines & -> & Hlines).
  exists lines. split; [|split; [|done]].
  - unfold group. rewrite Hg. by simplify_map_eq.
  - intros ->. simpl in Hlen. lia.
Qed.

Lemma checklist_line_no_NL line c text : checklist_line line c text → NL ∉ line.
Proof.
  intros (-> & Hc & _ & Htext). rewrite !elem_of_app, !elem_of_cons.
  intros [Hin|[Hin|[Hin|Hin]]]; [|by destruct Hin as [?|?%elem_of_nil]| |done].
  - vm_compute in Hin. repeat (apply elem_of_cons in Hin as [?|Hin]; [done|]).
    by apply elem_of_nil in Hin.
  - vm_compute in Hin. repeat (apply elem_of_cons in Hin as [?|Hin]; [done|]).
    by apply elem_of_nil in Hin.
Qed.

Lemma checklist_line_kept line c text :
  checklist_line line c text → startswith (u "- [") (strip line) = true.
Proof.
  intros (-> & _ & _). unfold strip.
  change (u "- [" ++ [c] ++ u "] " ++ text)
    with (45 :: ([32; 91; c] ++ 93 :: 32 :: text))%N.
  rewrite lstrip_nonspace by done.
  destruct (rstrip_app_nonspace [45; 32; 91; c]%N 93%N (32%N :: text)) as [t' Ht'];
    [done|].
  change (45 :: [32; 91; c] ++ 93 :: 32 :: text)%N
    with ([45; 32; 91; c] ++ 93 :: 32 :: text)%N.
  by rewrite Ht'.
Qed.


(** The criteria of a section: one per line of the block, in order. *)
Lemma task_criteria_lines section m lines :
  re_search criteria_pattern section [] = Some m →
  group m 1 = concat ((λ l, l ++ [NL]) <$> lines) →
  Forall (λ line, ∃ c text, checklist_line line c text) lines →
  task_criteria section = criterion_of_line <$> lines.
Proof.
  intros Hs Hblock Hlines. unfold task_criteria. rewrite Hs, Hblock.
  rewrite split_on_lines
    by (eapply Forall_impl; [done|]; intros l (c & t & ?); by eapply checklist_line_no_NL).
  rewrite filter_app, filter_cons_False, filter_nil by done.
  rewrite app_nil_r. f_equal. apply filter_all.
  eapply Forall_impl; [done|]. intros l (c & t & ?). by eapply checklist_line_kept.
Qed.


Lemma task_sprint_id_ok doc :
  ∃ n, match re_search sprint_pattern doc [] with
       | Some m => int (group m 1)
       | None => Ok 3%Z
       end = Ok n.
Proof.
  destruct (re_search _ _ _) as [m|] eqn:Hs; [|by eexists].
  apply re_search_sound, found_slice in Hs as (w & rest & g & Hm & _ & Hg).
  unfold sprint_pattern in Hm. inv_matches.
  apply int_digits. unfold group. rewrite Hg. simplify_map_eq.
  by apply rep_digits.
Qed.

Lemma task_progress_ok doc :
  ∃ c t,
    match re_search progress_pattern doc [] with
    | Some m => int (group m 1)
    | None => Ok 0%Z
    end = Ok c ∧
    match re_search progress_pattern doc [] with
    | Some m => int (group m 2)
    | None => Ok 0%Z
    end = Ok t.
Proof.
  destruct (re_search _ _ _) as [m|] eqn:Hs; [|by eexists _, _].
  apply re_search_sound, found_slice in Hs as (w & rest & g & Hm & _ & Hg).
  unfold progress_pattern in Hm. inv_matches.
  unfold group. rewrite Hg. simplify_map_eq.
  match goal with
  | H1 : Forall _ ?x, H2 : Forall _ ?y |- ∃ _ _, int ?x = _ ∧ int ?y = _ =>
      destruct (int_digits x) as [c ->]; [by apply rep_digits|];
      destruct (int_digits y) as [t ->]; [by apply rep_digits|]
  end.
  by eexists _, _.
Qed.

(** What a run of the active-task extractor on a readable document
    returns. *)
Lemma parse_task_md_run w task_md :
  files w !! ".autoflow/TASK.md" = Some task_md →
  ∃ data,
    parse_task_md w =
      (Ok data,
       {| files := files w; readonly := readonly w; clock := clock w;
          ticks := S (ticks w); stdout := stdout w |}) ∧
    TaskData.tasks data
      = task_data task_md <$> re_finditer task_pattern task_md [MULTILINE] ∧
    ActiveSprint.last_updated (TaskData.sprint data)
      = isoformat (clock w (ticks w)) ++ u "Z".
Proof.
  intros Hfile. unfold parse_task_md, read_text, lift, datetime_now.
  unfold mbind, M_bind, mret, M_ret. rewrite Hfile.
  destruct (task_sprint_id_ok task_md) as [n ->].
  destruct (task_progress_ok task_md) as (c & t & -> & ->).
  by eexists.
Qed.

End ChecklistFacts.

Section LabelFacts.
Context `{UnicodeData}.

Lemma matches_lit_cons fl c r w rest g g' :
  matches fl r w rest g g' → matches fl (Cat (Chr (CLit c)) r) (c :: w) rest g g'.
Proof.
  intros Hm. apply (matches_cat fl _ _ [c] w rest g g g'); [|done].
  constructor. simpl. apply N.eqb_refl.
Qed.

Lemma matches_rep_chr_intro fl greedy cs w rest g :
  Forall (λ c, cset_ok fl cs c = true) w → ∀ min, min ≤ length w →
  matches fl (Rep greedy min (Chr cs)) w rest g g.
Proof.
  induction 1 as [|c w Hc _ IH]; intros min Hmin.
  - simpl in Hmin. replace min with 0 by lia. constructor.
  - apply (matches_rep_more fl greedy min (Chr cs) [c] w rest g g g); [done| |].
    + by constructor.
    + apply IH. simpl in Hmin. lia.
Qed.



End LabelFacts.


Section LabelPatterns.
Context `{UnicodeData}.




End LabelPatterns.

Section HeaderInstances.
Context `{UnicodeData}.


Lemma matches_inline i w rest g :
  inline w → matches [] (Group i (Rep false 1 (Chr CAny))) w rest g (<[i := w]> g).
Proof.
  intros [Hne Hnl]. constructor. apply matches_rep_chr_intro.
  - apply Forall_forall. intros c Hc. unfold cset_ok.
    destruct (N.eqb_spec c NL) as [->|_]; [done|]. apply orb_true_r.
  - destruct w; [done|simpl; lia].
Qed.




End HeaderInstances.

Section CompletedFacts.
Context `{UnicodeData}.
Import CompletedTasksMd.

(** What a run of the completed-task extractor on a readable document
    returns. *)
Lemma parse_completed_tasks_md_run w completed_md :
  files w !! ".autoflow/COMPLETED_TASKS.md" = Some completed_md →
  ∃ data,
    parse_completed_tasks_md w =
      (Ok data,
       {| files := files w; readonly := readonly w; clock := clock w;
          ticks := S (ticks w); stdout := stdout w |}) ∧
    CompletedData.tasks data
      = task_data completed_md <$> re_finditer task_pattern completed_md [MULTILINE] ∧
    CompletedProject.last_updated (CompletedData.project data)
      = isoformat (clock w (ticks w)) ++ u "Z".
Proof.
  intros Hfile. unfold parse_completed_tasks_md, read_text, datetime_now.
  unfold mbind, M_bind, mret, M_ret. rewrite Hfile. by eexists.
Qed.





End CompletedFacts.

Section ExtractorFrames.
Context `{UnicodeData}.

Lemma parse_sprints_md_world w :
  (SprintsMd.parse_sprints_md w).2
  = if files w !! ".autoflow/SPRINTS.md" is Some _ then ticked w else w.
Proof.
  destruct (files w !! ".autoflow/SPRINTS.md") as [doc|] eqn:Hfile.
  - by destruct (parse_sprints_md_run w doc Hfile) as (data & -> & _).
  - unfold SprintsMd.parse_sprints_md, read_text, mbind, M_bind. by rewrite Hfile.
Qed.

Lemma parse_task_md_world w :
  (TaskMd.parse_task_md w).2
  = if files w !! ".autoflow/TASK.md" is Some _ then ticked w else w.
Proof.
  destruct (files w !! ".autoflow/TASK.md") as [doc|] eqn:Hfile.
  - by destruct (parse_task_md_run w doc Hfile) as (data & -> & _).
  - unfold TaskMd.parse_task_md, read_text, mbind, M_bind. by rewrite Hfile.
Qed.

Lemma parse_completed_tasks_md_world w :
  (CompletedTasksMd.parse_completed_tasks_md w).2
  = if files w !! ".autoflow/COMPLETED_TASKS.md" is Some _ then ticked w else w.
Proof.
  destruct (files w !! ".autoflow/COMPLETED_TASKS.md") as [doc|] eqn:Hfile.
  - by destruct (parse_completed_tasks_md_run w doc Hfile) as (data & -> & _).
  - unfold CompletedTasksMd.parse_completed_tasks_md, read_text, mbind, M_bind.
    by rewrite Hfile.
Qed.

(** The record an extractor returns depends on its document and on the
    reading of the clock only, and on the clock only in its time stamp. *)
Lemma parse_sprints_md_rel wa wb :
  files wa !! ".autoflow/SPRINTS.md" = files wb !! ".autoflow/SPRINTS.md" →
  result_map sprints_untimed (SprintsMd.parse_sprints_md wa).1
    = result_map sprints_untimed (SprintsMd.parse_sprints_md wb).1 ∧
  (clock wa (ticks wa) = clock wb (ticks wb) →
   (SprintsMd.parse_sprints_md wa).1 = (SprintsMd.parse_sprints_md wb).1).
Proof.
  intros Hf.
  unfold SprintsMd.parse_sprints_md, read_text, lift, datetime_now.
  unfold mbind, M_bind, mret, M_ret. rewrite Hf.
  destruct (files wb !! ".autoflow/SPRINTS.md") as [doc|]; [|done].
  destruct (match re_search SprintsMd.total_sprints_pattern doc [] with
            | Some m => int (group m 1)
            | None => Ok 7%Z
            end) as [n|e]; [|done].
  destruct (for_each _ _) as [ss|e]; [|done].
  simpl. split; [done|]. by intros ->.
Qed.

Lemma parse_task_md_rel wa wb :
  files wa !! ".autoflow/TASK.md" = files wb !! ".autoflow/TASK.md" →
  result_map task_untimed (TaskMd.parse_task_md wa).1
    = result_map task_untimed (TaskMd.parse_task_md wb).1 ∧
  (clock wa (ticks wa) = clock wb (ticks wb) →
   (TaskMd.parse_task_md wa).1 = (TaskMd.parse_task_md wb).1).
Proof.
  intros Hf.
  unfold TaskMd.parse_task_md, read_text, lift, datetime_now.
  unfold mbind, M_bind, mret, M_ret. rewrite Hf.
  destruct (files wb !! ".autoflow/TASK.md") as [doc|]; [|done].
  destruct (match re_search TaskMd.sprint_pattern doc [] with
            | Some m => int (group m 1)
            | None => Ok 3%Z
            end) as [n|e]; [|done].
  destruct (re_search TaskMd.progress_pattern doc []) as [m|].
  - destruct (int (group m 1)) as [c|e]; [|done].
    destruct (int (group m 2)) as [t|e]; [|done].
    generalize (TaskMd.task_data doc <$> re_finditer TaskMd.task_pattern doc [MULTILINE]).
    intros tasks. simpl. split; [reflexivity|]. intros ->. reflexivity.
  - generalize (TaskMd.task_data doc <$> re_finditer TaskMd.task_pattern doc [MULTILINE]).
    intros tasks. simpl. split; [reflexivity|]. intros ->. reflexivity.
Qed.

Lemma parse_completed_tasks_md_rel wa wb :
  files wa !! ".autoflow/COMPLETED_TASKS.md" = files wb !! ".autoflow/COMPLETED_TASKS.md" →
  result_map completed_untimed (CompletedTasksMd.parse_completed_tasks_md wa).1
    = result_map completed_untimed (CompletedTasksMd.parse_completed_tasks_md wb).1 ∧
  (clock wa (ticks wa) = clock wb (ticks wb) →
   (CompletedTasksMd.parse_completed_tasks_md wa).1
     = (CompletedTasksMd.parse_completed_tasks_md wb).1).
Proof.
  intros Hf.
  unfold CompletedTasksMd.parse_completed_tasks_md, read_text, datetime_now.
  unfold mbind, M_bind, mret, M_ret. rewrite Hf.
  destruct (files wb !! ".autoflow/COMPLETED_TASKS.md") as [doc|]; [|done].
  generalize (CompletedTasksMd.task_data doc
                <$> re_finditer CompletedTasksMd.task_pattern doc [MULTILINE]).
  intros tasks.
  cbv [fst result_map completed_untimed CompletedData.project CompletedData.tasks
       CompletedProject.name].
  split; [reflexivity|]. intros ->. reflexivity.
Qed.

End ExtractorFrames.

Section OrchestratorFacts.
Context `{UnicodeData} `{PyYAML}.
Import Orchestrator.

Lemma files_after_write path text w out :
  out ∉ documents → path ∈ documents →
  files (write_text out text w).2 !! path = files w !! path.
Proof.
  intros Hout Hpath. unfold write_text. case_decide; [done|]. simpl.
  apply lookup_insert_ne. by intros ->.
Qed.

Lemma write_text_frame out text w :
  clock (write_text out text w).2 = clock w ∧
  ticks (write_text out text w).2 = ticks w ∧
  stdout (write_text out text w).2 = stdout w.
Proof. unfold write_text. by case_decide. Qed.

Lemma yml_not_document out :
  out ∈ [".autoflow/SPRINTS.yml"; ".autoflow/TASK.yml"; ".autoflow/COMPLETED_TASKS.yml"] →
  out ∉ documents.
Proof.
  intros Hout Hdoc. unfold documents in Hdoc.
  repeat (apply elem_of_cons in Hout as [->|Hout];
          [repeat (apply elem_of_cons in Hdoc as [?|Hdoc]; [done|]);
           by apply elem_of_nil in Hdoc|]).
  by apply elem_of_nil in Hout.
Qed.

Lemma migrate_sprints_frame w :
  pipeline_frame ".autoflow/SPRINTS.md" w (migrate_sprints w).2.
Proof.
  unfold migrate_sprints, mbind, M_bind, dump_to.
  pose proof (parse_sprints_md_world w) as Hw.
  destruct (SprintsMd.parse_sprints_md w) as [[d|e] w']; simpl in Hw; subst w'.
  - destruct (write_text_frame ".autoflow/SPRINTS.yml" (yaml_dump (ToPy.sprints_data d))
                (if files w !! ".autoflow/SPRINTS.md" is Some _ then ticked w else w))
      as (Hclock & Hticks & Hout).
    split; [|split; [|split]].
    + intros path Hpath. rewrite files_after_write;
        [by destruct (files w !! ".autoflow/SPRINTS.md")
        |apply yml_not_document; repeat constructor|done].
    + rewrite Hclock. by destruct (files w !! ".autoflow/SPRINTS.md").
    + rewrite Hticks. by destruct (files w !! ".autoflow/SPRINTS.md").
    + rewrite Hout. by destruct (files w !! ".autoflow/SPRINTS.md").
  - unfold pipeline_frame. simpl. by destruct (files w !! ".autoflow/SPRINTS.md").
Qed.

Lemma migrate_task_frame w :
  pipeline_frame ".autoflow/TASK.md" w (migrate_task w).2.
Proof.
  unfold migrate_task, mbind, M_bind, dump_to.
  pose proof (parse_task_md_world w) as Hw.
  destruct (TaskMd.parse_task_md w) as [[d|e] w']; simpl in Hw; subst w'.
  - destruct (write_text_frame ".autoflow/TASK.yml" (yaml_dump (ToPy.task_data d))
                (if files w !! ".autoflow/TASK.md" is Some _ then ticked w else w))
      as (Hclock & Hticks & Hout).
    split; [|split; [|split]].
    + intros path Hpath. rewrite files_after_write;
        [by destruct (files w !! ".autoflow/TASK.md")
        |apply yml_not_document; repeat constructor|done].
    + rewrite Hclock. by destruct (files w !! ".autoflow/TASK.md").
    + rewrite Hticks. by destruct (files w !! ".autoflow/TASK.md").
    + rewrite Hout. by destruct (files w !! ".autoflow/TASK.md").
  - unfold pipeline_frame. simpl. by destruct (files w !! ".autoflow/TASK.md").
Qed.

Lemma migrate_completed_frame w :
  pipeline_frame ".autoflow/COMPLETED_TASKS.md" w (migrate_completed w).2.
Proof.
  unfold migrate_completed, mbind, M_bind, dump_to.
  pose proof (parse_completed_tasks_md_world w) as Hw.
  destruct (CompletedTasksMd.parse_completed_tasks_md w) as [[d|e] w'];
    simpl in Hw; subst w'.
  - destruct (write_text_frame ".autoflow/COMPLETED_TASKS.yml" (yaml_dump (ToPy.completed_data d))
                (if files w !! ".autoflow/COMPLETED_TASKS.md" is Some _ then ticked w else w))
      as (Hclock & Hticks & Hout).
    split; [|split; [|split]].
    + intros path Hpath. rewrite files_after_write;
        [by destruct (files w !! ".autoflow/COMPLETED_TASKS.md")
        |apply yml_not_document; repeat constructor|done].
    + rewrite Hclock. by destruct (files w !! ".autoflow/COMPLETED_TASKS.md").
    + rewrite Hticks. by destruct (files w !! ".autoflow/COMPLETED_TASKS.md").
    + rewrite Hout. by destruct (files w !! ".autoflow/COMPLETED_TASKS.md").
  - unfold pipeline_frame. simpl. by destruct (files w !! ".autoflow/COMPLETED_TASKS.md").
Qed.

(** Two worlds that agree on the documents still do after a pipeline
    ran in each, and so do their clocks if they did before. *)
Lemma frames_agree doc wa wb wa' wb' lines_a lines_b :
  doc ∈ documents →
  pipeline_frame doc wa wa' → pipeline_frame doc wb wb' →
  same_documents wa wb →
  same_documents (printing lines_a wa') (printing lines_b wb') ∧
  (same_clock wa wb → same_clock (printing lines_a wa') (printing lines_b wb')).
Proof.
  intros Hdoc (Hfa & Hca & Hta & _) (Hfb & Hcb & Htb & _) Hsame. split.
  - intros path Hpath. simpl. rewrite Hfa, Hfb by done. by apply Hsame.
  - intros [Hc Ht]. split; simpl; [congruence|].
    rewrite Hta, Htb, (Hsame doc Hdoc), Ht. done.
Qed.

Lemma print_step p w : print p w = (Ok (), printing [p] w).
Proof. done. Qed.

Lemma printing_app l1 l2 w : printing l2 (printing l1 w) = printing (l1 ++ l2) w.
Proof. unfold printing. simpl. by rewrite (assoc_L (++)). Qed.

(** A [try] block of [main] returns, whatever its attempt did, and has
    printed the outcome of the attempt. *)
Lemma try_step (attempt : M unit) success w :
  try_except (attempt;; print (Text success)) (λ e, print (ErrorText e)) w
  = (Ok (), printing [outcome attempt success w] (attempt w).2).
Proof.
  unfold try_except, outcome, mbind, M_bind.
  by destruct (attempt w) as [[[]|e] w'].
Qed.

Lemma seq_step (c k : M unit) w w1 : c w = (Ok (), w1) → (c;; k) w = k w1.
Proof. unfold mbind, M_bind. by intros ->. Qed.

(** [main] runs to the end: its three [try] blocks are run one after the
    other, each in the world that the one before left. *)
Lemma main_run w : main w = (Ok (), after_main w).
Proof.
  unfold main.
  repeat (erewrite seq_step; [|first [apply print_step|apply try_step]]).
  rewrite print_step.
  unfold after_main, before_completed, before_task, before_sprints.
  repeat rewrite printing_app. reflexivity.
Qed.

End OrchestratorFacts.

(** ** Greedy searches, labels and their values *)

Section GreedyFacts.
Context `{UnicodeData} (fl : list flag).

(** A pattern that begins with a literal text matches where the text
    is, and there as its tail does. *)
Lemma sre_match_lits l r : ∀ s g k,
  sre_match fl (lits l r) s g k
  = if startswith l s then sre_match fl r (drop (length l) s) g k else None.
Proof.
  induction l as [|a l IH]; intros s g k; [done|].
  cbn [lits foldr sre_match]. destruct s as [|c s]; [done|].
  cbn [cset_ok startswith length drop].
  destruct (a =? c)%N; [|done]. apply IH.
Qed.

Lemma sre_match_cat r1 r2 s g k :
  sre_match fl (Cat r1 r2) s g k
  = sre_match fl r1 s g (λ s' g', sre_match fl r2 s' g' k).
Proof. done. Qed.





Lemma search_from_lits_first l r : ∀ s pos i,
  find l s = Some i → is_Some (match_at fl (lits l r) (pos + i) (drop i s)) →
  search_from fl (lits l r) pos s = match_at fl (lits l r) (pos + i) (drop i s).
Proof.
  induction s as [|c s IH]; intros pos i Hfind Hm; rewrite find_unfold in Hfind.
  - destruct (startswith l []) eqn:Hs; [|done]. simplify_eq.
    rewrite Nat.add_0_r in *. cbn [drop search_from] in *.
    by destruct Hm as [m ->].
  - destruct (startswith l (c :: s)) eqn:Hs.
    + simplify_eq. rewrite Nat.add_0_r in *. cbn [drop search_from] in *.
      by destruct Hm as [m ->].
    + destruct (find l s) as [j|] eqn:Hj; [|done]. simpl in Hfind. simplify_eq.
      cbn [search_from]. unfold match_at at 1. rewrite sre_match_lits, Hs.
      replace (pos + S j) with (S pos + j) in * by lia. by apply IH.
Qed.


Lemma find_Some_startswith p : ∀ s i,
  find p s = Some i → startswith p (drop i s) = true ∧ i + length p ≤ length s.
Proof.
  assert (∀ s, startswith p s = true → length p ≤ length s) as Hlen.
  { induction p as [|a p IH]; intros [|b s] Hs; simpl in *; try done; try lia.
    apply andb_true_iff in Hs as [_ Hs]. apply IH in Hs. lia. }
  induction s as [|c s IH]; intros i Hfind; rewrite find_unfold in Hfind.
  - destruct (startswith p []) eqn:Hs; [|done]. simplify_eq.
    split; [done|]. by apply Hlen.
  - destruct (startswith p (c :: s)) eqn:Hs.
    + simplify_eq. split; [done|]. by apply Hlen.
    + destruct (find p s) as [j|] eqn:Hj; [|done]. simpl in Hfind. simplify_eq.
      destruct (IH j eq_refl) as [? ?]. split; [done|]. simpl. lia.
Qed.

Lemma startswith_prefix p : ∀ s, startswith p s = true → s = p ++ drop (length p) s.
Proof.
  induction p as [|a p IH]; intros [|b s] Hs; simpl in *; try done.
  apply andb_true_iff in Hs as [Hab Hs]. apply N.eqb_eq in Hab as ->.
  f_equal. by apply IH.
Qed.


End GreedyFacts.

Section ValueFacts.
Context `{UnicodeData}.





End ValueFacts.

Section NumberFacts.
Context `{UnicodeData}.




End NumberFacts.

Section LazyFacts.
Context `{UnicodeData} (fl : list flag).

(** A lazy repetition of a one-character matcher stops at the first
    place, from the minimum on, at which what follows it matches. *)
Lemma rep_loop_lazy_first cs (k : cont) res : ∀ w rest fuel min g,
  Forall (λ c, cset_ok fl cs c = true) w → min ≤ length w → length w < fuel →
  (∀ p, min ≤ p < length w → k (drop p (w ++ rest)) g = None) →
  k rest g = Some res →
  rep_loop (sre_match fl (Chr cs)) false k fuel min (w ++ rest) g = Some res.
Proof.
  set (body := sre_match fl (Chr cs)).
  induction w as [|c w IH]; intros rest fuel min g Hw Hmin Hfuel Hfail Hk.
  - destruct fuel as [|fuel]; [simpl in Hfuel; lia|].
    simpl in Hmin. assert (min = 0) as -> by lia.
    cbn [rep_loop app]. by rewrite Hk.
  - destruct fuel as [|fuel]; [simpl in Hfuel; lia|].
    apply Forall_cons in Hw as [Hc Hw].
    cbn [rep_loop].
    assert (match min with 0 => k ((c :: w) ++ rest) g | S _ => None end = None) as ->.
    { destruct min as [|min]; [|done]. apply (Hfail 0). simpl. lia. }
    rewrite <-app_comm_cons. unfold body at 1. cbn [sre_match].
    rewrite Hc. rewrite decide_True by (simpl; lia).
    apply IH; [done|simpl in *; lia..| |done].
    intros p Hp. apply (Hfail (S p)). simpl. lia.
Qed.

(** The same under a group, which records the text taken. *)
Lemma sre_match_lazy_group i cs w rest g (k : cont) res :
  Forall (λ c, cset_ok fl cs c = true) w → 1 ≤ length w →
  (∀ p g', 1 ≤ p < length w → k (drop p (w ++ rest)) g' = None) →
  k rest (<[i := w]> g) = Some res →
  sre_match fl (Group i (Rep false 1 (Chr cs))) (w ++ rest) g k = Some res.
Proof.
  intros Hw Hlen Hfail Hk. cbn [sre_match].
  apply rep_loop_lazy_first; [done|done|rewrite length_app; lia| |].
  - intros p Hp. by apply Hfail.
  - rewrite length_app.
    replace (length w + length rest - length rest) with (length w) by lia.
    by rewrite take_app_length.
Qed.

(** A lookahead for a literal text. *)
Lemma sre_match_ahead_lits l a s g (k : cont) :
  sre_match fl (Ahead (lits l (Chr (CLit a)))) s g k
  = if startswith (l ++ [a]) s then k s g else None.
Proof.
  cbn [sre_match]. rewrite sre_match_lits.
  assert (startswith (l ++ [a]) s
          = startswith l s
            && match drop (length l) s with
               | c :: _ => (a =? c)%N
               | [] => false
               end) as ->.
  { clear. revert s. induction l as [|b l IH]; intros [|c s]; simpl; try done.
    - by rewrite andb_true_r.
    - by rewrite IH, andb_assoc. }
  destruct (startswith l s); [|done]. cbn [andb sre_match cset_ok].
  destruct (drop (length l) s) as [|c s']; [done|]. by destruct (a =? c)%N.
Qed.

(** A lazy group before a lookahead for a literal text. *)
Lemma sre_match_lazy_group_ahead i cs l a w rest g (k : cont) res :
  Forall (λ c, cset_ok fl cs c = true) w → 1 ≤ length w →
  (∀ p, 1 ≤ p < length w → startswith (l ++ [a]) (drop p (w ++ rest)) = false) →
  startswith (l ++ [a]) rest = true →
  k rest (<[i := w]> g) = Some res →
  sre_match fl (Cat (Group i (Rep false 1 (Chr cs))) (Ahead (lits l (Chr (CLit a)))))
    (w ++ rest) g k = Some res.
Proof.
  intros Hw Hlen Hfail Hrest Hk. rewrite sre_match_cat.
  apply sre_match_lazy_group; [done|done| |].
  - intros p g' Hp. rewrite sre_match_ahead_lits. by rewrite Hfail.
  - by rewrite sre_match_ahead_lits, Hrest.
Qed.

Lemma find_least p : ∀ s n j,
  find p s = Some n → j < n → startswith p (drop j s) = false.
Proof.
  induction s as [|c s IH]; intros n j Hfind Hj; rewrite find_unfold in Hfind.
  - destruct (startswith p []); [|done]. simplify_eq. lia.
  - destruct (startswith p (c :: s)) eqn:Hs; [simplify_eq; lia|].
    destruct (find p s) as [m|] eqn:Hm; [|done]. simpl in Hfind. simplify_eq.
    destruct j as [|j]; [done|]. simpl. apply (IH m); [done|lia].
Qed.

End LazyFacts.

Section DescriptionFacts.
Context `{UnicodeData}.

(** The search for the description pattern finds the first description. *)
Lemma description_search section text :
  first_description section text →
  ∃ m, re_search TaskMd.desc_pattern section [DOTALL] = Some m ∧ group m 1 = text.
Proof.
  intros (i & c & v & rest & Hfind & Hdrop & -> & Hfirst).
  destruct (find_Some_startswith _ _ _ Hfind) as [Hstart Hlen].
  destruct (find_Some_startswith _ _ _ Hfirst) as [Hboundary _].
  rewrite drop_app_length in Hboundary.
  change TaskMd.desc_pattern with
    (lits (py "**Description**:\n")
       (Cat (Group 1 (Rep false 1 (Chr CAny)))
            (Ahead (lits [10; 10; 42]%N (Chr (CLit 42%N)))))).
  unfold re_search.
  assert (match_at [DOTALL]
            (lits (py "**Description**:\n")
               (Cat (Group 1 (Rep false 1 (Chr CAny)))
                    (Ahead (lits [10; 10; 42]%N (Chr (CLit 42%N))))))
            (0 + i) (drop i section)
          = Some {| m_start := 0 + i;
                    m_end := 0 + i + (length (drop i section)
                                      - length (py "\n\n**" ++ rest));
                    m_groups :=
                      <[0 := take (length (drop i section)
                                   - length (py "\n\n**" ++ rest)) (drop i section)]>
                        (<[1 := c :: v]> ∅) |}) as Hm.
  { unfold match_at. rewrite sre_match_lits, Hstart, drop_drop, Hdrop.
    erewrite sre_match_lazy_group_ahead;
      [|apply Forall_forall; intros; reflexivity
       |simpl; lia
       |
       |exact Hboundary
       |reflexivity].
    - reflexivity.
    - intros p Hp. destruct p as [|p]; [lia|]. cbn [drop app].
      apply (find_least _ _ _ _ Hfirst). simpl in Hp. lia. }
  rewrite (search_from_lits_first [DOTALL] _ _ _ 0 i Hfind) by (rewrite Hm; by eexists).
  rewrite Hm. eexists. split; [done|].
  unfold group. cbn [m_groups]. by simplify_map_eq.
Qed.

End DescriptionFacts.

(** ** More on [strip] *)

Section StripMoreFacts.

Lemma lstrip_spaces s : spaces s → lstrip s = [].
Proof. induction 1 as [|c s Hc _ IH]; [done|]. simpl. by rewrite Hc. Qed.

Lemma rstrip_spaces s : spaces s → rstrip s = [].
Proof.
  intros Hs. unfold rstrip. rewrite lstrip_spaces; [done|]. by apply Forall_reverse.
Qed.

Lemma strip_spaces s : spaces s → strip s = [].
Proof. intros Hs. unfold strip. by rewrite lstrip_spaces. Qed.

(** [lstrip] stops at the first character that is no white space. *)
Lemma lstrip_app_keep a b :
  Exists (λ c, isspace c = false) a → lstrip (a ++ b) = lstrip a ++ b.
Proof.
  induction 1 as [c a Hc|c a _ IH]; simpl.
  - by rewrite Hc.
  - by destruct (isspace c).
Qed.

Lemma rstrip_app_keep p s :
  Exists (λ c, isspace c = false) s → rstrip (p ++ s) = p ++ rstrip s.
Proof.
  intros Hs. unfold rstrip. rewrite reverse_app.
  rewrite lstrip_app_keep
    by (apply Exists_exists in Hs as (x & Hin & Hx); apply Exists_exists;
        exists x; split; [by apply elem_of_reverse|done]).
  by rewrite reverse_app, reverse_involutive.
Qed.

Lemma rstrip_cons_keep c s :
  Exists (λ c, isspace c = false) s → rstrip (c :: s) = c :: rstrip s.
Proof. apply (rstrip_app_keep [c]). Qed.

Lemma rstrip_cons_nonspace x s : isspace x = false → rstrip (x :: s) = x :: rstrip s.
Proof.
  intros Hx. unfold rstrip. rewrite reverse_cons.
  assert (∀ a, lstrip (a ++ [x]) = lstrip a ++ [x]) as Hsnoc.
  { induction a as [|c a IH]; simpl; [by rewrite Hx|]. by destruct (isspace c). }
  by rewrite Hsnoc, reverse_app.
Qed.

Lemma spaces_or_not s : spaces s ∨ Exists (λ c, isspace c = false) s.
Proof.
  induction s as [|c s [IH|IH]].
  - left. constructor.
  - destruct (isspace c) eqn:Hc; [left; by constructor|right; by left].
  - right. by right.
Qed.

Lemma lstrip_idemp s : lstrip (lstrip s) = lstrip s.
Proof.
  induction s as [|c s IH]; [done|]. simpl.
  destruct (isspace c) eqn:Hc; [done|]. simpl. by rewrite Hc.
Qed.

Lemma rstrip_idemp s : rstrip (rstrip s) = rstrip s.
Proof. unfold rstrip. by rewrite reverse_involutive, lstrip_idemp. Qed.

Lemma lstrip_rstrip s : lstrip (rstrip s) = rstrip (lstrip s).
Proof.
  induction s as [|c s IH]; [done|].
  destruct (isspace c) eqn:Hc.
  - cbn [lstrip]. rewrite Hc.
    destruct (spaces_or_not s) as [Hs|Hs].
    + rewrite rstrip_spaces by (by constructor).
      by rewrite (lstrip_spaces s), (rstrip_spaces []) by (done || constructor).
    + rewrite rstrip_cons_keep by done. simpl. by rewrite Hc.
  - rewrite lstrip_nonspace by done. rewrite rstrip_cons_nonspace by done.
    by rewrite lstrip_nonspace.
Qed.

(** White space that [rstrip] or [lstrip] removed does not matter to [strip]. *)
Lemma strip_rstrip s : strip (rstrip s) = strip s.
Proof. unfold strip. by rewrite lstrip_rstrip, rstrip_idemp. Qed.


Lemma strip_cons_nonspace x s : isspace x = false → strip (x :: s) = x :: rstrip s.
Proof.
  intros Hx. unfold strip. rewrite lstrip_nonspace by done.
  by apply rstrip_cons_nonspace.
Qed.

Lemma strip_not_blank s : Exists (λ c, isspace c = false) s → strip s ≠ [].
Proof.
  intros (x & Hin & Hx)%Exists_exists.
  apply list_elem_of_split in Hin as (a & b & ->).
  unfold strip. destruct (lstrip_app_nonspace a x b Hx) as [a' ->].
  destruct (rstrip_app_nonspace a' x b Hx) as [t' ->]. by destruct a'.
Qed.

End StripMoreFacts.

(** ** The fields of the records *)

Section ProjectFacts.
Context `{UnicodeData}.
Import SprintsMd.

Lemma filter_none {A} (P : A → Prop) `{∀ x, Decision (P x)} (l : list A) :
  Forall (λ x, ¬ P x) l → filter P l = [].
Proof.
  induction 1 as [|x l Hx Hl IH]; [done|]. by rewrite filter_cons_False.
Qed.

(** The project record of a run, from the searches that fill it. *)
Lemma parse_sprints_md_project w sprints_md data w' :
  files w !! ".autoflow/SPRINTS.md" = Some sprints_md →
  parse_sprints_md w = (Ok data, w') →
  Project.name (SprintsData.project data)
    = match re_search project_pattern sprints_md [] with
      | Some m => group m 1
      | None => u "CraftyPrep - Laser Engraving Image Prep Tool"
      end ∧
  match re_search total_sprints_pattern sprints_md [] with
  | Some m => int (group m 1)
  | None => Ok 7%Z
  end = Ok (Project.total_sprints (SprintsData.project data)) ∧
  for_each (sprint_data sprints_md) (re_finditer sprint_pattern sprints_md [])
    = Ok (SprintsData.sprints data) ∧
  Project.current_sprint (SprintsData.project data)
    = current_sprint_of (SprintsData.sprints data).
Proof.
  intros Hfile. unfold parse_sprints_md, read_text, lift, datetime_now.
  unfold mbind, M_bind, mret, M_ret. rewrite Hfile.
  destruct (match re_search total_sprints_pattern sprints_md [] with
            | Some m => int (group m 1)
            | None => Ok 7%Z
            end) as [n|e]; [|done].
  destruct (for_each _ _) as [ss|e]; [|done].
  intros [= <- <-]. done.
Qed.

End ProjectFacts.

Section SpanFacts.
Context `{UnicodeData}.

Lemma next_sprint_pattern_heading w rest g :
  matches [] SprintsMd.next_sprint_pattern w rest ∅ g → sprint_heading w.
Proof.
  unfold SprintsMd.next_sprint_pattern. intros Hm. inv_matches.
  eexists. split; [reflexivity|]. by apply rep_digits.
Qed.

Lemma sprint_heading_matches w rest :
  sprint_heading w → ∃ g, matches [] SprintsMd.next_sprint_pattern w rest ∅ g.
Proof.
  intros (d & -> & Hd). exists ∅. unfold SprintsMd.next_sprint_pattern.
  cbn [app u utf8_decode bytes_of]. 
  repeat apply matches_lit_cons.
  apply (matches_cat [] _ _ d [58%N] rest ∅ ∅ ∅).
  - destruct Hd as [Hne Hd]. apply matches_rep_chr_intro.
    + eapply Forall_impl; [exact Hd|]. intros c Hc. cbn. by apply bool_decide_eq_true.
    + destruct d; [done|simpl; lia].
  - by constructor.
Qed.


Lemma digits_rep d rest g :
  digits d → matches [] (Rep true 1 (Chr CDigit)) d rest g g.
Proof.
  intros [Hne Hd]. apply matches_rep_chr_intro.
  - eapply Forall_impl; [exact Hd|]. intros c Hc. cbn. by apply bool_decide_eq_true.
  - destruct d; [done|simpl; lia].
Qed.

Lemma next_task_pattern_heading w rest g :
  matches [] TaskMd.next_task_pattern w rest ∅ g → task_heading w.
Proof.
  unfold TaskMd.next_task_pattern. intros Hm. inv_matches.
  eexists _, _. split; [reflexivity|]. split; by apply rep_digits.
Qed.

Lemma task_heading_matches w rest :
  task_heading w → ∃ g, matches [] TaskMd.next_task_pattern w rest ∅ g.
Proof.
  intros (d1 & d2 & -> & Hd1 & Hd2). exists ∅. unfold TaskMd.next_task_pattern.
  cbn [app u utf8_decode bytes_of].
  repeat apply matches_lit_cons.
  apply (matches_cat [] _ _ d1 (46%N :: d2 ++ [58%N]) rest ∅ ∅ ∅);
    [by apply digits_rep|].
  apply matches_lit_cons.
  apply (matches_cat [] _ _ d2 [58%N] rest ∅ ∅ ∅); [by apply digits_rep|].
  by constructor.
Qed.

(** The span that the three extractors cut for a match: from the start
    of the match to the first heading after its end. *)
Lemma span_of_match fl r next (heading : str → Prop) doc m :
  (∀ w rest g, matches [] next w rest ∅ g → heading w) →
  (∀ w rest, heading w → ∃ g, matches [] next w rest ∅ g) →
  found fl r doc m →
  span_to_next heading doc (m_start m) (m_end m - m_start m)
    (slice (m_start m)
       (match re_search next (drop (m_end m) doc) [] with
        | Some n => m_end m + m_start n
        | None => length doc
        end) doc).
Proof.
  intros Hinv Hintro (pre & w & rest0 & g & -> & Hm & Hst & Hen & Hg).
  assert (drop (m_end m) (pre ++ w ++ rest0) = rest0) as Hdrop.
  { rewrite Hen, (assoc_L (++)), drop_app_length'; [done|].
    by rewrite length_app. }
  rewrite Hdrop.
  destruct (re_search next rest0 []) as [n|] eqn:Hn.
  - pose proof (re_search_sound [] _ _ _ Hn)
      as (a & b & c & gn & -> & Hb & Hsn & _ & _).
    exists pre, w, a, (b ++ c). split_and!.
    + done.
    + done.
    + lia.
    + unfold slice. rewrite Hst, drop_app_length, Hen, Hsn.
      replace (length pre + length w + length a - length pre)
        with (length (w ++ a)) by (rewrite length_app; lia).
      by rewrite (assoc_L (++)), take_app_length.
    + intros a' h c' Heq Hh.
      destruct (Hintro h c' Hh) as [gh Hmh].
      pose proof (search_from_leftmost [] next _ 0 n a' h c' gh Hn Heq Hmh). lia.
    + right. exists b, c. split; [done|]. by eapply Hinv.
  - exists pre, w, rest0, []. split_and!.
    + by rewrite app_nil_r.
    + done.
    + lia.
    + unfold slice. rewrite Hst, drop_app_length.
      rewrite take_ge; [done|]. rewrite !length_app. lia.
    + intros a' h c' Heq Hh. exfalso.
      destruct (Hintro h c' Hh) as [gh Hmh].
      apply re_search_None in Hn. apply Hn. rewrite app_nil_r in Heq.
      by exists a', h, c', gh.
    + by left.
Qed.

End SpanFacts.

Section TaskRecordFacts.
Context `{UnicodeData}.
Import TaskMd.

(** The record of a run of the active-task extractor, from the searches
    that fill it. *)
Lemma parse_task_md_fields w task_md data w' :
  files w !! ".autoflow/TASK.md" = Some task_md →
  parse_task_md w = (Ok data, w') →
  match re_search sprint_pattern task_md [] with
  | Some m => int (group m 1)
  | None => Ok 3%Z
  end = Ok (ActiveSprint.id (TaskData.sprint data)) ∧
  ActiveSprint.goal (TaskData.sprint data)
    = match re_search goal_pattern task_md [] with
      | Some m => strip (group m 1)
      | None => []
      end ∧
  ActiveSprint.duration (TaskData.sprint data)
    = match re_search duration_pattern task_md [] with
      | Some m => strip (group m 1)
      | None => u "TBD"
      end ∧
  ActiveSprint.status (TaskData.sprint data)
    = match re_search status_pattern task_md [] with
      | Some m => strip (group m 1)
      | None => u "ACTIVE"
      end ∧
  match re_search progress_pattern task_md [] with
  | Some m => int (group m 1)
  | None => Ok 0%Z
  end = Ok (Progress.completed (ActiveSprint.progress (TaskData.sprint data))) ∧
  match re_search progress_pattern task_md [] with
  | Some m => int (group m 2)
  | None => Ok 0%Z
  end = Ok (Progress.total (ActiveSprint.progress (TaskData.sprint data))) ∧
  TaskData.tasks data
    = task_data task_md <$> re_finditer task_pattern task_md [MULTILINE].
Proof.
  intros Hfile. unfold parse_task_md, read_text, lift, datetime_now.
  unfold mbind, M_bind, mret, M_ret. rewrite Hfile.
  destruct (match re_search sprint_pattern task_md [] with
            | Some m => int (group m 1)
            | None => Ok 3%Z
            end) as [n|e]; [|done].
  destruct (match re_search progress_pattern task_md [] with
            | Some m => int (group m 1)
            | None => Ok 0%Z
            end) as [c|e]; [|done].
  destruct (match re_search progress_pattern task_md [] with
            | Some m => int (group m 2)
            | None => Ok 0%Z
            end) as [t|e]; [|done].
  intros [= <- <-]. done.
Qed.

(** The text of a criterion: what follows the marker. *)
Lemma criterion_text line c text :
  checklist_line line c text →
  Criterion.criterion (criterion_of_line line) = strip text.
Proof.
  intros (-> & _ & _). unfold criterion_of_line. cbn [Criterion.criterion].
  change (u "- [") with [45; 32; 91]%N. change (u "] ") with [93; 32]%N.
  assert (find [93; 32]%N ([45; 32; 91]%N ++ [c] ++ [93; 32]%N ++ text) = Some 4) as Hfind.
  { cbn -[N.eqb]. destruct (93 =? c)%N; reflexivity. }
  unfold contains, split_once. rewrite Hfind.
  rewrite bool_decide_eq_true_2 by by eexists. done.
Qed.

End TaskRecordFacts.

Section LinkFacts.
Context `{UnicodeData}.
Import TaskMd.

Lemma docs_pattern_shape w rest g :
  matches [] docs_pattern w rest ∅ g →
  ∃ title path, link_item w title path ∧ g = <[2 := path]> (<[1 := title]> ∅).
Proof.
  unfold docs_pattern. intros Hm. inv_matches.
  eexists _, _. split; [|reflexivity].
  split; [reflexivity|].
  split; (eapply rep_inline; [apply not_elem_of_nil|done..]).
Qed.

Lemma link_item_matches w title path rest :
  link_item w title path → ∃ g, matches [] docs_pattern w rest ∅ g.
Proof.
  intros (-> & Ht & Hp). exists (<[2 := path]> (<[1 := title]> ∅)).
  unfold docs_pattern. cbn [app u utf8_decode bytes_of].
  repeat apply matches_lit_cons.
  apply (matches_cat [] _ _ title (u "](" ++ path ++ u ")") rest
           ∅ (<[1 := title]> ∅) (<[2 := path]> (<[1 := title]> ∅)));
    [by apply matches_inline|].
  cbn [app u utf8_decode bytes_of].
  repeat apply matches_lit_cons.
  apply (matches_cat [] _ _ path [41%N] rest
           (<[1 := title]> ∅) (<[2 := path]> (<[1 := title]> ∅))
           (<[2 := path]> (<[1 := title]> ∅)));
    [by apply matches_inline|].
  by constructor.
Qed.

Lemma docs_found section lm :
  found [] docs_pattern section lm →
  link_item (slice (m_start lm) (m_end lm) section) (group lm 1) (group lm 2).
Proof.
  intros Hf. apply found_slice in Hf as (w & rest & g & Hm & -> & Hg).
  apply docs_pattern_shape in Hm as (title & path & Hitem & ->).
  unfold group. rewrite Hg. by simplify_map_eq.
Qed.

End LinkFacts.

Section DeliverableFacts.
Context `{UnicodeData}.










End DeliverableFacts.

Section MarkedFacts.
Context `{UnicodeData}.

Lemma marked_iteration wi resti gi gi' :
  matches []
    (Cat (Chr (CLit 45)) (Cat (Chr (CLit 32)) (Cat (Chr (CLit 8218))
      (Cat (Chr (CLit 250)) (Cat (Chr (CLit 214)) (Cat (Chr (CLit 32))
        (Cat (Rep true 1 (Chr CAny)) (Chr (CLit 10)))))))))%N
    wi resti gi gi' →
  ∃ line text, wi = line ++ [NL] ∧ marked_line line text.
Proof.
  intros Hm. inv_matches.
  match goal with
  | Ht : Forall (λ c, cset_ok [] CAny c = true) ?t |- _ =>
      exists (u "- ‚úÖ " ++ t), t;
      split; [by repeat rewrite <-(assoc_L (++))|];
      split; [done|]; by eapply rep_inline; [apply not_elem_of_nil|..]
  end.
Qed.

Lemma marked_lines_of_iterations (ws : list str) :
  Forall (λ wi, ∃ line text, wi = line ++ [NL] ∧ marked_line line text) ws →
  ∃ lines, ws = (λ l, l ++ [NL]) <$> lines ∧
           Forall (λ line, ∃ text, marked_line line text) lines.
Proof.
  induction 1 as [|wi ws (line & text & -> & Hline) _ (lines & -> & Hlines)].
  - by exists [].
  - exists (line :: lines). split; [done|]. constructor; [by eexists|done].
Qed.

(** The block that the deliverables pattern of a completed task captures
    is a run of one or more marked lines, each closed by a line feed. *)
Lemma deliv_pattern_lines section m :
  re_search CompletedTasksMd.deliv_pattern section [] = Some m →
  ∃ lines, group m 1 = concat ((λ l, l ++ [NL]) <$> lines) ∧ lines ≠ [] ∧
           Forall (λ line, ∃ text, marked_line line text) lines.
Proof.
  intros (w & rest & g & Hm & _ & Hg)%re_search_sound%found_slice.
  unfold CompletedTasksMd.deliv_pattern in Hm. inv_matches.
  match goal with
  | Hrep : matches _ (Rep _ _ _) _ _ _ _ |- _ =>
      apply matches_rep_inv in Hrep as (ws & -> & Hlen & Hall)
  end.
  eapply Forall_impl in Hall;
    [|intros wi (resti & gi & gi' & Hwi); exact (marked_iteration _ _ _ _ Hwi)].
  apply marked_lines_of_iterations in Hall as (lines & -> & Hlines).
  exists lines. split; [|split; [|done]].
  - unfold group. rewrite Hg. by simplify_map_eq.
  - intros ->. simpl in Hlen. lia.
Qed.

Lemma marked_line_no_NL line text : marked_line line text → NL ∉ line.
Proof.
  intros (-> & _ & Hnl). rewrite elem_of_app. intros [Hin|Hin]; [|done].
  vm_compute in Hin. repeat (apply elem_of_cons in Hin as [Hin|Hin]; [done|]).
  by apply elem_of_nil in Hin.
Qed.

(** The entry of a marked line: the line without its first four
    characters, which leaves the last character of the marker. *)
Lemma marked_entry line text :
  marked_line line text →
  strip line ≠ [] ∧
  strip (drop 4 (strip line)) = strip (u "Ö " ++ text).
Proof.
  intros (-> & _).
  change (u "- ‚úÖ ") with ([45; 32; 8218; 250]%N ++ [214; 32]%N).
  change (u "Ö ") with [214; 32]%N.
  assert (strip (([45; 32; 8218; 250]%N ++ [214; 32]%N) ++ text)
          = [45; 32; 8218; 250]%N ++ rstrip ([214; 32]%N ++ text)) as ->.
  { unfold strip. rewrite <-(assoc_L (++)).
    change ([45; 32; 8218; 250]%N ++ [214; 32]%N ++ text)
      with (45%N :: [32; 8218; 250]%N ++ [214; 32]%N ++ text).
    rewrite lstrip_nonspace by done.
    change (45%N :: [32; 8218; 250]%N ++ [214; 32]%N ++ text)
      with ([45; 32; 8218; 250]%N ++ [214; 32]%N ++ text).
    rewrite rstrip_app_keep; [done|]. by left. }
  split; [done|].
  change (drop 4 ([45; 32; 8218; 250]%N ++ rstrip ([214; 32]%N ++ text)))
    with (rstrip ([214; 32]%N ++ text)).
  apply strip_rstrip.
Qed.

Lemma task_deliverables_lines section m lines :
  re_search CompletedTasksMd.deliv_pattern section [] = Some m →
  group m 1 = concat ((λ l, l ++ [NL]) <$> lines) →
  Forall (λ line, ∃ text, marked_line line text) lines →
  CompletedTasksMd.task_deliverables section
    = (λ line, strip (drop 4 (strip line))) <$> lines.
Proof.
  intros Hs Hblock Hlines. unfold CompletedTasksMd.task_deliverables.
  rewrite Hs, Hblock.
  rewrite split_on_lines
    by (eapply Forall_impl; [done|]; intros l (t & ?); by eapply marked_line_no_NL).
  rewrite filter_app, filter_cons_False, filter_nil by (by intros ?).
  rewrite app_nil_r. f_equal. apply filter_all.
  eapply Forall_impl; [done|]. intros l (t & Hl). by apply (marked_entry _ _ Hl).
Qed.

Lemma length_lstrip s : length (lstrip s) ≤ length s.
Proof.
  induction s as [|c s IH]; [done|]. simpl. destruct (isspace c); simpl; lia.
Qed.

Lemma length_strip_rstrip s : length (strip s) ≤ length (rstrip s).
Proof. unfold strip. rewrite <-lstrip_rstrip. apply length_lstrip. Qed.

(** The entry is never the text alone. *)
Lemma marked_entry_not_text text : strip (u "Ö " ++ text) ≠ strip text.
Proof.
  change (u "Ö " ++ text) with (214%N :: 32%N :: text).
  rewrite strip_cons_nonspace by done.
  intros Heq%(f_equal length). pose proof (length_strip_rstrip text) as Hlen.
  destruct (spaces_or_not text) as [Hs|Hs].
  - rewrite rstrip_spaces in Heq by (by constructor).
    by rewrite (strip_spaces text) in Heq.
  - rewrite rstrip_cons_keep in Heq by done. simpl in Heq. lia.
Qed.

End MarkedFacts.

Section HeaderShapes.
Context `{UnicodeData}.

Lemma task_pattern_shape w rest g :
  matches [MULTILINE] TaskMd.task_pattern w rest ∅ g →
  ∃ name title id prio st est,
    task_header w name title id prio st est ∧
    g = <[6 := est]> (<[5 := st]> (<[4 := prio]> (<[3 := id]>
          (<[2 := title]> (<[1 := name]> ∅))))).
Proof.
  unfold TaskMd.task_pattern. intros Hm. inv_matches.
  eexists _, _, _, _, _, _. split; [|done].
  eexists _, _, _, _, _, _, _, _. split; [reflexivity|]. split; [reflexivity|].
  split; [reflexivity|].
  assert (DOTALL ∉ [MULTILINE]) by (by intros ?%list_elem_of_singleton).
  split_and!; eauto using rep_digits, rep_inline, rep_word.
Qed.

Lemma completed_pattern_shape w rest g :
  matches [MULTILINE] CompletedTasksMd.task_pattern w rest ∅ g →
  ∃ title id st date est act sprint,
    completed_header w title id st date est act sprint ∧
    g = <[7 := sprint]> (<[6 := act]> (<[5 := est]> (<[4 := date]> (<[3 := st]>
          (<[2 := id]> (<[1 := title]> ∅)))))).
Proof.
  unfold CompletedTasksMd.task_pattern. intros Hm. inv_matches.
  eexists _, _, _, _, _, _, _. split; [|done].
  eexists _, _, _, _, _, _, _, _, _, _. split; [reflexivity|].
  split; [reflexivity|].
  assert (DOTALL ∉ [MULTILINE]) by (by intros ?%list_elem_of_singleton).
  split_and!; eauto using rep_digits, rep_inline, rep_word.
Qed.

Lemma matches_fl_digits fl i w rest g :
  digits w → matches fl (Group i (Rep true 1 (Chr CDigit))) w rest g (<[i := w]> g).
Proof.
  intros [Hne Hd]. constructor. apply matches_rep_chr_intro.
  - eapply Forall_impl; [exact Hd|]. intros c Hc. cbn. by apply bool_decide_eq_true.
  - destruct w; [done|simpl; lia].
Qed.

Lemma matches_fl_digits_plain fl w rest g :
  digits w → matches fl (Rep true 1 (Chr CDigit)) w rest g g.
Proof.
  intros [Hne Hd]. apply matches_rep_chr_intro.
  - eapply Forall_impl; [exact Hd|]. intros c Hc. cbn. by apply bool_decide_eq_true.
  - destruct w; [done|simpl; lia].
Qed.

Lemma matches_fl_inline fl greedy i w rest g :
  inline w →
  matches fl (Group i (Rep greedy 1 (Chr CAny))) w rest g (<[i := w]> g).
Proof.
  intros [Hne Hnl]. constructor. apply matches_rep_chr_intro.
  - apply Forall_forall. intros c Hc. unfold cset_ok.
    destruct (N.eqb_spec c NL) as [->|_]; [done|]. apply orb_true_r.
  - destruct w; [done|simpl; lia].
Qed.

Lemma matches_fl_word fl i w rest g :
  word w → matches fl (Group i (Rep true 1 (Chr CWord))) w rest g (<[i := w]> g).
Proof.
  intros [Hne Hw]. constructor. apply matches_rep_chr_intro.
  - exact Hw.
  - destruct w; [done|simpl; lia].
Qed.

Lemma matches_fl_spaces fl w rest g :
  spaces w → matches fl (Rep true 0 (Chr CSpace)) w rest g g.
Proof. intros Hw. apply matches_rep_chr_intro; [exact Hw|lia]. Qed.

End HeaderShapes.

Section HeaderGroups.
Context `{UnicodeData} (fl : list flag).

Lemma task_name_matches name d1 d2 rest g :
  name = u "Task " ++ d1 ++ u "." ++ d2 → digits d1 → digits d2 →
  matches fl
    (Group 1 (Cat (Chr (CLit 84)) (Cat (Chr (CLit 97)) (Cat (Chr (CLit 115))
       (Cat (Chr (CLit 107)) (Cat (Chr (CLit 32))
          (Cat (Rep true 1 (Chr CDigit))
             (Cat (Chr (CLit 46)) (Rep true 1 (Chr CDigit))))))))))%N
    name rest g (<[1 := name]> g).
Proof.
  intros -> Hd1 Hd2. constructor.
  change (u "Task ") with [84; 97; 115; 107; 32]%N. change (u ".") with [46]%N.
  cbn [app]. repeat apply matches_lit_cons.
  apply (matches_cat fl _ _ d1 (46%N :: d2) rest g g g);
    [by apply matches_fl_digits_plain|].
  apply matches_lit_cons. by apply matches_fl_digits_plain.
Qed.

Lemma task_id_matches i id d rest g :
  id = u "task-" ++ d → digits d →
  matches fl
    (Group i (Cat (Chr (CLit 116)) (Cat (Chr (CLit 97)) (Cat (Chr (CLit 115))
       (Cat (Chr (CLit 107)) (Cat (Chr (CLit 45)) (Rep true 1 (Chr CDigit))))))))%N
    id rest g (<[i := id]> g).
Proof.
  intros -> Hd. constructor.
  change (u "task-") with [116; 97; 115; 107; 45]%N.
  cbn [app]. repeat apply matches_lit_cons. by apply matches_fl_digits_plain.
Qed.

End HeaderGroups.

Ltac header_matches :=
  repeat first
    [ apply matches_lit_cons
    | eapply matches_cat;
      [ first [ by eapply task_name_matches | by eapply task_id_matches
              | by apply matches_fl_digits_plain
              | by apply matches_fl_inline | by apply matches_fl_word
              | by apply matches_fl_spaces ] | ] ].

Section TaskHeaderInstances.
Context `{UnicodeData}.

Lemma task_header_matches w name title id prio st est rest :
  task_header w name title id prio st est →
  ∃ g, matches [MULTILINE] TaskMd.task_pattern w rest ∅ g.
Proof.
  intros (d1 & d2 & d & ws1 & ws2 & ws3 & ws4 & ws5 & Hname & Hid & ->
          & Hws1 & Hws2 & Hws3 & Hws4 & Hws5 & Hd1 & Hd2 & Hd
          & Htitle & Hprio & Hst & Hest).
  eexists. unfold TaskMd.task_pattern.
  change (u "### ") with [35; 35; 35; 32]%N.
  change (u ":") with [58]%N.
  let l := eval vm_compute in (py "\n\n**ID**:") in change (py "\n\n**ID**:") with l.
  let l := eval vm_compute in (py "\n**Priority**:") in
    change (py "\n**Priority**:") with l.
  let l := eval vm_compute in (py "\n**Status**:") in change (py "\n**Status**:") with l.
  let l := eval vm_compute in (py "\n**Estimated Effort**:") in
    change (py "\n**Estimated Effort**:") with l.
  cbn [app]. header_matches. by apply matches_fl_inline.
Qed.

Lemma completed_header_matches w title id st date est act sprint rest :
  completed_header w title id st date est act sprint →
  ∃ g, matches [MULTILINE] CompletedTasksMd.task_pattern w rest ∅ g.
Proof.
  intros (d1 & d2 & d & ws1 & ws2 & ws3 & ws4 & ws5 & ws6 & ws7 & Hid & ->
          & Hws1 & Hws2 & Hws3 & Hws4 & Hws5 & Hws6 & Hws7 & Hd1 & Hd2 & Hd
          & Htitle & Hst & Hdate & Hest & Hact & Hsprint).
  eexists. unfold CompletedTasksMd.task_pattern.
  change (u "### Task ") with [35; 35; 35; 32; 84; 97; 115; 107; 32]%N.
  change (u ".") with [46]%N.
  change (u ":") with [58]%N.
  let l := eval vm_compute in (py "\n\n**ID**:") in change (py "\n\n**ID**:") with l.
  let l := eval vm_compute in (py "\n**Status**:") in change (py "\n**Status**:") with l.
  let l := eval vm_compute in (py "\n**Completed**:") in
    change (py "\n**Completed**:") with l.
  let l := eval vm_compute in (py "\n**Estimated**:") in
    change (py "\n**Estimated**:") with l.
  let l := eval vm_compute in (py "\n**Actual**:") in change (py "\n**Actual**:") with l.
  let l := eval vm_compute in (py "\n**Sprint**:") in change (py "\n**Sprint**:") with l.
  cbn [app]. header_matches. by apply matches_fl_inline.
Qed.

Lemma task_found doc m :
  found [MULTILINE] TaskMd.task_pattern doc m →
  task_header (slice (m_start m) (m_end m) doc)
    (group m 1) (group m 2) (group m 3) (group m 4) (group m 5) (group m 6).
Proof.
  intros Hf. apply found_slice in Hf as (w & rest & g & Hm & -> & Hg).
  apply task_pattern_shape in Hm as (?&?&?&?&?&? & Hh & ->).
  unfold group. rewrite Hg. by simplify_map_eq.
Qed.

Lemma completed_found doc m :
  found [MULTILINE] CompletedTasksMd.task_pattern doc m →
  completed_header (slice (m_start m) (m_end m) doc)
    (group m 1) (group m 2) (group m 3) (group m 4) (group m 5) (group m 6)
    (group m 7).
Proof.
  intros Hf. apply found_slice in Hf as (w & rest & g & Hm & -> & Hg).
  apply completed_pattern_shape in Hm as (?&?&?&?&?&?&? & Hh & ->).
  unfold group. rewrite Hg. by simplify_map_eq.
Qed.

End TaskHeaderInstances.

Section TaskLineFacts.
Context `{UnicodeData}.

Lemma sprint_task_line_shape w rest g :
  matches [] SprintsMd.sprint_task_pattern w rest ∅ g →
  ∃ id st title,
    task_line w id st title ∧
    g = <[3 := title]> (<[2 := st]> (<[1 := id]> ∅)).
Proof.
  unfold SprintsMd.sprint_task_pattern. intros Hm. inv_matches.
  eexists _, _, _. split; [|done].
  eexists _, _, _, _. split; [reflexivity|].
  split; [reflexivity|].
  assert (DOTALL ∉ []) by apply not_elem_of_nil.
  split_and!; eauto using rep_digits, rep_inline, rep_word.
Qed.

Lemma task_line_matches w id st title rest :
  task_line w id st title →
  ∃ g, matches [] SprintsMd.sprint_task_pattern w rest ∅ g.
Proof.
  intros (d & ws1 & ws2 & ws3 & Hid & -> & Hws1 & Hws2 & Hws3 & Hd & Hst & Htitle).
  eexists. unfold SprintsMd.sprint_task_pattern.
  change (u "`") with [96]%N. change (u "[") with [91]%N.
  change (u "]") with [93]%N. change (u "-") with [45]%N.
  cbn [app]. header_matches. by apply matches_fl_inline.
Qed.

Lemma sprint_task_line_found span tm :
  found [] SprintsMd.sprint_task_pattern span tm →
  task_line (slice (m_start tm) (m_end tm) span) (group tm 1) (group tm 2) (group tm 3).
Proof.
  intros Hf. apply found_slice in Hf as (w & rest & g & Hm & -> & Hg).
  apply sprint_task_line_shape in Hm as (?&?&? & Hh & ->).
  unfold group. rewrite Hg. by simplify_map_eq.
Qed.

End TaskLineFacts.

(** ** The files of a run of [main] *)

Section PipelineFacts.
Context `{UnicodeData} `{PyYAML}.
Import Orchestrator.

(** An extractor changes no file and no permission. *)
Lemma ticked_or_not_files (present : bool) w :
  files (if present then ticked w else w) = files w ∧
  readonly (if present then ticked w else w) = readonly w.
Proof. by destruct present. Qed.

Lemma parse_sprints_md_files w :
  files (SprintsMd.parse_sprints_md w).2 = files w ∧
  readonly (SprintsMd.parse_sprints_md w).2 = readonly w.
Proof.
  rewrite parse_sprints_md_world. by destruct (files w !! ".autoflow/SPRINTS.md").
Qed.

Lemma parse_task_md_files w :
  files (TaskMd.parse_task_md w).2 = files w ∧
  readonly (TaskMd.parse_task_md w).2 = readonly w.
Proof.
  rewrite parse_task_md_world. by destruct (files w !! ".autoflow/TASK.md").
Qed.

Lemma parse_completed_tasks_md_files w :
  files (CompletedTasksMd.parse_completed_tasks_md w).2 = files w ∧
  readonly (CompletedTasksMd.parse_completed_tasks_md w).2 = readonly w.
Proof.
  rewrite parse_completed_tasks_md_world.
  by destruct (files w !! ".autoflow/COMPLETED_TASKS.md").
Qed.

(** What a pipeline, an extractor followed by the dump of its record,
    does to the files: it writes the dump when the extractor returned
    and the output can be written, and nothing otherwise. *)
Lemma pipeline_files {A} (parse : M A) (to_py : A → pyval) (out : string) w :
  files (parse w).2 = files w ∧ readonly (parse w).2 = readonly w →
  readonly ((data ← parse; dump_to out (to_py data)) w).2 = readonly w ∧
  match (parse w).1 with
  | Ok data =>
      if decide (out ∈ readonly w)
      then ((data ← parse; dump_to out (to_py data)) w).1 = Raise (PermissionError out) ∧
           files ((data ← parse; dump_to out (to_py data)) w).2 = files w
      else ((data ← parse; dump_to out (to_py data)) w).1 = Ok () ∧
           files ((data ← parse; dump_to out (to_py data)) w).2
             = <[out := yaml_dump (to_py data)]> (files w)
  | Raise e =>
      ((data ← parse; dump_to out (to_py data)) w).1 = Raise e ∧
      files ((data ← parse; dump_to out (to_py data)) w).2 = files w
  end.
Proof.
  intros [Hf Hr]. unfold mbind, M_bind, dump_to, write_text.
  destruct (parse w) as [[data|e] w1]; simpl in *; [|done].
  rewrite Hr. destruct (decide (out ∈ readonly w)); simpl; by rewrite ?Hf.
Qed.

Lemma pipeline_other {A} (parse : M A) (to_py : A → pyval) (out : string) w path :
  files (parse w).2 = files w ∧ readonly (parse w).2 = readonly w →
  path ≠ out ∨ path ∈ readonly w →
  files ((data ← parse; dump_to out (to_py data)) w).2 !! path = files w !! path.
Proof.
  intros Hparse Hpath.
  destruct (pipeline_files parse to_py out w Hparse) as [_ Hrun].
  destruct ((parse w).1) as [data|e]; [|by destruct Hrun as [_ ->]].
  destruct (decide (out ∈ readonly w)) as [Hro|Hro]; destruct Hrun as [_ ->]; [done|].
  apply lookup_insert_ne. intros ->. by destruct Hpath.
Qed.

Lemma pipeline_written {A} (parse : M A) (to_py : A → pyval) (out : string) w data :
  files (parse w).2 = files w ∧ readonly (parse w).2 = readonly w →
  (parse w).1 = Ok data → out ∉ readonly w →
  ((data ← parse; dump_to out (to_py data)) w).1 = Ok () ∧
  files ((data ← parse; dump_to out (to_py data)) w).2 !! out
    = Some (yaml_dump (to_py data)).
Proof.
  intros Hparse Hdata Hout.
  destruct (pipeline_files parse to_py out w Hparse) as [_ Hrun].
  rewrite Hdata in Hrun. rewrite decide_False in Hrun by done.
  destruct Hrun as [-> ->]. split; [done|]. apply lookup_insert_eq.
Qed.

Lemma pipeline_raised {A} (parse : M A) (to_py : A → pyval) (out : string) w e :
  files (parse w).2 = files w ∧ readonly (parse w).2 = readonly w →
  (parse w).1 = Raise e →
  ((data ← parse; dump_to out (to_py data)) w).1 = Raise e ∧
  files ((data ← parse; dump_to out (to_py data)) w).2 = files w.
Proof.
  intros Hparse He.
  destruct (pipeline_files parse to_py out w Hparse) as [_ Hrun].
  by rewrite He in Hrun.
Qed.

Lemma pipeline_readonly {A} (parse : M A) (to_py : A → pyval) (out : string) w :
  files (parse w).2 = files w ∧ readonly (parse w).2 = readonly w →
  readonly ((data ← parse; dump_to out (to_py data)) w).2 = readonly w.
Proof. intros Hparse. by destruct (pipeline_files parse to_py out w Hparse). Qed.

(** The worlds at which the pipelines of a run of [main] start: their
    files and permissions. *)
Lemma before_task_files w path :
  path ≠ ".autoflow/SPRINTS.yml" ∨ path ∈ readonly w →
  files (before_task w) !! path = files w !! path.
Proof.
  intros Hpath. unfold before_task. cbn [files printing].
  unfold migrate_sprints. rewrite pipeline_other; [done|apply parse_sprints_md_files|done].
Qed.

Lemma before_task_readonly w : readonly (before_task w) = readonly w.
Proof.
  unfold before_task. cbn [readonly printing]. unfold migrate_sprints.
  by rewrite pipeline_readonly by apply parse_sprints_md_files.
Qed.

Lemma before_completed_files w path :
  path ≠ ".autoflow/TASK.yml" ∨ path ∈ readonly w →
  files (before_completed w) !! path = files (before_task w) !! path.
Proof.
  intros Hpath. unfold before_completed. cbn [files printing].
  unfold migrate_task. rewrite pipeline_other; [done|apply parse_task_md_files|].
  by rewrite before_task_readonly.
Qed.

Lemma before_completed_readonly w : readonly (before_completed w) = readonly w.
Proof.
  unfold before_completed. cbn [readonly printing]. unfold migrate_task.
  rewrite pipeline_readonly by apply parse_task_md_files. apply before_task_readonly.
Qed.

Lemma after_main_files w path :
  path ≠ ".autoflow/COMPLETED_TASKS.yml" ∨ path ∈ readonly w →
  files (after_main w) !! path = files (before_completed w) !! path.
Proof.
  intros Hpath. unfold after_main. cbn [files printing].
  unfold migrate_completed.
  rewrite pipeline_other; [done|apply parse_completed_tasks_md_files|].
  by rewrite before_completed_readonly.
Qed.

Lemma after_main_readonly w : readonly (after_main w) = readonly w.
Proof.
  unfold after_main. cbn [readonly printing]. unfold migrate_completed.
  rewrite pipeline_readonly by apply parse_completed_tasks_md_files.
  apply before_completed_readonly.
Qed.

Lemma after_main_clock w : clock (after_main w) = clock w.
Proof.
  unfold after_main. cbn [clock printing].
  rewrite (proj1 (proj2 (migrate_completed_frame _))).
  unfold before_completed. cbn [clock printing].
  rewrite (proj1 (proj2 (migrate_task_frame _))).
  unfold before_task. cbn [clock printing].
  by rewrite (proj1 (proj2 (migrate_sprints_frame _))).
Qed.

End PipelineFacts.

Section RunFacts.
Context `{UnicodeData} `{PyYAML}.
Import Orchestrator.

Lemma before_task_clock w : clock (before_task w) = clock w.
Proof.
  unfold before_task. cbn [clock printing].
  by rewrite (proj1 (proj2 (migrate_sprints_frame _))).
Qed.

Lemma before_completed_clock w : clock (before_completed w) = clock w.
Proof.
  unfold before_completed. cbn [clock printing].
  rewrite (proj1 (proj2 (migrate_task_frame _))). apply before_task_clock.
Qed.

(** The output of a pipeline after a run of [main]: the dump of the
    record that its extractor returned, or what was there before. *)
Lemma after_main_sprints_yml w :
  files (after_main w) !! ".autoflow/SPRINTS.yml"
  = match (extracted w).1.1 with
    | Ok data =>
        if decide (".autoflow/SPRINTS.yml" ∈ readonly w)
        then files w !! ".autoflow/SPRINTS.yml"
        else Some (yaml_dump (ToPy.sprints_data data))
    | Raise _ => files w !! ".autoflow/SPRINTS.yml"
    end.
Proof.
  rewrite after_main_files, before_completed_files by (by left).
  unfold before_task, extracted. cbn [files printing fst].
  unfold migrate_sprints.
  destruct (pipeline_files SprintsMd.parse_sprints_md ToPy.sprints_data
              ".autoflow/SPRINTS.yml" (before_sprints w) (parse_sprints_md_files _))
    as [_ Hrun].
  destruct ((SprintsMd.parse_sprints_md (before_sprints w)).1) as [data|e];
    [|by destruct Hrun as [_ ->]].
  change (readonly (before_sprints w)) with (readonly w) in Hrun.
  destruct (decide (".autoflow/SPRINTS.yml" ∈ readonly w)); destruct Hrun as [_ ->];
    [done|apply lookup_insert_eq].
Qed.

Lemma after_main_task_yml w :
  files (after_main w) !! ".autoflow/TASK.yml"
  = match (extracted w).1.2 with
    | Ok data =>
        if decide (".autoflow/TASK.yml" ∈ readonly w)
        then files w !! ".autoflow/TASK.yml"
        else Some (yaml_dump (ToPy.task_data data))
    | Raise _ => files w !! ".autoflow/TASK.yml"
    end.
Proof.
  rewrite after_main_files by (by left).
  unfold before_completed, extracted. cbn [files printing fst snd].
  unfold migrate_task.
  destruct (pipeline_files TaskMd.parse_task_md ToPy.task_data
              ".autoflow/TASK.yml" (before_task w) (parse_task_md_files _))
    as [_ Hrun].
  rewrite before_task_readonly in Hrun.
  destruct ((TaskMd.parse_task_md (before_task w)).1) as [data|e].
  - destruct (decide (".autoflow/TASK.yml" ∈ readonly w)); destruct Hrun as [_ ->].
    + by apply before_task_files; right.
    + apply lookup_insert_eq.
  - destruct Hrun as [_ ->]. by apply before_task_files; left.
Qed.

Lemma after_main_completed_yml w :
  files (after_main w) !! ".autoflow/COMPLETED_TASKS.yml"
  = match (extracted w).2 with
    | Ok data =>
        if decide (".autoflow/COMPLETED_TASKS.yml" ∈ readonly w)
        then files w !! ".autoflow/COMPLETED_TASKS.yml"
        else Some (yaml_dump (ToPy.completed_data data))
    | Raise _ => files w !! ".autoflow/COMPLETED_TASKS.yml"
    end.
Proof.
  unfold after_main, extracted. cbn [files printing fst snd].
  unfold migrate_completed.
  destruct (pipeline_files CompletedTasksMd.parse_completed_tasks_md ToPy.completed_data
              ".autoflow/COMPLETED_TASKS.yml" (before_completed w)
              (parse_completed_tasks_md_files _))
    as [_ Hrun].
  rewrite before_completed_readonly in Hrun.
  assert (files (before_completed w) !! ".autoflow/COMPLETED_TASKS.yml"
          = files w !! ".autoflow/COMPLETED_TASKS.yml") as Hsame.
  { rewrite before_completed_files, before_task_files by (by left). done. }
  destruct ((CompletedTasksMd.parse_completed_tasks_md (before_completed w)).1)
    as [data|e].
  - destruct (decide (".autoflow/COMPLETED_TASKS.yml" ∈ readonly w));
      destruct Hrun as [_ ->]; [done|apply lookup_insert_eq].
  - by destruct Hrun as [_ ->].
Qed.

(** A path that [main] does not write, or cannot. *)
Lemma after_main_other w path :
  path ∉ outputs ∨ path ∈ readonly w →
  files (after_main w) !! path = files w !! path.
Proof.
  intros Hpath.
  assert (∀ out, out ∈ outputs → path ≠ out ∨ path ∈ readonly w) as Hne.
  { intros out Hout. destruct Hpath as [Hpath|Hpath]; [left|by right].
    by intros ->. }
  rewrite after_main_files, before_completed_files, before_task_files;
    [done|apply Hne; repeat constructor..].
Qed.

(** The documents as the three pipelines find them. *)
Lemma before_task_document w path :
  path ∈ documents → files (before_task w) !! path = files w !! path.
Proof.
  intros Hpath. apply before_task_files. left. intros ->.
  by apply (yml_not_document ".autoflow/SPRINTS.yml"); [repeat constructor|].
Qed.

Lemma before_completed_document w path :
  path ∈ documents → files (before_completed w) !! path = files w !! path.
Proof.
  intros Hpath. rewrite before_completed_files; [by apply before_task_document|].
  left. intros ->.
  by apply (yml_not_document ".autoflow/TASK.yml"); [repeat constructor|].
Qed.

Lemma read_missing {A} (path : string) (k : str → M A) w :
  files w !! path = None →
  (text ← read_text path; k text) w = (Raise (FileNotFoundError path), w).
Proof. intros Hf. unfold mbind, M_bind, read_text. by rewrite Hf. Qed.

(** What [main] has printed when it returns. *)
Lemma after_main_stdout w :
  stdout (after_main w)
  = stdout w ++
    [Text (py "üîÑ Migrating auto-flow files from Markdown to YAML...\n");
     Text (py "1. Migrating SPRINTS.md to SPRINTS.yml...");
     outcome migrate_sprints (py "   ‚úÖ SPRINTS.yml created successfully\n") (before_sprints w);
     Text (py "2. Migrating TASK.md to TASK.yml...");
     outcome migrate_task (py "   ‚úÖ TASK.yml created successfully\n") (before_task w);
     Text (py "3. Migrating COMPLETED_TASKS.md to COMPLETED_TASKS.yml...");
     outcome migrate_completed (py "   ‚úÖ COMPLETED_TASKS.yml created successfully\n") (before_completed w);
     Text (py "‚ú® Migration complete!");
     Text (py "\nNext steps:");
     Text (py "  1. Review the generated YAML files");
     Text (py "  2. Backup the Markdown files");
     Text (py "  3. Test with auto-flow commands")].
Proof.
  unfold after_main. cbn [stdout printing].
  destruct (migrate_completed_frame (before_completed w)) as (_ & _ & _ & ->).
  unfold before_completed at 1. cbn [stdout printing].
  destruct (migrate_task_frame (before_task w)) as (_ & _ & _ & ->).
  unfold before_task at 1. cbn [stdout printing].
  destruct (migrate_sprints_frame (before_sprints w)) as (_ & _ & _ & ->).
  unfold before_sprints at 1. cbn [stdout printing].
  repeat rewrite <-(assoc_L (++)). cbn [app]. reflexivity.
Qed.

(** The line that a pipeline prints when its extractor raised. *)
Lemma outcome_raised {A} (parse : M A) (to_py : A → pyval) out success w e :
  (parse w).1 = Raise e →
  outcome (data ← parse; dump_to out (to_py data)) success w = ErrorText e.
Proof.
  intros He. unfold outcome, mbind, M_bind.
  by destruct (parse w) as [[data|e'] w1]; simpl in He; simplify_eq.
Qed.

End RunFacts.

(** * The properties of the specification *)

Section SprintClaims.
Context `{UnicodeData}.
Import SprintsMd.



End SprintClaims.

Section TaskClaims.
Context `{UnicodeData}.





End TaskClaims.

Section OrchestratorClaims.
Context `{UnicodeData} `{PyYAML}.
Import Orchestrator.

(** C9. [main] never raises: it returns in the world [after_main w]. In
    that run each of the three pipelines is attempted, the second in the
    world that the first left and the third in the world that the second
    left, whether or not the ones before raised. What a pipeline's
    attempt (parse, then write) raises is caught by its [try] block and
    printed as an error line in place of the success line; the lines of
    the completion banner are printed last in every case. *)
Theorem main_attempts_every_pipeline (w : World) :
  main w = (Ok (), after_main w) ∧
  stdout (after_main w)
  = stdout w ++
    [Text (py "üîÑ Migrating auto-flow files from Markdown to YAML...\n");
     Text (py "1. Migrating SPRINTS.md to SPRINTS.yml...");
     outcome migrate_sprints (py "   ‚úÖ SPRINTS.yml created successfully\n") (before_sprints w);
     Text (py "2. Migrating TASK.md to TASK.yml...");
     outcome migrate_task (py "   ‚úÖ TASK.yml created successfully\n") (before_task w);
     Text (py "3. Migrating COMPLETED_TASKS.md to COMPLETED_TASKS.yml...");
     outcome migrate_completed (py "   ‚úÖ COMPLETED_TASKS.yml created successfully\n") (before_completed w);
     Text (py "‚ú® Migration complete!");
     Text (py "\nNext steps:");
     Text (py "  1. Review the generated YAML files");
     Text (py "  2. Backup the Markdown files");
     Text (py "  3. Test with auto-flow commands")] ∧
  (∀ (attempt : M unit) success w0,
     (∃ w1, attempt w0 = (Ok (), w1) ∧ outcome attempt success w0 = Text success) ∨
     (∃ e w1, attempt w0 = (Raise e, w1) ∧ outcome attempt success w0 = ErrorText e)).
Proof.
  split; [apply main_run|]. split.
  - unfold after_main. cbn [stdout printing].
    destruct (migrate_completed_frame (before_completed w)) as (_ & _ & _ & ->).
    unfold before_completed at 1. cbn [stdout printing].
    destruct (migrate_task_frame (before_task w)) as (_ & _ & _ & ->).
    unfold before_task at 1. cbn [stdout printing].
    destruct (migrate_sprints_frame (before_sprints w)) as (_ & _ & _ & ->).
    unfold before_sprints at 1. cbn [stdout printing].
    repeat rewrite <-(assoc_L (++)). reflexivity.
  - intros attempt success w0. unfold outcome.
    destruct (attempt w0) as [[[]|e] w1]; [left; by eexists|right; by eexists _, _].
Qed.

(** C8. Two runs of [main] in worlds that hold the same three documents
    get equal records from the three extractors up to the time stamps,
    and equal records when the clocks agree as well. A run leaves the
    three documents as they were, so this covers a second run after a
    first one. *)
Theorem two_runs_return_equal_records (wa wb : World) :
  same_documents wa wb →
  untimed (extracted wa) = untimed (extracted wb) ∧
  (same_clock wa wb → extracted wa = extracted wb) ∧
  same_documents wa (after_main wa).
Proof.
  intros Hsame.
  destruct (frames_agree ".autoflow/SPRINTS.md"
              (before_sprints wa) (before_sprints wb) _ _
              [outcome migrate_sprints (py "   ‚úÖ SPRINTS.yml created successfully\n") (before_sprints wa); Text (py "2. Migrating TASK.md to TASK.yml...")]
              [outcome migrate_sprints (py "   ‚úÖ SPRINTS.yml created successfully\n") (before_sprints wb); Text (py "2. Migrating TASK.md to TASK.yml...")]
              ltac:(repeat constructor)
              (migrate_sprints_frame _) (migrate_sprints_frame _) Hsame)
    as [Hdocs2 Hclock2].
  fold (before_task wa) (before_task wb) in Hdocs2, Hclock2.
  destruct (frames_agree ".autoflow/TASK.md"
              (before_task wa) (before_task wb) _ _
              [outcome migrate_task (py "   ‚úÖ TASK.yml created successfully\n") (before_task wa); Text (py "3. Migrating COMPLETED_TASKS.md to COMPLETED_TASKS.yml...")]
              [outcome migrate_task (py "   ‚úÖ TASK.yml created successfully\n") (before_task wb); Text (py "3. Migrating COMPLETED_TASKS.md to COMPLETED_TASKS.yml...")]
              ltac:(repeat constructor)
              (migrate_task_frame _) (migrate_task_frame _) Hdocs2)
    as [Hdocs3 Hclock3].
  fold (before_completed wa) (before_completed wb) in Hdocs3, Hclock3.
  destruct (parse_sprints_md_rel (before_sprints wa) (before_sprints wb))
    as [Hu1 He1]; [apply Hsame; repeat constructor|].
  destruct (parse_task_md_rel (before_task wa) (before_task wb))
    as [Hu2 He2]; [apply Hdocs2; repeat constructor|].
  destruct (parse_completed_tasks_md_rel (before_completed wa) (before_completed wb))
    as [Hu3 He3]; [apply Hdocs3; repeat constructor|].
  split; [|split].
  - unfold untimed, extracted. cbn [fst snd]. by rewrite Hu1, Hu2, Hu3.
  - intros Hclock. unfold extracted.
    assert (Hnow : ∀ va vb, same_clock va vb → clock va (ticks va) = clock vb (ticks vb)).
    { intros va vb [-> ->]. done. }
    assert (Hc1 : same_clock (before_sprints wa) (before_sprints wb)) by exact Hclock.
    pose proof (Hclock2 Hc1) as Hc2. pose proof (Hclock3 Hc2) as Hc3.
    rewrite (He1 (Hnow _ _ Hc1)), (He2 (Hnow _ _ Hc2)), (He3 (Hnow _ _ Hc3)).
    reflexivity.
  - intros path Hpath. unfold after_main. cbn [files printing].
    rewrite (proj1 (migrate_completed_frame (before_completed wa)) path Hpath).
    unfold before_completed. cbn [files printing].
    rewrite (proj1 (migrate_task_frame (before_task wa)) path Hpath).
    unfold before_task. cbn [files printing].
    rewrite (proj1 (migrate_sprints_frame (before_sprints wa)) path Hpath).
    reflexivity.
Qed.

End OrchestratorClaims.

(** * Further properties of the script *)

Section SprintProperties.
Context `{UnicodeData}.
Import SprintsMd.



(** X3. The task summaries of a sprint carry the status and the title of
    their tagged lines: the status is the word between the brackets, the
    title is the rest of the line after the dash, without the white
    space at its ends. Every tagged line of the span starts inside a
    match of the task pattern, so none is left aside. *)
Theorem sprint_tasks_carry_status_and_title (w w' : World) (sprints_md : str)
    (data : SprintsData.t) :
  files w !! ".autoflow/SPRINTS.md" = Some sprints_md →
  SprintsMd.parse_sprints_md w = (Ok data, w') →
  Forall2
    (λ m s,
       let span := SprintsMd.sprint_content sprints_md m in
       let lines := re_finditer SprintsMd.sprint_task_pattern span [] in
       Forall2
         (λ tm t,
            task_line (slice (m_start tm) (m_end tm) span)
              (group tm 1) (group tm 2) (group tm 3) ∧
            SprintTask.status t = group tm 2 ∧
            SprintTask.title t = strip (group tm 3))
         lines (Sprint.tasks s) ∧
       (∀ pre line rest id st title,
          span = pre ++ line ++ rest → task_line line id st title →
          ∃ tm, tm ∈ lines ∧ m_start tm ≤ length pre < m_end tm))
    (re_finditer SprintsMd.sprint_pattern sprints_md []) (SprintsData.sprints data).
Proof.
  intros Hfile Hrun.
  destruct (parse_sprints_md_project _ _ _ _ Hfile Hrun) as (_ & _ & Hss & _).
  apply for_each_inv in Hss.
  apply Forall2_same_length_lookup. split; [by eapply Forall2_length|].
  intros i m s Hm Hs.
  pose proof (Forall2_lookup_lr _ _ _ _ _ _ Hss Hm Hs) as Hdata.
  apply list_elem_of_lookup_2, re_finditer_sound in Hm.
  apply sprint_data_found in Hm as (n & c & t & _ & _ & _ & Heq).
  simpl in Hdata. rewrite Heq in Hdata. simplify_eq. cbn [Sprint.tasks].
  unfold SprintsMd.sprint_tasks. split.
  - apply Forall2_fmap_r, Forall_Forall2_diag, Forall_forall.
    intros tm Htm%re_finditer_sound. cbn beta delta [compose].
    split; [by apply sprint_task_line_found|]. done.
  - intros pre line rest id st title Hspan Hline.
    destruct (task_line_matches _ _ _ _ rest Hline) as [g Hm].
    destruct (re_finditer_covers [] _ _ _ _ _ _ Hspan Hm) as (tm & Hin & Hle & Hcov).
    exists tm. split; [done|]. split; [done|].
    destruct Hcov as [?|Hstart]; [done|].
    apply re_finditer_sound in Hin as (pre1 & w1 & rest1 & g1 & _ & Hm1 & Hst & Hen & _).
    apply sprint_task_line_shape in Hm1 as (?&?&? & (?&?&?&?& _ & -> & _) & _).
    rewrite Hen, Hstart, Hst, length_app. simpl. lia.
Qed.

(** X4. The current sprint is the identifier of the first Sprint record,
    in document order, whose status is [ACTIVE]; it is 1 when no record
    has that status, whether or not a sprint 1 exists. *)
Theorem current_sprint_is_first_active (w w' : World) (sprints_md : str)
    (data : SprintsData.t) :
  files w !! ".autoflow/SPRINTS.md" = Some sprints_md →
  parse_sprints_md w = (Ok data, w') →
  let current := Project.current_sprint (SprintsData.project data) in
  (∀ before s after,
     SprintsData.sprints data = before ++ s :: after →
     Forall (λ s', Sprint.status s' ≠ u "ACTIVE") before →
     Sprint.status s = u "ACTIVE" →
     current = Sprint.id s) ∧
  (Forall (λ s, Sprint.status s ≠ u "ACTIVE") (SprintsData.sprints data) →
   current = 1%Z).
Proof.
  intros Hfile Hrun current.
  destruct (parse_sprints_md_project _ _ _ _ Hfile Hrun) as (_ & _ & _ & Hcur).
  subst current. rewrite Hcur. unfold current_sprint_of. split.
  - intros before s after -> Hbefore Hs.
    rewrite filter_app, filter_cons_True by done.
    by rewrite (filter_none _ before).
  - intros Hnone. by rewrite filter_none.
Qed.

End SprintProperties.

Section SpanProperties.
Context `{UnicodeData}.

(** X5. The span of a sprint, and of a task in either task document, begins
    with the header that was recognised and ends where the next heading
    starts ([## Sprint <digits>:], or [### Task <digits>.<digits>:]),
    whether or not that heading begins a header that is recognised; it
    runs to the end of the document when no heading follows. What stands
    under a heading whose header is not recognised is in no span. *)
Theorem spans_end_at_the_next_heading (doc : str) :
  Forall (λ m, span_to_next sprint_heading doc (m_start m) (m_end m - m_start m)
                 (SprintsMd.sprint_content doc m))
    (re_finditer SprintsMd.sprint_pattern doc []) ∧
  Forall (λ m, span_to_next task_heading doc (m_start m) (m_end m - m_start m)
                 (TaskMd.task_section doc m))
    (re_finditer TaskMd.task_pattern doc [MULTILINE]) ∧
  Forall (λ m, span_to_next task_heading doc (m_start m) (m_end m - m_start m)
                 (CompletedTasksMd.task_section doc m))
    (re_finditer CompletedTasksMd.task_pattern doc [MULTILINE]).
Proof.
  split_and!; apply Forall_forall; intros m Hm%re_finditer_sound.
  - eapply span_of_match; [apply next_sprint_pattern_heading| |exact Hm].
    apply sprint_heading_matches.
  - eapply span_of_match; [apply next_task_pattern_heading| |exact Hm].
    apply task_heading_matches.
  - eapply (span_of_match _ _ CompletedTasksMd.next_task_pattern);
      [apply next_task_pattern_heading| |exact Hm].
    apply task_heading_matches.
Qed.

End SpanProperties.

Section TaskProperties.
Context `{UnicodeData}.
Import TaskMd.


(** X7. The Task records of the active-task document follow, one for one
    and in order, the matches of the task header pattern. Each match is
    a genuine header (the heading with the task number, the title, then
    the ID, Priority, Status and Estimated Effort lines in that order),
    and the fields are its groups: the identifier [task-<digits>], the
    priority and the status as they are, the title and the estimate
    without the white space at their ends. The task number of the
    heading goes into no field. No header is left aside: every text of
    the shape of a header starts inside a match. *)
Theorem task_records_follow_headers (w w' : World) (task_md : str)
    (data : TaskData.t) :
  files w !! ".autoflow/TASK.md" = Some task_md →
  TaskMd.parse_task_md w = (Ok data, w') →
  Forall2
    (λ m t,
       task_header (slice (m_start m) (m_end m) task_md)
         (group m 1) (group m 2) (group m 3) (group m 4) (group m 5) (group m 6) ∧
       Task.id t = group m 3 ∧
       Task.title t = strip (group m 2) ∧
       Task.priority t = group m 4 ∧
       Task.status t = group m 5 ∧
       Task.estimated t = strip (group m 6))
    (re_finditer TaskMd.task_pattern task_md [MULTILINE]) (TaskData.tasks data) ∧
  (∀ pre header rest name title id prio st est,
     task_md = pre ++ header ++ rest →
     task_header header name title id prio st est →
     ∃ m, m ∈ re_finditer TaskMd.task_pattern task_md [MULTILINE] ∧
          m_start m ≤ length pre < m_end m).
Proof.
  intros Hfile Hrun.
  destruct (parse_task_md_fields _ _ _ _ Hfile Hrun) as (_&_&_&_&_&_& ->). split.
  - apply Forall2_fmap_r, Forall_Forall2_diag, Forall_forall.
    intros m Hm%re_finditer_sound. cbn beta zeta delta [compose].
    pose proof (task_found _ _ Hm) as Hh. split; [done|].
    destruct Hh as (?&?&?&?&?&?&?&?&_&_&_&_&_&_&_&_&_&_&_&_&Hprio&Hst&_).
    unfold TaskMd.task_data.
    cbn [Task.id Task.title Task.priority Task.status Task.estimated].
    by rewrite (strip_word _ Hprio), (strip_word _ Hst).
  - intros pre header rest name title id prio st est Hdoc Hh.
    destruct (task_header_matches _ _ _ _ _ _ _ rest Hh) as [g Hm].
    destruct (re_finditer_covers [MULTILINE] _ _ _ _ _ _ Hdoc Hm)
      as (m & Hin & Hle & Hcov).
    exists m. split; [done|]. split; [done|].
    destruct Hcov as [?|Hstart]; [done|].
    apply re_finditer_sound in Hin as (pre1 & w1 & rest1 & g1 & _ & Hm1 & Hst & Hen & _).
    apply task_pattern_shape in Hm1
      as (?&?&?&?&?&? & (?&?&?&?&?&?&?&?& _ & _ & -> & _) & _).
    rewrite Hen, Hstart, Hst, length_app. simpl. lia.
Qed.

(** X8. The text of an acceptance criterion is what follows the marker of
    its checklist line, without the white space at its ends: a line of
    a recognised block is never taken whole. A task whose span has no
    checklist block has no criteria. *)
Theorem criterion_is_the_text_after_the_marker (w w' : World) (task_md : str)
    (data : TaskData.t) :
  files w !! ".autoflow/TASK.md" = Some task_md →
  parse_task_md w = (Ok data, w') →
  Forall2
    (λ m t,
       match re_search criteria_pattern (task_section task_md m) [] with
       | Some block =>
           ∃ lines,
             group block 1 = concat ((λ l, l ++ [NL]) <$> lines) ∧
             Forall2
               (λ line cr,
                  ∃ c text, checklist_line line c text ∧
                            Criterion.criterion cr = strip text)
               lines (Task.acceptance_criteria t)
       | None => Task.acceptance_criteria t = []
       end)
    (re_finditer task_pattern task_md [MULTILINE]) (TaskData.tasks data).
Proof.
  intros Hfile Hrun.
  destruct (parse_task_md_fields _ _ _ _ Hfile Hrun) as (_&_&_&_&_&_& ->).
  apply Forall2_fmap_r, Forall_Forall2_diag, Forall_forall.
  intros m _. cbn beta zeta delta [compose].
  change (Task.acceptance_criteria (task_data task_md m))
    with (task_criteria (task_section task_md m)).
  destruct (re_search criteria_pattern (task_section task_md m) [])
    as [block|] eqn:Hblock.
  - destruct (criteria_pattern_lines _ _ Hblock) as (lines & Hgroup & _ & Hlines).
    exists lines. split; [done|].
    rewrite (task_criteria_lines _ _ _ Hblock Hgroup Hlines).
    apply Forall2_fmap_r, Forall_Forall2_diag.
    eapply Forall_impl; [done|]. intros line (c & text & Hline).
    exists c, text. split; [done|]. by eapply criterion_text.
  - unfold task_criteria. by rewrite Hblock.
Qed.


(** X10. The documentation of a task follows the link items of its span:
    one entry per match of the link pattern, in order, with the title
    and the path of that item; every link item of the span starts inside
    a match. A task without link items has the empty list. *)
Theorem documentation_follows_links (w w' : World) (task_md : str)
    (data : TaskData.t) :
  files w !! ".autoflow/TASK.md" = Some task_md →
  parse_task_md w = (Ok data, w') →
  Forall2
    (λ m t,
       let links := re_finditer docs_pattern (task_section task_md m) [] in
       Forall2
         (λ lm d,
            link_item (slice (m_start lm) (m_end lm) (task_section task_md m))
              (DocLink.title d) (DocLink.path d))
         links (Task.documentation t) ∧
       (∀ pre item rest title path,
          task_section task_md m = pre ++ item ++ rest →
          link_item item title path →
          ∃ lm, lm ∈ links ∧ m_start lm ≤ length pre < m_end lm))
    (re_finditer task_pattern task_md [MULTILINE]) (TaskData.tasks data).
Proof.
  intros Hfile Hrun.
  destruct (parse_task_md_fields _ _ _ _ Hfile Hrun) as (_&_&_&_&_&_& ->).
  apply Forall2_fmap_r, Forall_Forall2_diag, Forall_forall.
  intros m _. cbn beta zeta delta [compose].
  change (Task.documentation (task_data task_md m))
    with (task_docs (task_section task_md m)).
  unfold task_docs. split.
  - apply Forall2_fmap_r, Forall_Forall2_diag, Forall_forall.
    intros lm Hlm%re_finditer_sound. cbn [DocLink.title DocLink.path].
    by apply docs_found.
  - intros pre item rest title path Hsec Hitem.
    destruct (link_item_matches _ _ _ rest Hitem) as [g Hm].
    destruct (re_finditer_covers [] _ _ _ _ _ _ Hsec Hm) as (lm & Hin & Hle & Hcov).
    exists lm. split; [done|]. split; [done|].
    destruct Hcov as [?|Hstart]; [done|].
    apply re_finditer_sound in Hin as (pre1 & w1 & rest1 & g1 & _ & Hm1 & Hst & Hen & _).
    apply docs_pattern_shape in Hm1 as (t1 & p1 & (-> & _) & _).
    rewrite Hen, Hstart, Hst, length_app. simpl. lia.
Qed.

End TaskProperties.

Section CompletedProperties.
Context `{UnicodeData}.
Import CompletedTasksMd.

(** X11. The records of the completed-task log follow, one for one and in
    order, the matches of its task header pattern; the extractor returns
    for every document and raises nothing. Each match is a genuine
    header (the heading, the title, then the ID, Status, Completed,
    Estimated, Actual and Sprint lines in that order), and the fields
    are its groups: the identifier and the status as they are, the
    others without the white space at their ends. The project name is
    the one the script carries, whatever the document says. No header is
    left aside. *)
Theorem completed_records_follow_headers (w : World) (completed_md : str) :
  files w !! ".autoflow/COMPLETED_TASKS.md" = Some completed_md →
  ∃ data w',
    CompletedTasksMd.parse_completed_tasks_md w = (Ok data, w') ∧
    CompletedProject.name (CompletedData.project data)
      = u "CraftyPrep - Laser Engraving Image Prep Tool" ∧
    Forall2
      (λ m t,
         completed_header (slice (m_start m) (m_end m) completed_md)
           (group m 1) (group m 2) (group m 3) (group m 4) (group m 5) (group m 6)
           (group m 7) ∧
         CompletedTask.title t = strip (group m 1) ∧
         CompletedTask.id t = group m 2 ∧
         CompletedTask.status t = group m 3 ∧
         CompletedTask.completed t = strip (group m 4) ∧
         CompletedTask.estimated t = strip (group m 5) ∧
         CompletedTask.actual t = strip (group m 6) ∧
         CompletedTask.sprint t = strip (group m 7))
      (re_finditer CompletedTasksMd.task_pattern completed_md [MULTILINE])
      (CompletedData.tasks data) ∧
    (∀ pre header rest title id st date est act sprint,
       completed_md = pre ++ header ++ rest →
       completed_header header title id st date est act sprint →
       ∃ m, m ∈ re_finditer CompletedTasksMd.task_pattern completed_md [MULTILINE] ∧
            m_start m ≤ length pre < m_end m).
Proof.
  intros Hfile.
  assert (∃ data,
    CompletedTasksMd.parse_completed_tasks_md w
      = (Ok data, {| files := files w; readonly := readonly w; clock := clock w;
                     ticks := S (ticks w); stdout := stdout w |}) ∧
    CompletedData.tasks data
      = CompletedTasksMd.task_data completed_md
          <$> re_finditer CompletedTasksMd.task_pattern completed_md [MULTILINE] ∧
    CompletedProject.name (CompletedData.project data)
      = u "CraftyPrep - Laser Engraving Image Prep Tool") as (data & Hrun & Htasks & Hname).
  { unfold CompletedTasksMd.parse_completed_tasks_md, read_text, datetime_now.
    unfold mbind, M_bind, mret, M_ret. rewrite Hfile. by eexists. }
  exists data; eexists. split; [done|]. split; [done|]. rewrite Htasks. split.
  - apply Forall2_fmap_r, Forall_Forall2_diag, Forall_forall.
    intros m Hm%re_finditer_sound. cbn beta zeta delta [compose].
    pose proof (completed_found _ _ Hm) as Hh. split; [done|].
    destruct Hh as (?&?&?&?&?&?&?&?&?&?&_&_&_&_&_&_&_&_&_&_&_&_&_&Hst&_).
    unfold CompletedTasksMd.task_data.
    cbn [CompletedTask.title CompletedTask.id CompletedTask.status
         CompletedTask.completed CompletedTask.estimated CompletedTask.actual
         CompletedTask.sprint].
    by rewrite (strip_word _ Hst).
  - intros pre header rest title id st date est act sprint Hdoc Hh.
    destruct (completed_header_matches _ _ _ _ _ _ _ _ rest Hh) as [g Hm].
    destruct (re_finditer_covers [MULTILINE] _ _ _ _ _ _ Hdoc Hm)
      as (m & Hin & Hle & Hcov).
    exists m. split; [done|]. split; [done|].
    destruct Hcov as [?|Hstart]; [done|].
    apply re_finditer_sound in Hin as (pre1 & w1 & rest1 & g1 & _ & Hm1 & Hst & Hen & _).
    apply completed_pattern_shape in Hm1
      as (?&?&?&?&?&?&? & (?&?&?&?&?&?&?&?&?&?& _ & -> & _) & _).
    rewrite Hen, Hstart, Hst, length_app. simpl. lia.
Qed.

(** X12. The deliverables of a completed task are the lines of the marked
    block that follows [**Key Deliverables**:] in its span, one entry
    per line and in order, and the empty list when the span has no such
    block. An entry is its line without the first four characters and
    without the white space at its ends; the marker of the pattern being
    three characters long, its last character heads every entry, which
    is never the text of the line alone. *)
Theorem marked_deliverables_drop_four_characters (w : World) (completed_md : str) :
  files w !! ".autoflow/COMPLETED_TASKS.md" = Some completed_md →
  ∃ data w',
    CompletedTasksMd.parse_completed_tasks_md w = (Ok data, w') ∧
    Forall2
      (λ m t,
         match re_search CompletedTasksMd.deliv_pattern
                 (CompletedTasksMd.task_section completed_md m) [] with
         | Some block =>
             ∃ lines,
               group block 1 = concat ((λ l, l ++ [NL]) <$> lines) ∧
               Forall2
                 (λ line entry,
                    ∃ text,
                      marked_line line text ∧
                      entry = strip (drop 4 line) ∧
                      entry = strip (u "Ö " ++ text) ∧
                      entry ≠ strip text)
                 lines (CompletedTask.deliverables t)
         | None => CompletedTask.deliverables t = []
         end)
      (re_finditer CompletedTasksMd.task_pattern completed_md [MULTILINE])
      (CompletedData.tasks data).
Proof.
  intros Hfile.
  destruct (parse_completed_tasks_md_run w completed_md Hfile)
    as (data & Hrun & Htasks & _).
  exists data; eexists. split; [done|]. rewrite Htasks.
  apply Forall2_fmap_r, Forall_Forall2_diag, Forall_forall.
  intros m _. cbn beta zeta delta [compose].
  change (CompletedTask.deliverables (CompletedTasksMd.task_data completed_md m))
    with (CompletedTasksMd.task_deliverables
            (CompletedTasksMd.task_section completed_md m)).
  destruct (re_search CompletedTasksMd.deliv_pattern
              (CompletedTasksMd.task_section completed_md m) []) as [block|] eqn:Hblock.
  - destruct (deliv_pattern_lines _ _ Hblock) as (lines & Hgroup & _ & Hlines).
    exists lines. split; [done|].
    rewrite (task_deliverables_lines _ _ _ Hblock Hgroup Hlines).
    apply Forall2_fmap_r, Forall_Forall2_diag.
    eapply Forall_impl; [done|]. intros line (text & Hline).
    exists text. split; [done|].
    destruct (marked_entry _ _ Hline) as [_ Hentry].
    cbn beta delta [compose]. rewrite Hentry.
    split_and!; [|done|apply marked_entry_not_text].
    destruct Hline as [-> _]. done.
  - unfold CompletedTasksMd.task_deliverables. by rewrite Hblock.
Qed.



End CompletedProperties.

Section DescriptionProperties.
Context `{UnicodeData}.

(** X15. The description of a task, in the active-task document and in the
    completed-task log alike, is the text between the first description
    label of its span and the first description boundary that starts
    after the first character of the text, without the white space at
    its ends; the text may run over several lines and hold blank lines. *)
Theorem description_runs_to_the_first_boundary (w : World) :
  (∀ task_md data w',
     files w !! ".autoflow/TASK.md" = Some task_md →
     TaskMd.parse_task_md w = (Ok data, w') →
     Forall2
       (λ m t, ∀ text, first_description (TaskMd.task_section task_md m) text →
                       Task.description t = strip text)
       (re_finditer TaskMd.task_pattern task_md [MULTILINE]) (TaskData.tasks data)) ∧
  (∀ completed_md,
     files w !! ".autoflow/COMPLETED_TASKS.md" = Some completed_md →
     ∃ data w',
       CompletedTasksMd.parse_completed_tasks_md w = (Ok data, w') ∧
       Forall2
         (λ m t,
            ∀ text,
              first_description (CompletedTasksMd.task_section completed_md m) text →
              CompletedTask.description t = strip text)
         (re_finditer CompletedTasksMd.task_pattern completed_md [MULTILINE])
         (CompletedData.tasks data)).
Proof.
  split.
  - intros task_md data w' Hfile Hrun.
    destruct (parse_task_md_fields _ _ _ _ Hfile Hrun) as (_&_&_&_&_&_& ->).
    apply Forall2_fmap_r, Forall_Forall2_diag, Forall_forall.
    intros m _ text Htext. cbn beta delta [compose].
    change (Task.description (TaskMd.task_data task_md m))
      with (TaskMd.task_description (TaskMd.task_section task_md m)).
    unfold TaskMd.task_description.
    destruct (description_search _ _ Htext) as (lm & -> & ->). done.
  - intros completed_md Hfile.
    destruct (parse_completed_tasks_md_run w completed_md Hfile)
      as (data & Hrun & Htasks & _).
    exists data; eexists. split; [done|]. rewrite Htasks.
    apply Forall2_fmap_r, Forall_Forall2_diag, Forall_forall.
    intros m _ text Htext. cbn beta delta [compose].
    change (CompletedTask.description (CompletedTasksMd.task_data completed_md m))
      with (CompletedTasksMd.task_description
              (CompletedTasksMd.task_section completed_md m)).
    unfold CompletedTasksMd.task_description.
    change CompletedTasksMd.desc_pattern with TaskMd.desc_pattern.
    destruct (description_search _ _ Htext) as (lm & -> & ->). done.
Qed.

End DescriptionProperties.

Section RunProperties.
Context `{UnicodeData} `{PyYAML}.
Import Orchestrator.

(** X16. When [main] returns, the output of every pipeline whose extractor
    returned a record holds the dump of that record, provided the output
    can be written: what was in the output before is replaced. *)
Theorem outputs_hold_the_dumps (w : World) :
  (∀ data, (extracted w).1.1 = Ok data →
     ".autoflow/SPRINTS.yml" ∉ readonly w →
     files (main w).2 !! ".autoflow/SPRINTS.yml"
       = Some (yaml_dump (ToPy.sprints_data data))) ∧
  (∀ data, (extracted w).1.2 = Ok data →
     ".autoflow/TASK.yml" ∉ readonly w →
     files (main w).2 !! ".autoflow/TASK.yml"
       = Some (yaml_dump (ToPy.task_data data))) ∧
  (∀ data, (extracted w).2 = Ok data →
     ".autoflow/COMPLETED_TASKS.yml" ∉ readonly w →
     files (main w).2 !! ".autoflow/COMPLETED_TASKS.yml"
       = Some (yaml_dump (ToPy.completed_data data))).
Proof.
  rewrite main_run. cbn [snd]. split_and!; intros data Hdata Hout.
  - rewrite after_main_sprints_yml, Hdata. by rewrite decide_False.
  - rewrite after_main_task_yml, Hdata. by rewrite decide_False.
  - rewrite after_main_completed_yml, Hdata. by rewrite decide_False.
Qed.

(** X17. A document that is missing when [main] starts is missing when its
    pipeline runs: the extractor raises [FileNotFoundError] for it, the
    error is printed, and the output of the pipeline is left as it was
    (it is not created, and an older one is not removed). *)
Theorem missing_document_is_reported (w : World) :
  (files w !! ".autoflow/SPRINTS.md" = None →
   (extracted w).1.1 = Raise (FileNotFoundError ".autoflow/SPRINTS.md") ∧
   ErrorText (FileNotFoundError ".autoflow/SPRINTS.md") ∈ stdout (main w).2 ∧
   files (main w).2 !! ".autoflow/SPRINTS.yml" = files w !! ".autoflow/SPRINTS.yml") ∧
  (files w !! ".autoflow/TASK.md" = None →
   (extracted w).1.2 = Raise (FileNotFoundError ".autoflow/TASK.md") ∧
   ErrorText (FileNotFoundError ".autoflow/TASK.md") ∈ stdout (main w).2 ∧
   files (main w).2 !! ".autoflow/TASK.yml" = files w !! ".autoflow/TASK.yml") ∧
  (files w !! ".autoflow/COMPLETED_TASKS.md" = None →
   (extracted w).2 = Raise (FileNotFoundError ".autoflow/COMPLETED_TASKS.md") ∧
   ErrorText (FileNotFoundError ".autoflow/COMPLETED_TASKS.md") ∈ stdout (main w).2 ∧
   files (main w).2 !! ".autoflow/COMPLETED_TASKS.yml"
     = files w !! ".autoflow/COMPLETED_TASKS.yml").
Proof.
  rewrite main_run. cbn [snd]. rewrite after_main_stdout. split_and!; intros Hfile.
  - assert ((extracted w).1.1 = Raise (FileNotFoundError ".autoflow/SPRINTS.md")) as He.
    { unfold extracted. cbn [fst]. unfold SprintsMd.parse_sprints_md.
      by rewrite read_missing. }
    split; [done|]. split.
    + unfold migrate_sprints at 1. erewrite outcome_raised by exact He.
      apply elem_of_app. right. do 2 apply list_elem_of_further.
      apply list_elem_of_here.
    + by rewrite after_main_sprints_yml, He.
  - assert ((extracted w).1.2 = Raise (FileNotFoundError ".autoflow/TASK.md")) as He.
    { unfold extracted. cbn [fst snd]. unfold TaskMd.parse_task_md.
      rewrite read_missing; [done|].
      rewrite before_task_document; [done|repeat constructor]. }
    split; [done|]. split.
    + unfold migrate_task at 1. erewrite outcome_raised by exact He.
      apply elem_of_app. right. do 4 apply list_elem_of_further.
      apply list_elem_of_here.
    + by rewrite after_main_task_yml, He.
  - assert ((extracted w).2
            = Raise (FileNotFoundError ".autoflow/COMPLETED_TASKS.md")) as He.
    { unfold extracted. cbn [snd]. unfold CompletedTasksMd.parse_completed_tasks_md.
      rewrite read_missing; [done|].
      rewrite before_completed_document; [done|repeat constructor]. }
    split; [done|]. split.
    + unfold migrate_completed at 1. erewrite outcome_raised by exact He.
      apply elem_of_app. right. do 6 apply list_elem_of_further.
      apply list_elem_of_here.
    + by rewrite after_main_completed_yml, He.
Qed.

(** X18. [main] changes no file but its three outputs, and no output that
    cannot be written; it creates and removes no other file, and it
    leaves the permissions and the clock as they were. *)
Theorem main_changes_only_the_outputs (w : World) :
  (∀ path, path ∉ outputs ∨ path ∈ readonly w →
     files (main w).2 !! path = files w !! path) ∧
  readonly (main w).2 = readonly w ∧
  clock (main w).2 = clock w.
Proof.
  rewrite main_run. cbn [snd]. split_and!.
  - intros path Hpath. by apply after_main_other.
  - apply after_main_readonly.
  - apply after_main_clock.
Qed.

(** X19. With a clock that does not move, a second run of [main] leaves
    every file as the first run left it: the outputs are written again
    with the same text. *)
Theorem second_run_writes_the_same_files (w : World) :
  frozen_clock w →
  files (main (main w).2).2 = files (main w).2.
Proof.
  intros Hclock. rewrite !main_run. cbn [snd].
  set (w' := after_main w).
  assert (∀ path, path ∈ documents → files w' !! path = files w !! path) as Hdocs.
  { intros path Hpath. apply after_main_other. left. intros Hout.
    by apply (yml_not_document path). }
  assert (readonly w' = readonly w) as Hro by apply after_main_readonly.
  assert (clock w' = clock w) as Hcl by apply after_main_clock.
  assert ((extracted w').1.1 = (extracted w).1.1) as H1.
  { unfold extracted. cbn [fst]. apply parse_sprints_md_rel.
    - apply (Hdocs ".autoflow/SPRINTS.md"). repeat constructor.
    - cbn [clock ticks before_sprints printing]. rewrite Hcl. apply Hclock. }
  assert ((extracted w').1.2 = (extracted w).1.2) as H2.
  { unfold extracted. cbn [fst snd]. apply parse_task_md_rel.
    - rewrite !before_task_document by repeat constructor.
      apply (Hdocs ".autoflow/TASK.md"). repeat constructor.
    - rewrite !before_task_clock, Hcl. apply Hclock. }
  assert ((extracted w').2 = (extracted w).2) as H3.
  { unfold extracted. cbn [snd]. apply parse_completed_tasks_md_rel.
    - rewrite !before_completed_document by repeat constructor.
      apply (Hdocs ".autoflow/COMPLETED_TASKS.md"). repeat constructor.
    - rewrite !before_completed_clock, Hcl. apply Hclock. }
  apply map_eq. intros path.
  destruct (decide (path = ".autoflow/SPRINTS.yml")) as [->|Hn1].
  { rewrite after_main_sprints_yml, H1, Hro. unfold w'.
    rewrite (after_main_sprints_yml w).
    destruct ((extracted w).1.1); [|done]. by case_decide. }
  destruct (decide (path = ".autoflow/TASK.yml")) as [->|Hn2].
  { rewrite after_main_task_yml, H2, Hro. unfold w'.
    rewrite (after_main_task_yml w).
    destruct ((extracted w).1.2); [|done]. by case_decide. }
  destruct (decide (path = ".autoflow/COMPLETED_TASKS.yml")) as [->|Hn3].
  { rewrite after_main_completed_yml, H3, Hro. unfold w'.
    rewrite (after_main_completed_yml w).
    destruct ((extracted w).2); [|done]. by case_decide. }
  apply after_main_other. left. unfold outputs. intros Hin.
  repeat (apply elem_of_cons in Hin as [->|Hin]; [done|]).
  by apply elem_of_nil in Hin.
Qed.

End RunProperties.

(** * The properties on concrete documents *)

Section Examples.
#[local] Existing Instance ascii_data.






(** C3 fails on the code: the marker is removed by dropping three
    characters, which is right for [1. ] and [12.] and leaves [. Presets]
    of [100. Presets]. *)
Lemma three_digit_marker_is_not_removed :
  ∃ data w' s,
    SprintsMd.parse_sprints_md
      (world_of [(".autoflow/SPRINTS.md", numbered_deliverables_md)]) = (Ok data, w') ∧
    SprintsData.sprints data = [s] ∧
    Sprint.deliverables s = [u "Upload"; u "Export"; u ". Presets"].
Proof.
  eexists _, _, _.
  split; [vm_compute; reflexivity|]. split; reflexivity.
Qed.


(** The scenario of the specification: the line [- [x] Export works] of
    a recognised block gives the criterion [Export works], completed; the
    blank marker gives a criterion that is not completed; the blocker
    line [None] gives a null blockers field. *)
Lemma export_works_scenario :
  ∃ data w' t1 t2,
    TaskMd.parse_task_md task_world = (Ok data, w') ∧
    TaskData.tasks data = [t1; t2] ∧
    Task.acceptance_criteria t1
      = [ {| Criterion.criterion := u "Format chosen"; Criterion.completed := false |};
          {| Criterion.criterion := u "Export works"; Criterion.completed := true |} ] ∧
    Task.blockers t1 = None ∧
    Task.blockers t2 = Some (u "waiting for task-020").
Proof.
  eexists _, _, _, _. split; [vm_compute; reflexivity|].
  split; [reflexivity|]. split_and!; reflexivity.
Qed.



(** The second task of [active_task_md]: its span holds the text of a
    description and no boundary after the label, and the record's
    description is empty. *)
Lemma description_without_boundary_is_dropped :
  ∃ m1 m2 data w' t1 t2,
    re_finditer TaskMd.task_pattern active_task_md [MULTILINE] = [m1; m2] ∧
    TaskMd.parse_task_md task_world = (Ok data, w') ∧
    TaskData.tasks data = [t1; t2] ∧
    contains (py "**Description**:\nUndo the last change.")
      (TaskMd.task_section active_task_md m2) = true ∧
    ¬ description_boundary (TaskMd.task_section active_task_md m2) ∧
    Task.description t1 = u "Export the image." ∧
    Task.description t2 = [].
Proof.
  eexists _, _, _, _, _, _. split; [vm_compute; reflexivity|].
  split; [vm_compute; reflexivity|]. split; [reflexivity|].
  split; [vm_compute; reflexivity|]. split; [|split; vm_compute; reflexivity].
  intros Hb%boundary_after_label_spec. vm_compute in Hb. discriminate.
Qed.


(** The two tasks of [completed_log_md]: both metric lines, and none. *)
Lemma quality_metrics_scenario :
  ∃ data w' t1 t2,
    CompletedTasksMd.parse_completed_tasks_md task_world = (Ok data, w') ∧
    CompletedData.tasks data = [t1; t2] ∧
    CompletedTask.quality_metrics t1
      = <["code_coverage" := u "85%"]> (<["tests_passing" := u "12/12"]> ∅) ∧
    CompletedTask.quality_metrics t2 = ∅ ∧
    ToPy.quality_metrics (CompletedTask.quality_metrics t1)
      = PDict [("tests_passing", PStr (u "12/12")); ("code_coverage", PStr (u "85%"))] ∧
    ToPy.quality_metrics (CompletedTask.quality_metrics t2) = PDict [].
Proof.
  eexists _, _, _, _. split; [vm_compute; reflexivity|].
  split; [reflexivity|]. split_and!; vm_compute; reflexivity.
Qed.

#[local] Existing Instance kind_yaml.

(** C8 on a first run and on a second run that starts from the files that
    the first left, with the clock set back. *)
Lemma two_runs_return_equal_records_witness :
  same_documents first_run_world second_run_world ∧
  same_clock first_run_world second_run_world ∧
  untimed (extracted first_run_world) = untimed (extracted second_run_world) ∧
  extracted first_run_world = extracted second_run_world ∧
  same_documents first_run_world (after_main first_run_world).
Proof.
  assert (Hsame : same_documents first_run_world second_run_world).
  { intros path Hpath.
    repeat (apply elem_of_cons in Hpath as [->|Hpath]; [vm_compute; reflexivity|]).
    by apply elem_of_nil in Hpath. }
  assert (Hclock : same_clock first_run_world second_run_world).
  { split; reflexivity. }
  destruct (two_runs_return_equal_records first_run_world second_run_world Hsame)
    as (Hu & He & Hd).
  split; [exact Hsame|]. split; [exact Hclock|].
  split; [exact Hu|]. split; [exact (He Hclock)|exact Hd].
Defined.

(** The second run starts from a world that differs from the first: the
    three output files are there. *)
Lemma second_run_sees_the_outputs :
  files first_run_world !! ".autoflow/SPRINTS.yml" = None ∧
  is_Some (files second_run_world !! ".autoflow/SPRINTS.yml") ∧
  is_Some (files second_run_world !! ".autoflow/TASK.yml") ∧
  is_Some (files second_run_world !! ".autoflow/COMPLETED_TASKS.yml").
Proof. split_and!; vm_compute; (reflexivity || by eexists). Qed.

(** A run in which the second pipeline cannot read its document and the
    third cannot write its output: the first pipeline succeeds, the two
    failures are printed, and the banner still comes. *)
Lemma failures_do_not_stop_the_run :
  ∃ w',
    Orchestrator.main broken_world = (Ok (), w') ∧
    stdout w'
    = [Text (py "üîÑ Migrating auto-flow files from Markdown to YAML...\n");
       Text (py "1. Migrating SPRINTS.md to SPRINTS.yml...");
       Text (py "   ‚úÖ SPRINTS.yml created successfully\n");
       Text (py "2. Migrating TASK.md to TASK.yml...");
       ErrorText (FileNotFoundError ".autoflow/TASK.md");
       Text (py "3. Migrating COMPLETED_TASKS.md to COMPLETED_TASKS.yml...");
       ErrorText (PermissionError ".autoflow/COMPLETED_TASKS.yml");
       Text (py "‚ú® Migration complete!");
       Text (py "\nNext steps:");
       Text (py "  1. Review the generated YAML files");
       Text (py "  2. Backup the Markdown files");
       Text (py "  3. Test with auto-flow commands")] ∧
    is_Some (files w' !! ".autoflow/SPRINTS.yml") ∧
    files w' !! ".autoflow/TASK.yml" = None ∧
    files w' !! ".autoflow/COMPLETED_TASKS.yml" = None.
Proof.
  eexists. split; [vm_compute; reflexivity|].
  split_and!; vm_compute; (reflexivity || by eexists).
Qed.



(** The records of [sprint_plan_md]: the third deliverable keeps what
    its three-digit number leaves, the second sprint ends at the heading
    that is not recognised, and the task under that heading is in no
    sprint; the current sprint is the first that is active. *)
Lemma sprint_plan_scenario :
  ∃ data w',
    SprintsMd.parse_sprints_md sprint_plan_world = (Ok data, w') ∧
    SprintsData.project data
      = {| Project.name := u "CraftyPrep "; Project.total_sprints := 3;
           Project.current_sprint := 2; Project.last_updated := u "2025-10-05" |} ∧
    Sprint.id <$> SprintsData.sprints data = [1; 2; 3]%Z ∧
    Sprint.deliverables <$> SprintsData.sprints data
      = [[u "Upload"; u "Export"; u ". Presets"]; []; []] ∧
    (λ s, SprintTask.id <$> Sprint.tasks s) <$> SprintsData.sprints data
      = [[u "task-001"]; [u "task-002"]; []] ∧
    (λ s, SprintTask.title <$> Sprint.tasks s) <$> SprintsData.sprints data
      = [[u "Project setup"]; [u "Grayscale"]; []] ∧
    contains (u "`task-099`") sprint_plan_md = true.
Proof.
  eexists _, _. split; [vm_compute; reflexivity|]. split_and!; vm_compute; reflexivity.
Qed.


(** X3 on [sprint_plan_md]. *)
Lemma sprint_tasks_carry_status_and_title_witness :
  files sprint_plan_world !! ".autoflow/SPRINTS.md" = Some sprint_plan_md ∧
  ∃ data w',
    SprintsMd.parse_sprints_md sprint_plan_world = (Ok data, w') ∧
    Forall2
      (λ m s,
         let span := SprintsMd.sprint_content sprint_plan_md m in
         let lines := re_finditer SprintsMd.sprint_task_pattern span [] in
         Forall2
           (λ tm t,
              task_line (slice (m_start tm) (m_end tm) span)
                (group tm 1) (group tm 2) (group tm 3) ∧
              SprintTask.status t = group tm 2 ∧
              SprintTask.title t = strip (group tm 3))
           lines (Sprint.tasks s) ∧
         (∀ pre line rest id st title,
            span = pre ++ line ++ rest → task_line line id st title →
            ∃ tm, tm ∈ lines ∧ m_start tm ≤ length pre < m_end tm))
      (re_finditer SprintsMd.sprint_pattern sprint_plan_md [])
      (SprintsData.sprints data).
Proof.
  assert (files sprint_plan_world !! ".autoflow/SPRINTS.md" = Some sprint_plan_md)
    as Hfile by reflexivity.
  split; [exact Hfile|].
  destruct (SprintsMd.parse_sprints_md sprint_plan_world) as [[data|e] w'] eqn:Hrun;
    [|vm_compute in Hrun; discriminate].
  exists data, w'. split; [reflexivity|].
  exact (sprint_tasks_carry_status_and_title sprint_plan_world w' sprint_plan_md data
           Hfile Hrun).
Defined.

(** X4 on [sprint_plan_md]: the first sprint is complete, the second and
    the third are active, and the current sprint is the second. *)
Lemma current_sprint_is_first_active_witness :
  files sprint_plan_world !! ".autoflow/SPRINTS.md" = Some sprint_plan_md ∧
  ∃ data w' s1 s2 s3,
    SprintsMd.parse_sprints_md sprint_plan_world = (Ok data, w') ∧
    SprintsData.sprints data = [s1] ++ s2 :: [s3] ∧
    Forall (λ s, Sprint.status s ≠ u "ACTIVE") [s1] ∧
    Sprint.status s2 = u "ACTIVE" ∧
    Sprint.status s3 = u "ACTIVE" ∧
    Project.current_sprint (SprintsData.project data) = Sprint.id s2.
Proof.
  assert (files sprint_plan_world !! ".autoflow/SPRINTS.md" = Some sprint_plan_md)
    as Hfile by reflexivity.
  split; [exact Hfile|].
  destruct (SprintsMd.parse_sprints_md sprint_plan_world) as [[data|e] w'] eqn:Hrun;
    [|vm_compute in Hrun; discriminate].
  destruct (current_sprint_is_first_active sprint_plan_world w' sprint_plan_md data
              Hfile Hrun) as [Hfirst _].
  pose proof Hrun as Hval. vm_compute in Hval. injection Hval as <- <-.
  eexists _, _, _, _, _. split; [reflexivity|].
  assert (∀ P Q : Prop, P → (P → Q) → P ∧ Q) as Hcut by tauto.
  apply Hcut; [reflexivity|]. intros Hsprints.
  apply Hcut; [constructor; [by intros ?|constructor]|]. intros Hbefore.
  apply Hcut; [reflexivity|]. intros Hactive.
  split; [reflexivity|].
  exact (Hfirst _ _ _ Hsprints Hbefore Hactive).
Defined.

(** X5 has no hypothesis. On [sprint_plan_md] the span of the second
    sprint ends before the heading that is not recognised. *)
Lemma span_stops_at_unrecognised_heading :
  ∃ m1 m2 m3,
    re_finditer SprintsMd.sprint_pattern sprint_plan_md [] = [m1; m2; m3] ∧
    contains (u "`task-002`") (SprintsMd.sprint_content sprint_plan_md m2) = true ∧
    contains (u "## Sprint 9:") (SprintsMd.sprint_content sprint_plan_md m2) = false ∧
    contains (u "`task-099`") (SprintsMd.sprint_content sprint_plan_md m2) = false ∧
    contains (u "`task-099`") (SprintsMd.sprint_content sprint_plan_md m3) = false.
Proof.
  eexists _, _, _. split; [vm_compute; reflexivity|]. split_and!; vm_compute; reflexivity.
Qed.


(** The sprint record of [active_task_md]. *)
Lemma active_sprint_scenario :
  ∃ data w',
    TaskMd.parse_task_md task_world = (Ok data, w') ∧
    TaskData.sprint data
      = {| ActiveSprint.id := 3; ActiveSprint.goal := u "Presets";
           ActiveSprint.duration := u "TBD"; ActiveSprint.status := u "PLANNED";
           ActiveSprint.progress := {| Progress.completed := 2; Progress.total := 7 |};
           ActiveSprint.last_updated := u "2025-10-05T09:30:00Z" |}.
Proof. eexists _, _. split; vm_compute; reflexivity. Qed.

(** X7 on [active_task_md]. *)
Lemma task_records_follow_headers_witness :
  files task_world !! ".autoflow/TASK.md" = Some active_task_md ∧
  ∃ data w',
    TaskMd.parse_task_md task_world = (Ok data, w') ∧
    Forall2
      (λ m t,
         task_header (slice (m_start m) (m_end m) active_task_md)
           (group m 1) (group m 2) (group m 3) (group m 4) (group m 5) (group m 6) ∧
         Task.id t = group m 3 ∧
         Task.title t = strip (group m 2) ∧
         Task.priority t = group m 4 ∧
         Task.status t = group m 5 ∧
         Task.estimated t = strip (group m 6))
      (re_finditer TaskMd.task_pattern active_task_md [MULTILINE])
      (TaskData.tasks data) ∧
    (∀ pre header rest name title id prio st est,
       active_task_md = pre ++ header ++ rest →
       task_header header name title id prio st est →
       ∃ m, m ∈ re_finditer TaskMd.task_pattern active_task_md [MULTILINE] ∧
            m_start m ≤ length pre < m_end m).
Proof.
  assert (files task_world !! ".autoflow/TASK.md" = Some active_task_md)
    as Hfile by reflexivity.
  split; [exact Hfile|].
  destruct (TaskMd.parse_task_md task_world) as [[data|e] w'] eqn:Hrun;
    [|vm_compute in Hrun; discriminate].
  exists data, w'. split; [reflexivity|].
  exact (task_records_follow_headers task_world w' active_task_md data Hfile Hrun).
Defined.

(** The two Task records of [active_task_md]. *)
Lemma task_records_scenario :
  ∃ data w',
    TaskMd.parse_task_md task_world = (Ok data, w') ∧
    Task.id <$> TaskData.tasks data = [u "task-020"; u "task-021"] ∧
    Task.title <$> TaskData.tasks data = [u "Export"; u "Undo"] ∧
    Task.priority <$> TaskData.tasks data = [u "HIGH"; u "LOW"] ∧
    Task.estimated <$> TaskData.tasks data = [u "4 hours"; u "1 hour"] ∧
    Task.documentation <$> TaskData.tasks data
      = [[ {| DocLink.title := u "Plan";
              DocLink.path := u ".autoflow/tasks/task-020/PLAN.md" |} ]; []].
Proof.
  eexists _, _. split; [vm_compute; reflexivity|]. split_and!; vm_compute; reflexivity.
Qed.

(** X8 on [active_task_md]. *)
Lemma criterion_is_the_text_after_the_marker_witness :
  files task_world !! ".autoflow/TASK.md" = Some active_task_md ∧
  ∃ data w',
    TaskMd.parse_task_md task_world = (Ok data, w') ∧
    Forall2
      (λ m t,
         match re_search TaskMd.criteria_pattern
                 (TaskMd.task_section active_task_md m) [] with
         | Some block =>
             ∃ lines,
               group block 1 = concat ((λ l, l ++ [NL]) <$> lines) ∧
               Forall2
                 (λ line cr,
                    ∃ c text, checklist_line line c text ∧
                              Criterion.criterion cr = strip text)
                 lines (Task.acceptance_criteria t)
         | None => Task.acceptance_criteria t = []
         end)
      (re_finditer TaskMd.task_pattern active_task_md [MULTILINE])
      (TaskData.tasks data).
Proof.
  assert (files task_world !! ".autoflow/TASK.md" = Some active_task_md)
    as Hfile by reflexivity.
  split; [exact Hfile|].
  destruct (TaskMd.parse_task_md task_world) as [[data|e] w'] eqn:Hrun;
    [|vm_compute in Hrun; discriminate].
  exists data, w'. split; [reflexivity|].
  exact (criterion_is_the_text_after_the_marker task_world w' active_task_md data
           Hfile Hrun).
Defined.


(** X10 on [active_task_md]. *)
Lemma documentation_follows_links_witness :
  files task_world !! ".autoflow/TASK.md" = Some active_task_md ∧
  ∃ data w',
    TaskMd.parse_task_md task_world = (Ok data, w') ∧
    Forall2
      (λ m t,
         let links :=
           re_finditer TaskMd.docs_pattern (TaskMd.task_section active_task_md m) [] in
         Forall2
           (λ lm d,
              link_item
                (slice (m_start lm) (m_end lm) (TaskMd.task_section active_task_md m))
                (DocLink.title d) (DocLink.path d))
           links (Task.documentation t) ∧
         (∀ pre item rest title path,
            TaskMd.task_section active_task_md m = pre ++ item ++ rest →
            link_item item title path →
            ∃ lm, lm ∈ links ∧ m_start lm ≤ length pre < m_end lm))
      (re_finditer TaskMd.task_pattern active_task_md [MULTILINE])
      (TaskData.tasks data).
Proof.
  assert (files task_world !! ".autoflow/TASK.md" = Some active_task_md)
    as Hfile by reflexivity.
  split; [exact Hfile|].
  destruct (TaskMd.parse_task_md task_world) as [[data|e] w'] eqn:Hrun;
    [|vm_compute in Hrun; discriminate].
  exists data, w'. split; [reflexivity|].
  exact (documentation_follows_links task_world w' active_task_md data Hfile Hrun).
Defined.

(** X11 on [delivered_log_md]. *)
Lemma completed_records_follow_headers_witness :
  files delivered_log_world !! ".autoflow/COMPLETED_TASKS.md" = Some delivered_log_md ∧
  ∃ data w',
    CompletedTasksMd.parse_completed_tasks_md delivered_log_world = (Ok data, w') ∧
    CompletedProject.name (CompletedData.project data)
      = u "CraftyPrep - Laser Engraving Image Prep Tool" ∧
    Forall2
      (λ m t,
         completed_header (slice (m_start m) (m_end m) delivered_log_md)
           (group m 1) (group m 2) (group m 3) (group m 4) (group m 5) (group m 6)
           (group m 7) ∧
         CompletedTask.title t = strip (group m 1) ∧
         CompletedTask.id t = group m 2 ∧
         CompletedTask.status t = group m 3 ∧
         CompletedTask.completed t = strip (group m 4) ∧
         CompletedTask.estimated t = strip (group m 5) ∧
         CompletedTask.actual t = strip (group m 6) ∧
         CompletedTask.sprint t = strip (group m 7))
      (re_finditer CompletedTasksMd.task_pattern delivered_log_md [MULTILINE])
      (CompletedData.tasks data) ∧
    (∀ pre header rest title id st date est act sprint,
       delivered_log_md = pre ++ header ++ rest →
       completed_header header title id st date est act sprint →
       ∃ m, m ∈ re_finditer CompletedTasksMd.task_pattern delivered_log_md [MULTILINE] ∧
            m_start m ≤ length pre < m_end m).
Proof.
  split; [reflexivity|]. apply completed_records_follow_headers. reflexivity.
Defined.

(** X12 on [delivered_log_md]. *)
Lemma marked_deliverables_drop_four_characters_witness :
  files delivered_log_world !! ".autoflow/COMPLETED_TASKS.md" = Some delivered_log_md ∧
  ∃ data w',
    CompletedTasksMd.parse_completed_tasks_md delivered_log_world = (Ok data, w') ∧
    Forall2
      (λ m t,
         match re_search CompletedTasksMd.deliv_pattern
                 (CompletedTasksMd.task_section delivered_log_md m) [] with
         | Some block =>
             ∃ lines,
               group block 1 = concat ((λ l, l ++ [NL]) <$> lines) ∧
               Forall2
                 (λ line entry,
                    ∃ text,
                      marked_line line text ∧
                      entry = strip (drop 4 line) ∧
                      entry = strip (u "Ö " ++ text) ∧
                      entry ≠ strip text)
                 lines (CompletedTask.deliverables t)
         | None => CompletedTask.deliverables t = []
         end)
      (re_finditer CompletedTasksMd.task_pattern delivered_log_md [MULTILINE])
      (CompletedData.tasks data).
Proof.
  split; [reflexivity|]. apply marked_deliverables_drop_four_characters. reflexivity.
Defined.

(** The record of [delivered_log_md]: the two deliverables begin with
    the last character of the marker, and the commit is the hash without
    what follows it. *)
Lemma delivered_log_scenario :
  ∃ data w',
    CompletedTasksMd.parse_completed_tasks_md delivered_log_world = (Ok data, w') ∧
    CompletedTask.title <$> CompletedData.tasks data = [u "Setup"] ∧
    CompletedTask.deliverables <$> CompletedData.tasks data
      = [[u "Ö Upload widget"; u "Ö Tests"]] ∧
    CompletedTask.commit <$> CompletedData.tasks data = [Some (u "a1b2c3d")] ∧
    CompletedTask.quality_metrics <$> CompletedData.tasks data
      = [ {[ "tests_passing" := u "12/12" ]} ].
Proof.
  eexists _, _. split; [vm_compute; reflexivity|]. split_and!; vm_compute; reflexivity.
Qed.


(** The hash of the one task of [delivered_log_md] stops at the blank. *)
Lemma commit_hash_scenario :
  ∃ m,
    re_finditer CompletedTasksMd.task_pattern delivered_log_md [MULTILINE] = [m] ∧
    first_hash (u "**Commit**:") (CompletedTasksMd.task_section delivered_log_md m)
      (u "a1b2c3d").
Proof.
  eexists. split; [vm_compute; reflexivity|].
  eexists _, [32%N], _, _, _. split_and!;
    [vm_compute; reflexivity..|repeat constructor|vm_compute; reflexivity
    |reflexivity|split; [vm_compute; repeat constructor|vm_compute; reflexivity]].
Qed.


(** X16 on [first_run_world]: the three outputs hold the dumps of the
    three records. *)
Lemma outputs_hold_the_dumps_witness :
  ∃ sprints_data task_data completed_data,
    extracted first_run_world = (Ok sprints_data, Ok task_data, Ok completed_data) ∧
    (".autoflow/SPRINTS.yml" ∉ readonly first_run_world) ∧
    (".autoflow/TASK.yml" ∉ readonly first_run_world) ∧
    (".autoflow/COMPLETED_TASKS.yml" ∉ readonly first_run_world) ∧
    files (Orchestrator.main first_run_world).2 !! ".autoflow/SPRINTS.yml"
      = Some (yaml_dump (ToPy.sprints_data sprints_data)) ∧
    files (Orchestrator.main first_run_world).2 !! ".autoflow/TASK.yml"
      = Some (yaml_dump (ToPy.task_data task_data)) ∧
    files (Orchestrator.main first_run_world).2 !! ".autoflow/COMPLETED_TASKS.yml"
      = Some (yaml_dump (ToPy.completed_data completed_data)).
Proof.
  assert (∀ path, path ∉ readonly first_run_world) as Hwritable.
  { intros path. apply not_elem_of_empty. }
  destruct (outputs_hold_the_dumps first_run_world) as (Hsprints & Htask & Hcompleted).
  destruct (extracted first_run_world) as [[[d1|e1] [d2|e2]] [d3|e3]] eqn:Hex;
    try (vm_compute in Hex; discriminate).
  exists d1, d2, d3. split; [reflexivity|]. split_and!; try apply Hwritable.
  - by apply Hsprints.
  - by apply Htask.
  - by apply Hcompleted.
Defined.

(** X17 on [empty_world]: a run in a directory without documents. *)
Lemma missing_document_is_reported_witness :
  (files empty_world !! ".autoflow/SPRINTS.md" = None ∧
   (extracted empty_world).1.1 = Raise (FileNotFoundError ".autoflow/SPRINTS.md") ∧
   ErrorText (FileNotFoundError ".autoflow/SPRINTS.md")
     ∈ stdout (Orchestrator.main empty_world).2 ∧
   files (Orchestrator.main empty_world).2 !! ".autoflow/SPRINTS.yml"
     = files empty_world !! ".autoflow/SPRINTS.yml") ∧
  (files empty_world !! ".autoflow/TASK.md" = None ∧
   (extracted empty_world).1.2 = Raise (FileNotFoundError ".autoflow/TASK.md") ∧
   ErrorText (FileNotFoundError ".autoflow/TASK.md")
     ∈ stdout (Orchestrator.main empty_world).2 ∧
   files (Orchestrator.main empty_world).2 !! ".autoflow/TASK.yml"
     = files empty_world !! ".autoflow/TASK.yml") ∧
  (files empty_world !! ".autoflow/COMPLETED_TASKS.md" = None ∧
   (extracted empty_world).2
     = Raise (FileNotFoundError ".autoflow/COMPLETED_TASKS.md") ∧
   ErrorText (FileNotFoundError ".autoflow/COMPLETED_TASKS.md")
     ∈ stdout (Orchestrator.main empty_world).2 ∧
   files (Orchestrator.main empty_world).2 !! ".autoflow/COMPLETED_TASKS.yml"
     = files empty_world !! ".autoflow/COMPLETED_TASKS.yml").
Proof.
  destruct (missing_document_is_reported empty_world) as (Hsprints & Htask & Hcompleted).
  split; [|split].
  - split; [reflexivity|]. apply Hsprints. reflexivity.
  - split; [reflexivity|]. apply Htask. reflexivity.
  - split; [reflexivity|]. apply Hcompleted. reflexivity.
Defined.

(** A run in a directory without documents prints three errors between
    the lines of the banner and creates no file. *)
Lemma empty_directory_scenario :
  files (Orchestrator.main empty_world).2 = ∅ ∧
  stdout (Orchestrator.main empty_world).2
  = [Text (py "üîÑ Migrating auto-flow files from Markdown to YAML...\n");
     Text (py "1. Migrating SPRINTS.md to SPRINTS.yml...");
     ErrorText (FileNotFoundError ".autoflow/SPRINTS.md");
     Text (py "2. Migrating TASK.md to TASK.yml...");
     ErrorText (FileNotFoundError ".autoflow/TASK.md");
     Text (py "3. Migrating COMPLETED_TASKS.md to COMPLETED_TASKS.yml...");
     ErrorText (FileNotFoundError ".autoflow/COMPLETED_TASKS.md");
     Text (py "‚ú® Migration complete!");
     Text (py "\nNext steps:");
     Text (py "  1. Review the generated YAML files");
     Text (py "  2. Backup the Markdown files");
     Text (py "  3. Test with auto-flow commands")].
Proof. split; vm_compute; reflexivity. Qed.

(** X18 on [broken_world]: the sprint plan is no output, and the output
    of the completed-task pipeline cannot be written. *)
Lemma main_changes_only_the_outputs_witness :
  (".autoflow/SPRINTS.md" ∉ outputs ∨ ".autoflow/SPRINTS.md" ∈ readonly broken_world) ∧
  files (Orchestrator.main broken_world).2 !! ".autoflow/SPRINTS.md"
    = files broken_world !! ".autoflow/SPRINTS.md" ∧
  (".autoflow/COMPLETED_TASKS.yml" ∉ outputs
   ∨ ".autoflow/COMPLETED_TASKS.yml" ∈ readonly broken_world) ∧
  files (Orchestrator.main broken_world).2 !! ".autoflow/COMPLETED_TASKS.yml"
    = files broken_world !! ".autoflow/COMPLETED_TASKS.yml" ∧
  readonly (Orchestrator.main broken_world).2 = readonly broken_world ∧
  clock (Orchestrator.main broken_world).2 = clock broken_world.
Proof.
  destruct (main_changes_only_the_outputs broken_world) as (Hfiles & Hreadonly & Hclock).
  assert (".autoflow/SPRINTS.md" ∉ outputs
          ∨ ".autoflow/SPRINTS.md" ∈ readonly broken_world) as Hdoc.
  { left. intros Hin.
    repeat (apply elem_of_cons in Hin as [Heq|Hin]; [discriminate|]).
    by apply elem_of_nil in Hin. }
  assert (".autoflow/COMPLETED_TASKS.yml" ∉ outputs
          ∨ ".autoflow/COMPLETED_TASKS.yml" ∈ readonly broken_world) as Hout.
  { right. unfold broken_world. cbn [readonly]. by apply elem_of_singleton. }
  split; [exact Hdoc|]. split; [exact (Hfiles _ Hdoc)|].
  split; [exact Hout|]. split; [exact (Hfiles _ Hout)|].
  split; [exact Hreadonly|exact Hclock].
Defined.

(** X19 on [first_run_world], whose clock does not move. *)
Lemma second_run_writes_the_same_files_witness :
  frozen_clock first_run_world ∧
  files (Orchestrator.main (Orchestrator.main first_run_world).2).2
    = files (Orchestrator.main first_run_world).2.
Proof.
  assert (frozen_clock first_run_world) as Hclock by (intros i j; reflexivity).
  split; [exact Hclock|]. by apply second_run_writes_the_same_files.
Defined.

(** X15 on [active_task_md] and [completed_log_md]. *)
Lemma description_runs_to_the_first_boundary_witness :
  (files task_world !! ".autoflow/TASK.md" = Some active_task_md ∧
   ∃ data w',
     TaskMd.parse_task_md task_world = (Ok data, w') ∧
     Forall2
       (λ m t, ∀ text, first_description (TaskMd.task_section active_task_md m) text →
                       Task.description t = strip text)
       (re_finditer TaskMd.task_pattern active_task_md [MULTILINE])
       (TaskData.tasks data)) ∧
  (files task_world !! ".autoflow/COMPLETED_TASKS.md" = Some completed_log_md ∧
   ∃ data w',
     CompletedTasksMd.parse_completed_tasks_md task_world = (Ok data, w') ∧
     Forall2
       (λ m t,
          ∀ text,
            first_description (CompletedTasksMd.task_section completed_log_md m) text →
            CompletedTask.description t = strip text)
       (re_finditer CompletedTasksMd.task_pattern completed_log_md [MULTILINE])
       (CompletedData.tasks data)).
Proof.
  assert (files task_world !! ".autoflow/TASK.md" = Some active_task_md)
    as Hfile by reflexivity.
  split.
  - split; [exact Hfile|].
    destruct (TaskMd.parse_task_md task_world) as [[data|e] w'] eqn:Hrun;
      [|vm_compute in Hrun; discriminate].
    exists data, w'. split; [reflexivity|].
    exact (proj1 (description_runs_to_the_first_boundary task_world) _ _ _ Hfile Hrun).
  - split; [reflexivity|].
    apply (proj2 (description_runs_to_the_first_boundary task_world)). reflexivity.
Defined.

(** The first task of [active_task_md]: its description is the line
    before the blank line and the next label. *)
Lemma description_scenario :
  ∃ m1 m2 data w' t1 t2,
    re_finditer TaskMd.task_pattern active_task_md [MULTILINE] = [m1; m2] ∧
    first_description (TaskMd.task_section active_task_md m1) (u "Export the image.") ∧
    TaskMd.parse_task_md task_world = (Ok data, w') ∧
    TaskData.tasks data = [t1; t2] ∧
    Task.description t1 = u "Export the image.".
Proof.
  eexists _, _, _, _, _, _. split; [vm_compute; reflexivity|]. split.
  - eexists _, _, _, _. split_and!; vm_compute; reflexivity.
  - split; [vm_compute; reflexivity|]. split; reflexivity.
Qed.

End Examples.
